(** * DocChat: a shallow embedding of [main.py]

    The program is orchestration code around document loaders, a text
    splitter, a vector store, a retrieval chain, an HTTP health check and an
    interactive prompt.  Every one of those is a call into a library or into
    the operating system; the embedding keeps the control flow of [main.py]
    (the guards, the [try]/[except] blocks, the loops, the one assignment to
    [self.vector_db]) and takes the outcome of each outside call from a
    [World]: a family of oracles that answer from the history of everything
    the program has done so far.  Theorems quantify over every [World].

    Conventions.
    - A Python [str] is held as a [string] of the bytes of its UTF-8
      encoding; [len] and slicing count code points, that is, the bytes
      that are not continuation bytes.
    - An outside call either returns a value or raises; a raised exception is
      a [PyExc], which records whether its class derives from [Exception].
    - [console.print] is a call into the terminal library: it either shows
      its text (an event of the trace) or raises, as rich does with a
      [MarkupError] on a text whose markup has an unmatched closing tag, or
      as a closed terminal does.  Which texts it rejects is the
      environment's business: an [Env] is a [World] together with the
      faults of the console and of the folder test.  A [World] alone
      stands for the environment in which neither ever fails.
    - The mutable attribute [self.vector_db] lives in the [State], next to
      the trace, so that a raise keeps whatever was assigned before it. *)

From Stdlib Require Import String Ascii List ZArith QArith Bool Arith Lia.
Import ListNotations.
Local Close Scope Q_scope.
Local Open Scope list_scope.
Local Open Scope string_scope.

(** ** Python values used by the program *)

(** Exceptions.  [except Exception] catches the first constructor only;
    a bare [except:] catches all three. *)
Inductive PyExc : Type :=
| ExceptionInst (cls : string) (msg : string)
| KeyboardInterrupt
| SystemExit.

Definition ValueError (msg : string) : PyExc := ExceptionInst "ValueError" msg.

Definition isinstance_Exception (e : PyExc) : bool :=
  match e with
  | ExceptionInst _ _ => true
  | KeyboardInterrupt | SystemExit => false
  end.

(** [str(e)] *)
Definition str_exc (e : PyExc) : string :=
  match e with
  | ExceptionInst _ msg => msg
  | KeyboardInterrupt | SystemExit => ""
  end.

Inductive Result (A : Type) : Type :=
| Return (a : A)
| Raise (e : PyExc).
Arguments Return {A} a.
Arguments Raise {A} e.

(** A langchain [Document]: [page_content] and the [metadata] dict. *)
Record Document : Type := mkDocument {
  page_content : string;
  metadata : list (string * string)
}.

(** A [pathlib.Path] as the program reads it: [str(p)], [p.name], [p.suffix]. *)
Record Path : Type := mkPath {
  path_str : string;
  path_name : string;
  path_suffix : string
}.

Inductive Loader : Type :=
| PyPDFLoader
| Docx2txtLoader
| UnstructuredExcelLoader
| UnstructuredFileLoader.

(** The handle [Chroma.from_documents] returns; it is an object, hence truthy. *)
Inductive Chroma : Type := ChromaStore (id : nat).

Record Retriever : Type := mkRetriever {
  retr_db : Chroma;
  search_type : string;
  retr_k : Z;
  score_threshold : Q
}.

Record Ollama : Type := mkOllama {
  model : string;
  temperature : Q;
  num_ctx : Z;
  top_k : Z;
  top_p : Q;
  repeat_penalty : Q
}.

Record RetrievalQA : Type := mkRetrievalQA {
  qa_llm : Ollama;
  chain_type : string;
  qa_retriever : Retriever;
  return_source_documents : bool
}.

(** The dict [qa_chain.invoke] returns. *)
Record QAResult : Type := mkQAResult {
  qa_result : string;
  source_documents : list Document
}.

(** [requests.Response] *)
Record Response : Type := mkResponse { status_code : Z }.

(** One element of the list [answer_question] returns:
    [{"source": source, "content": content}]. *)
Record SourceEntry : Type := mkSourceEntry {
  entry_source : string;
  entry_content : string
}.

(** ** Trace and world *)

Inductive Event : Type :=
| Print (text : string)
| PrintPanel (text : string) (title : string) (style : string)
| NewEmbeddings
| NewOllama
| NewTextSplitter
| PathExists (folder : string)
| PathGlob (folder : string)
| LoaderLoad (loader : Loader) (file : string)
| SplitDocuments (documents : list Document)
| ChromaFromDocuments (chunks : list Document)
| AsRetriever (r : Retriever)
| FromChainType (c : RetrievalQA)
| ChainInvoke (query : string)
| RequestsGet (url : string) (timeout : Z)
| Prompt (message : string) (history_file : string).

Definition Trace : Type := list Event.

(** The outside world: what each library call answers, given the events so
    far (oldest first). *)
Record World : Type := mkWorld {
  w_new_embeddings : Trace -> Result unit;
  w_new_ollama : Trace -> Result unit;
  w_new_text_splitter : Trace -> Result unit;
  w_path_exists : Trace -> string -> bool;
  w_path_glob : Trace -> string -> Result (list Path);
  w_loader_load : Trace -> Loader -> string -> Result (list Document);
  w_split_documents : Trace -> list Document -> Result (list Document);
  w_chroma_from_documents : Trace -> list Document -> Result Chroma;
  w_as_retriever : Trace -> Retriever -> Result unit;
  w_from_chain_type : Trace -> RetrievalQA -> Result unit;
  w_chain_invoke : Trace -> RetrievalQA -> string -> Result QAResult;
  w_requests_get : Trace -> string -> Z -> Result Response;
  w_prompt : Trace -> string -> string -> Result string
}.

(** The environment: the world, and what can go wrong around it.
    [console_fault h ev] is the exception [console.print] raises when asked
    to show [ev] after the events [h], if it raises one; [exists_fault h p]
    is the exception [Path(p).exists()] raises, if it raises one instead of
    answering. *)
Record Env : Type := mkEnv {
  world : World;
  console_fault : Trace -> Event -> option PyExc;
  exists_fault : Trace -> string -> option PyExc
}.

(** The environment of a world in which the console shows every text and
    the folder test always answers. *)
Definition quiet (w : World) : Env :=
  mkEnv w (fun _ _ => None) (fun _ _ => None).

Coercion quiet : World >-> Env.

Record State : Type := mkState {
  trace : Trace;
  vector_db : option Chroma
}.

Definition log (ev : Event) (s : State) : State :=
  mkState (trace s ++ [ev])%list (vector_db s).

(** ** The state-and-exception monad of the methods *)

Definition M (A : Type) : Type := State -> Result A * State.

Definition ret {A} (a : A) : M A := fun s => (Return a, s).

Definition raise {A} (e : PyExc) : M A := fun s => (Raise e, s).

Definition bind {A B} (m : M A) (k : A -> M B) : M B :=
  fun s =>
    match m s with
    | (Return a, s') => k a s'
    | (Raise e, s') => (Raise e, s')
    end.

Declare Scope py_scope.
Delimit Scope py_scope with py.
Notation "x <- m ;; k" := (bind m (fun x => k))
  (at level 100, m at next level, right associativity) : py_scope.
Notation "m ;; k" := (bind m (fun _ => k))
  (at level 100, right associativity) : py_scope.
Local Open Scope py_scope.

(** [try: body except Exception as e: handler e] *)
Definition try_except_Exception {A} (body : M A) (handler : PyExc -> M A) : M A :=
  fun s =>
    match body s with
    | (Return a, s') => (Return a, s')
    | (Raise e, s') =>
        if isinstance_Exception e then handler e s' else (Raise e, s')
    end.

(** [try: body except: handler] *)
Definition try_except_bare {A} (body : M A) (handler : M A) : M A :=
  fun s =>
    match body s with
    | (Return a, s') => (Return a, s')
    | (Raise _, s') => handler s'
    end.

(** An outside call: ask the world, record the event. *)
Definition call {A} (oracle : Trace -> Result A) (ev : Event) : M A :=
  fun s => (oracle (trace s), log ev s).

(** Showing [ev] on the console: the event is recorded when the console
    shows it; when the console raises, nothing is shown. *)
Definition console_show (env : Env) (ev : Event) : M unit :=
  fun s =>
    match console_fault env (trace s) ev with
    | Some e => (Raise e, s)
    | None => (Return tt, log ev s)
    end.

(** [console.print(text)] *)
Definition console_print (env : Env) (text : string) : M unit :=
  console_show env (Print text).

(** [console.print(Panel.fit(text, title=title, style=style))] *)
Definition console_print_panel (env : Env) (text title style : string)
  : M unit :=
  console_show env (PrintPanel text title style).

Definition get_vector_db : M (option Chroma) :=
  fun s => (Return (vector_db s), s).

Definition set_vector_db (v : option Chroma) : M unit :=
  fun s => (Return tt, mkState (trace s) v).

(** ** String helpers: [str.lower], slicing, [str.join] *)

(** [str.lower] on the letters [A]-[Z]; every other character is left as
    it is. *)
Definition lower_ascii (c : ascii) : ascii :=
  let n := nat_of_ascii c in
  if (65 <=? n)%nat && (n <=? 90)%nat then ascii_of_nat (n + 32) else c.

Fixpoint lower (s : string) : string :=
  match s with
  | EmptyString => EmptyString
  | String c r => String (lower_ascii c) (lower r)
  end.

(** A byte [10xxxxxx] continues the code point begun before it. *)
Definition is_continuation_byte (c : ascii) : bool :=
  let n := nat_of_ascii c in (128 <=? n)%nat && (n <? 192)%nat.

(** [len(s)]: the number of code points. *)
Fixpoint len (s : string) : nat :=
  match s with
  | EmptyString => O
  | String c r => if is_continuation_byte c then len r else S (len r)
  end.

(** [s[:n]]: the first [n] code points, each with all its bytes. *)
Fixpoint slice_to (n : nat) (s : string) : string :=
  match s with
  | EmptyString => EmptyString
  | String c r =>
      if is_continuation_byte c then String c (slice_to n r)
      else
        match n with
        | O => EmptyString
        | S n' => String c (slice_to n' r)
        end
  end.

(** Whether a string starts at the first byte of a character. *)
Definition at_character_boundary (s : string) : bool :=
  match s with
  | EmptyString => true
  | String c _ => negb (is_continuation_byte c)
  end.

Definition nl : string := String (ascii_of_nat 10) EmptyString.

(** [sep.join(parts)] *)
Fixpoint join (sep : string) (parts : list string) : string :=
  match parts with
  | [] => ""
  | [p] => p
  | p :: rest => p ++ sep ++ join sep rest
  end.

(** ** Dicts *)

(** [d.get(key, default)] *)
Fixpoint dict_get (d : list (string * string)) (key default : string) : string :=
  match d with
  | [] => default
  | (k, v) :: r => if String.eqb k key then v else dict_get r key default
  end.

(** [d[key] = value] on an insertion-ordered dict: an existing key keeps its
    place and takes the new value, a new key goes last. *)
Fixpoint dict_set {V} (d : list (string * V)) (key : string) (value : V)
  : list (string * V) :=
  match d with
  | [] => [(key, value)]
  | (k, v) :: r =>
      if String.eqb k key then (k, value) :: r
      else (k, v) :: dict_set r key value
  end.

(** [list(d.values())] *)
Definition dict_values {V} (d : list (string * V)) : list V := map snd d.

(** ** [DocumentChatbot] *)

Definition DOCS_PATH : string := "./documents".

(** The [loaders] dict of [load_documents]. *)
Definition loaders (ext : string) : option Loader :=
  if String.eqb ext ".pdf" then Some PyPDFLoader
  else if String.eqb ext ".docx" then Some Docx2txtLoader
  else if String.eqb ext ".xlsx" then Some UnstructuredExcelLoader
  else if String.eqb ext ".doc" then Some Docx2txtLoader
  else if String.eqb ext ".xls" then Some UnstructuredExcelLoader
  else None.

Definition llm : Ollama := mkOllama "llama3" 0.1 2048 40 0.9 1.1.

Definition not_loaded_answer : string := "Documents not loaded properly.".

Definition error_answer : string :=
  "Sorry, I encountered an error processing your question.".

(** [doc.metadata.get('source', 'Unknown source')] *)
Definition doc_source (doc : Document) : string :=
  dict_get (metadata doc) "source" "Unknown source".

(** [doc.page_content[:250] + ('...' if len(doc.page_content) > 250 else '')] *)
Definition preview (text : string) : string :=
  slice_to 250 text ++ (if (250 <? len text)%nat then "..." else "").

(** The body of the [for doc in result["source_documents"]] loop. *)
Definition record_source (d : list (string * SourceEntry)) (doc : Document)
  : list (string * SourceEntry) :=
  let source := doc_source doc in
  let content := preview (page_content doc) in
  dict_set d source (mkSourceEntry source content).

(** The loop itself, from the empty dict [unique_sources = {}]. *)
Definition unique_sources (docs : list Document) : list (string * SourceEntry) :=
  fold_left record_source docs [].

Section Program.

Variable env : Env.

Local Abbreviation w := (world env).
Local Abbreviation console_print := (console_print env).
Local Abbreviation console_print_panel := (console_print_panel env).

(** [DocumentChatbot.__init__] *)
Definition DocumentChatbot : M unit :=
  try_except_Exception
    (call (w_new_embeddings w) NewEmbeddings ;;
     call (w_new_ollama w) NewOllama ;;
     call (w_new_text_splitter w) NewTextSplitter ;;
     set_vector_db None ;;
     console_print "[green]✅ Models loaded successfully[/]")
    (fun e =>
       console_print ("[red]❌ Initialization error: " ++ str_exc e ++ "[/]") ;;
       raise e).

(** The [except Exception as e] clause of the loop over the files, for an
    exception [e] that left the [try] block when the list was [documents]. *)
Definition load_failure (file_path : Path) (documents : list Document)
  (e : PyExc) : M (list Document) :=
  if isinstance_Exception e
  then console_print ("[red]✗[/] " ++ path_name file_path
                      ++ " (error: " ++ str_exc e ++ ")") ;;
       ret documents
  else raise e.

(** One branch of [if ext in loaders]: build the loader [cls], load, extend
    the list, print the status line; all of it under the [try].  The list
    is extended in place before the status line is printed, so it keeps
    the new documents even when that print raises. *)
Definition load_with (cls : Loader) (status : string) (file_path : Path)
  (documents : list Document) : M (list Document) :=
  fun s =>
    match call (fun h => w_loader_load w h cls (path_str file_path))
               (LoaderLoad cls (path_str file_path)) s with
    | (Raise e, s1) => load_failure file_path documents e s1
    | (Return docs, s1) =>
        match console_print status s1 with
        | (Return _, s2) => (Return (documents ++ docs)%list, s2)
        | (Raise e, s2) => load_failure file_path (documents ++ docs)%list e s2
        end
    end.

(** The body of the [for file_path in ...] loop, [try]/[except] included. *)
Definition load_file (file_path : Path) (documents : list Document)
  : M (list Document) :=
  let ext := lower (path_suffix file_path) in
  match loaders ext with
  | Some cls =>
      load_with cls ("[green]✓[/] " ++ path_name file_path)
                file_path documents
  | None =>
      load_with UnstructuredFileLoader
                ("[yellow]?[/] " ++ path_name file_path ++ " (generic format)")
                file_path documents
  end.

(** The [for] loop of [load_documents]. *)
Fixpoint load_files (files : list Path) (documents : list Document)
  : M (list Document) :=
  match files with
  | [] => ret documents
  | file_path :: rest =>
      documents' <- load_file file_path documents ;;
      load_files rest documents'
  end.

(** What [load_documents] does once the loop is over: the emptiness test,
    the splitter, the vector store, the assignment to [self.vector_db]. *)
Definition index_documents (documents : list Document) : M unit :=
  match documents with
  | [] => raise (ValueError "No valid documents found!")
  | _ :: _ =>
      chunks <- call (fun h => w_split_documents w h documents)
                     (SplitDocuments documents) ;;
      db <- call (fun h => w_chroma_from_documents w h chunks)
                 (ChromaFromDocuments chunks) ;;
      set_vector_db (Some db) ;;
      console_print "[green]✅ Documents indexed successfully[/]"
  end.

Definition load_documents (folder_path : string) : M unit :=
  found <- (fun s => (match exists_fault env (trace s) folder_path with
                      | Some e => Raise e
                      | None => Return (w_path_exists w (trace s) folder_path)
                      end,
                      log (PathExists folder_path) s)) ;;
  if negb found then raise (ValueError ("Folder not found: " ++ folder_path))
  else
    files <- call (fun h => w_path_glob w h folder_path) (PathGlob folder_path) ;;
    documents <- load_files files [] ;;
    index_documents documents.

(** The [try] block of [answer_question]. *)
Definition answer_body (db : Chroma) (question : string)
  : M (string * list SourceEntry) :=
  let retriever := mkRetriever db "similarity_score_threshold" 10 0.35 in
  call (fun h => w_as_retriever w h retriever) (AsRetriever retriever) ;;
  let qa_chain := mkRetrievalQA llm "stuff" retriever true in
  call (fun h => w_from_chain_type w h qa_chain) (FromChainType qa_chain) ;;
  let query := "Responda em português: " ++ question in
  result <- call (fun h => w_chain_invoke w h qa_chain query) (ChainInvoke query) ;;
  ret (qa_result result, dict_values (unique_sources (source_documents result))).

Definition answer_question (question : string) : M (string * list SourceEntry) :=
  db <- get_vector_db ;;
  match db with
  | None => ret (not_loaded_answer, [])
  | Some db =>
      try_except_Exception
        (answer_body db question)
        (fun e =>
           console_print ("[red]Error processing question: " ++ str_exc e ++ "[/]") ;;
           ret (error_answer, []))
  end.

(** ** [check_ollama] *)

Definition check_ollama : M bool :=
  try_except_bare
    (response <- call (fun h => w_requests_get w h "http://localhost:11434" 5)
                      (RequestsGet "http://localhost:11434" 5) ;;
     ret (status_code response =? 200)%Z)
    (ret false).

(** ** [main] *)

(** [user_input.lower() in ('exit', 'quit', 'sair')] *)
Definition is_exit_keyword (user_input : string) : bool :=
  let l := lower user_input in
  String.eqb l "exit" || String.eqb l "quit" || String.eqb l "sair".

Inductive LoopCtl : Type := Continue | Break.

(** One pass through the body of [while True], with its handlers. *)
Definition chat_iteration : M LoopCtl :=
  fun s =>
    match
      (user_input <- call (fun h => w_prompt w h "❔ Question: " ".chat_history")
                          (Prompt "❔ Question: " ".chat_history") ;;
       if is_exit_keyword user_input then ret Break
       else
         r <- answer_question user_input ;;
         let (answer, sources) := r : string * list SourceEntry in
         console_print_panel answer "💡 Answer" "green" ;;
         match sources with
         | [] => ret Continue
         | _ :: _ =>
             console_print_panel
               (join nl (map (fun src => "[bold]" ++ entry_source src ++ "[/]")
                             sources))
               "📚 Source Documents" "blue" ;;
             ret Continue
         end) s
    with
    | (Return c, s') => (Return c, s')
    | (Raise KeyboardInterrupt, s') =>
        (console_print (nl ++ "🛑 Shutting down...") ;; ret Break) s'
    | (Raise e, s') =>
        if isinstance_Exception e
        then (console_print ("[red]Chat error: " ++ str_exc e ++ "[/]") ;;
              ret Continue) s'
        else (Raise e, s')
    end.

(** [while True]: [None] when the loop has not ended within [fuel] passes. *)
Fixpoint chat_loop (fuel : nat) (s : State) : option (Result unit * State) :=
  match fuel with
  | O => None
  | S fuel' =>
      match chat_iteration s with
      | (Return Break, s') => Some (Return tt, s')
      | (Return Continue, s') => chat_loop fuel' s'
      | (Raise e, s') => Some (Raise e, s')
      end
  end.

(** The statements of the outer [try] that come before the loop. *)
Definition startup : M unit :=
  DocumentChatbot ;;
  console_print "[bold]📂 Loading documents...[/]" ;;
  load_documents DOCS_PATH ;;
  console_print ("[green]✅ Ready to answer questions![/]" ++ nl) ;;
  console_print_panel "💬 Chat Mode (type 'exit' to quit)" "" "bold blue".

Definition shutdown_message : string := nl ++ "🔴 ChatBot shutdown complete".

(** The [finally] clause of the outer [try]: print the shutdown message,
    then go on the way the statement was ending (an exception raised by
    the print itself takes over). *)
Definition main_finally (r : Result unit) : M unit :=
  console_print shutdown_message ;;
  match r with
  | Return _ => ret tt
  | Raise e => raise e
  end.

(** The [except Exception] and [finally] clauses of the outer [try], applied
    to the way its block ended.  An exception raised inside the [except]
    clause still goes through [finally]. *)
Definition main_epilogue (r : Result unit) : M unit :=
  match r with
  | Return _ => main_finally (Return tt)
  | Raise e =>
      if isinstance_Exception e
      then fun s =>
             let (handled, s') :=
               console_print ("[red]Critical failure: " ++ str_exc e ++ "[/]") s
             in main_finally handled s'
      else main_finally (Raise e)
  end.

Definition main (fuel : nat) (s : State) : option (Result unit * State) :=
  match
    (console_print_panel "🔧 Starting Document ChatBot" "" "bold blue" ;;
     check_ollama) s
  with
  | (Raise e, s1) => Some (Raise e, s1)
  | (Return false, s1) =>
      Some ((console_print "[red]❌ Ollama is not running![/]" ;;
             console_print "Please first run in another terminal:" ;;
             console_print "[bold yellow]ollama serve[/]") s1)
  | (Return true, s1) =>
      match startup s1 with
      | (Raise e, s2) => Some (main_epilogue (Raise e) s2)
      | (Return _, s2) =>
          match chat_loop fuel s2 with
          | None => None
          | Some (r, s3) => Some (main_epilogue r s3)
          end
      end
  end.

End Program.

(** ** Vocabulary of the statements *)

Definition health_url : string := "http://localhost:11434".

Definition startup_banner : Event :=
  PrintPanel "🔧 Starting Document ChatBot" "" "bold blue".

Definition prompt_event : Event := Prompt "❔ Question: " ".chat_history".

(** The state in which the loop starts: the folder was tested and listed. *)
Definition listed (folder_path : string) (s : State) : State :=
  log (PathGlob folder_path) (log (PathExists folder_path) s).

(** The loader class the loop picks for a file. *)
Definition file_loader (file_path : Path) : Loader :=
  match loaders (lower (path_suffix file_path)) with
  | Some cls => cls
  | None => UnstructuredFileLoader
  end.

Definition load_call (file_path : Path) : Event :=
  LoaderLoad (file_loader file_path) (path_str file_path).

(** The status line of a file whose loader returned. *)
Definition success_line (file_path : Path) : Event :=
  match loaders (lower (path_suffix file_path)) with
  | Some _ => Print ("[green]✓[/] " ++ path_name file_path)
  | None => Print ("[yellow]?[/] " ++ path_name file_path ++ " (generic format)")
  end.

Definition indexed_line : Event :=
  Print "[green]✅ Documents indexed successfully[/]".

Definition failure_line (file_path : Path) (e : PyExc) : Event :=
  Print ("[red]✗[/] " ++ path_name file_path ++ " (error: " ++ str_exc e ++ ")").

Definition is_load_call (ev : Event) : bool :=
  match ev with LoaderLoad _ _ => true | _ => false end.

(** The loader calls of a trace, in order. *)
Definition load_calls (h : Trace) : Trace := filter is_load_call h.

(** Splitting and indexing. *)
Definition is_indexing_event (ev : Event) : bool :=
  match ev with
  | SplitDocuments _ | ChromaFromDocuments _ => true
  | _ => false
  end.

(** What the per-file loop may add to the trace. *)
Definition is_file_loop_event (ev : Event) : bool :=
  match ev with
  | LoaderLoad _ _ | Print _ => true
  | _ => false
  end.

(** The local variables of [answer_question]'s [try] block. *)
Definition retriever_for (db : Chroma) : Retriever :=
  mkRetriever db "similarity_score_threshold" 10 0.35.

Definition qa_chain_for (db : Chroma) : RetrievalQA :=
  mkRetrievalQA llm "stuff" (retriever_for db) true.

Definition query_for (question : string) : string :=
  "Responda em português: " ++ question.

Definition question_error_line (e : PyExc) : Event :=
  Print ("[red]Error processing question: " ++ str_exc e ++ "[/]").

(** The state after [n] passes through the chat loop that all ended in
    [continue] (or fell through to the next pass). *)
Fixpoint continue_passes (env : Env) (n : nat) (s : State) : option State :=
  match n with
  | O => Some s
  | S n' =>
      match chat_iteration env s with
      | (Return Continue, s') => continue_passes env n' s'
      | _ => None
      end
  end.

(** An input line ends the chat by itself: whenever the prompt hands it
    over, the pass breaks out of the loop having done nothing but read it. *)
Definition terminating_input (user_input : string) : Prop :=
  forall (w : World) (s : State),
    w_prompt w (trace s) "❔ Question: " ".chat_history" = Return user_input ->
    chat_iteration w s = (Return Break, log prompt_event s).

(** [x] spells the lower-case word [kw] with each letter in either case. *)
Definition upper_ascii (c : ascii) : ascii :=
  let n := nat_of_ascii c in
  if (97 <=? n)%nat && (n <=? 122)%nat then ascii_of_nat (n - 32) else c.

Definition is_lower_letter (c : ascii) : bool :=
  (97 <=? nat_of_ascii c)%nat && (nat_of_ascii c <=? 122)%nat.

Fixpoint all_lower_letters (kw : string) : bool :=
  match kw with
  | EmptyString => true
  | String k r => is_lower_letter k && all_lower_letters r
  end.

Fixpoint case_variant (kw x : string) : bool :=
  match kw, x with
  | EmptyString, EmptyString => true
  | String k kr, String c xr =>
      (Ascii.eqb c k || Ascii.eqb c (upper_ascii k)) && case_variant kr xr
  | _, _ => false
  end.

(** ** Sample worlds *)

Module Demo.

Fixpoint times (n : nat) (s : string) : string :=
  match n with
  | O => ""
  | S n' => s ++ times n' s
  end.

Definition report_pdf : Path :=
  mkPath "documents/report.pdf" "report.pdf" ".pdf".
Definition notes_txt : Path :=
  mkPath "documents/notes.txt" "notes.txt" ".txt".
Definition broken_docx : Path :=
  mkPath "documents/broken.DOCX" "broken.DOCX" ".DOCX".

Definition page1 : Document :=
  mkDocument "The quarterly revenue was 4.2 million."
             [("source", "documents/report.pdf"); ("page", "0")].
Definition page2 : Document :=
  mkDocument (times 30 "0123456789")
             [("page", "1"); ("source", "documents/report.pdf")].
Definition notes : Document :=
  mkDocument "Remember the meeting." [("source", "documents/notes.txt")].
Definition untitled : Document := mkDocument "No metadata here." [].

(** Two chunks in Portuguese: 200 and 251 times the letter e with an acute
    accent, which takes two bytes in UTF-8. *)
Definition accented_short : Document :=
  mkDocument (times 200 "é") [("source", "documentos/notas.txt")].
Definition accented_long : Document :=
  mkDocument (times 251 "é") [("source", "documentos/relatório.pdf")].
Definition accented_title : Document :=
  mkDocument "Relatório de março" [("source", "documentos/relatório.pdf")].

Definition is_prompt (ev : Event) : bool :=
  match ev with Prompt _ _ => true | _ => false end.

(** A world in which constructors, splitting and indexing succeed; the
    health check, the folder, the loaders, the chain and the user are
    given.  The user's lines are consumed in order; after the last one the
    user interrupts. *)
Definition world (get : Result Response) (folder_exists : bool)
  (files : list Path) (load : Loader -> string -> Result (list Document))
  (invoke : Result QAResult) (inputs : list (Result string)) : World :=
  mkWorld
    (fun _ => Return tt) (fun _ => Return tt) (fun _ => Return tt)
    (fun _ _ => folder_exists)
    (fun _ _ => Return files)
    (fun _ => load)
    (fun _ docs => Return docs)
    (fun _ _ => Return (ChromaStore 0))
    (fun _ _ => Return tt) (fun _ _ => Return tt)
    (fun _ _ _ => invoke)
    (fun _ _ _ => get)
    (fun h _ _ => nth (length (filter is_prompt h)) inputs (Raise KeyboardInterrupt)).

Definition load_ok (cls : Loader) (file : string) : Result (list Document) :=
  match cls with
  | PyPDFLoader => Return [page1; page2]
  | UnstructuredFileLoader => Return [notes]
  | _ => Raise (ExceptionInst "BadZipFile" "File is not a zip file")
  end.

Definition load_nothing (cls : Loader) (file : string) : Result (list Document) :=
  match cls with
  | PyPDFLoader => Return []
  | _ => Raise (ExceptionInst "BadZipFile" "File is not a zip file")
  end.

Definition load_interrupted (cls : Loader) (file : string)
  : Result (list Document) :=
  match cls with
  | Docx2txtLoader => Raise KeyboardInterrupt
  | _ => load_ok cls file
  end.

Definition retrieved : QAResult :=
  mkQAResult "A receita trimestral foi de 4,2 milhões."
             [page1; notes; page2; untitled; untitled].

Definition retrieved_pt : QAResult :=
  mkQAResult "A receita foi de 4,2 milhões." [accented_short; accented_long].

Definition ok_200 : Result Response := Return (mkResponse 200).

Definition all_files : list Path := [report_pdf; broken_docx; notes_txt].

(** Everything works; the user asks one question and then leaves. *)
Definition healthy : World :=
  world ok_200 true all_files load_ok (Return retrieved)
        [Return "What was the quarterly revenue?"; Return "EXIT"].

(** The documents are in Portuguese. *)
Definition portuguese : World :=
  world ok_200 true all_files load_ok (Return retrieved_pt)
        [Return "Qual foi a receita?"; Return "sair"].

(** The backend is down: the request times out. *)
Definition backend_down : World :=
  world (Raise (ExceptionInst "ConnectTimeout" "timed out")) true all_files
        load_ok (Return retrieved) [Return "exit"].

(** The language model fails while answering. *)
Definition generation_fails : World :=
  world ok_200 true all_files load_ok
        (Raise (ExceptionInst "ConnectionError" "connection refused"))
        [Return "What was the quarterly revenue?"; Return "quit"].

(** The user presses Ctrl-C while the chain is running. *)
Definition interrupted_answer : World :=
  world ok_200 true all_files load_ok (Raise KeyboardInterrupt)
        [Return "What was the quarterly revenue?"; Return "quit"].

(** The user presses Ctrl-C while the second file is being loaded. *)
Definition interrupted_load : World :=
  world ok_200 true all_files load_interrupted (Return retrieved)
        [Return "exit"].

(** No file yields a document. *)
Definition empty_corpus : World :=
  world ok_200 true all_files load_nothing (Return retrieved) [Return "exit"].

(** The folder is missing. *)
Definition no_folder : World :=
  world ok_200 false [] load_ok (Return retrieved) [Return "exit"].

Definition fresh : State := mkState [] None.

Definition indexed : State := mkState [] (Some (ChromaStore 0)).

End Demo.

(** ** Vocabulary of the further statements *)

(** What a loader that answers the same at every moment yields for a file:
    its documents, or nothing when it raises. *)
Definition loaded_from (load : Loader -> string -> Result (list Document))
  (file_path : Path) : list Document :=
  match load (file_loader file_path) (path_str file_path) with
  | Return docs => docs
  | Raise _ => []
  end.

(** The status line the loop prints for a file under such a loader. *)
Definition status_line (load : Loader -> string -> Result (list Document))
  (file_path : Path) : Event :=
  match load (file_loader file_path) (path_str file_path) with
  | Return _ =>
      match loaders (lower (path_suffix file_path)) with
      | Some _ => Print ("[green]✓[/] " ++ path_name file_path)
      | None => Print ("[yellow]?[/] " ++ path_name file_path
                       ++ " (generic format)")
      end
  | Raise e => failure_line file_path e
  end.

(** Whether [key] is among the keys of a dict. *)
Definition has_key {V} (d : list (string * V)) (key : string) : bool :=
  existsb (fun k => String.eqb k key) (map fst d).

(** A list of strings with every repetition after the first removed. *)
Fixpoint keep_first (l : list string) : list string :=
  match l with
  | [] => []
  | x :: r => x :: filter (fun y => negb (String.eqb y x)) (keep_first r)
  end.

(** The entry a single document writes into [unique_sources]. *)
Definition entry_of (doc : Document) : SourceEntry :=
  mkSourceEntry (doc_source doc) (preview (page_content doc)).

(** The text of the sources panel. *)
Definition sources_panel_text (sources : list SourceEntry) : string :=
  join nl (map (fun src => "[bold]" ++ entry_source src ++ "[/]") sources).

Definition answer_panel (answer : string) : Event :=
  PrintPanel answer "💡 Answer" "green".

Definition sources_panel (sources : list SourceEntry) : Event :=
  PrintPanel (sources_panel_text sources) "📚 Source Documents" "blue".

Definition interrupt_line : Event := Print (nl ++ "🛑 Shutting down...").

Definition chat_error_line (e : PyExc) : Event :=
  Print ("[red]Chat error: " ++ str_exc e ++ "[/]").

Definition critical_failure_line (e : PyExc) : Event :=
  Print ("[red]Critical failure: " ++ str_exc e ++ "[/]").

Definition initialization_error_line (e : PyExc) : Event :=
  Print ("[red]❌ Initialization error: " ++ str_exc e ++ "[/]").

(** Events of the chat: the prompt and the three calls of a question. *)
Definition is_chat_event (ev : Event) : bool :=
  match ev with
  | Prompt _ _ | AsRetriever _ | FromChainType _ | ChainInvoke _ => true
  | _ => false
  end.

(** Events of the setup: the health check, the constructors, the folder,
    the loaders, the splitter and the vector store. *)
Definition is_setup_event (ev : Event) : bool :=
  match ev with
  | RequestsGet _ _ | NewEmbeddings | NewOllama | NewTextSplitter
  | PathExists _ | PathGlob _ | LoaderLoad _ _
  | SplitDocuments _ | ChromaFromDocuments _ => true
  | _ => false
  end.

Definition is_chain_invoke (ev : Event) : bool :=
  match ev with ChainInvoke _ => true | _ => false end.

(** What a call of [answer_question] on [question] may add to the trace. *)
Definition question_event (question : string) (ev : Event) : Prop :=
  match ev with
  | AsRetriever _ | FromChainType _ | Print _ => True
  | ChainInvoke query => query = query_for question
  | _ => False
  end.

(** Every query the chain received in the trace [h] is a line the user
    typed: right before the query come the prompt that returned the line
    and the two calls that prepare the chain; the line is no exit keyword,
    and the query is that very line behind the fixed instruction. *)
Definition asked_by_user (w : World) (h : Trace) : Prop :=
  forall (pre : Trace) (query : string) (post : Trace),
    h = (pre ++ ChainInvoke query :: post)%list ->
    exists (h0 : Trace) (user_input : string) (r : Retriever)
           (c : RetrievalQA),
      pre = (h0 ++ [prompt_event; AsRetriever r; FromChainType c])%list
      /\ w_prompt w h0 "❔ Question: " ".chat_history" = Return user_input
      /\ is_exit_keyword user_input = false
      /\ query = query_for user_input.

(** What the prompt answers in state [s]. *)
Definition prompt_of (w : World) (s : State) : Result string :=
  w_prompt w (trace s) "❔ Question: " ".chat_history".

(** The two [except] clauses of the chat loop, applied to an exception
    that left the body of a pass. *)
Definition chat_handler (env : Env) (e : PyExc) : M LoopCtl :=
  match e with
  | KeyboardInterrupt => console_show env interrupt_line ;; ret Break
  | ExceptionInst _ _ => console_show env (chat_error_line e) ;; ret Continue
  | SystemExit => raise e
  end.

(** The two panels of an answered question. *)
Definition show_answer (env : Env) (answer : string)
  (sources : list SourceEntry) : M unit :=
  console_show env (answer_panel answer) ;;
  match sources with
  | [] => ret tt
  | _ :: _ => console_show env (sources_panel sources)
  end.

(** The [except] clause of [__init__], applied to an exception raised in
    its [try] block: report and re-raise. *)
Definition init_failure (env : Env) (e : PyExc) : M unit :=
  if isinstance_Exception e
  then console_show env (initialization_error_line e) ;; raise e
  else raise e.

(** The exception [e] was raised by the console while one of the two
    [except] clauses of the chat loop was printing its line. *)
Definition raised_in_chat_handler (env : Env) (e : PyExc) : Prop :=
  exists h : Trace,
    console_fault env h interrupt_line = Some e
    \/ exists e0, isinstance_Exception e0 = true
                  /\ console_fault env h (chat_error_line e0) = Some e.

(** The console shows everything a run is about to print. *)
Definition console_works (env : Env) : Prop :=
  forall (h : Trace) (ev : Event), console_fault env h ev = None.

Module Scenario.

(** Standard input is closed: every prompt raises [EOFError]. *)
Definition closed_stdin : World :=
  mkWorld
    (fun _ => Return tt) (fun _ => Return tt) (fun _ => Return tt)
    (fun _ _ => true)
    (fun _ _ => Return Demo.all_files)
    (fun _ => Demo.load_ok)
    (fun _ docs => Return docs)
    (fun _ _ => Return (ChromaStore 0))
    (fun _ _ => Return tt) (fun _ _ => Return tt)
    (fun _ _ _ => Return Demo.retrieved)
    (fun _ _ _ => Demo.ok_200)
    (fun _ _ _ => Raise (ExceptionInst "EOFError" "")).

(** The user presses Ctrl-C at the first prompt. *)
Definition interrupted_prompt : World :=
  Demo.world Demo.ok_200 true Demo.all_files Demo.load_ok
             (Return Demo.retrieved) [].

(** The chain answers but retrieved nothing. *)
Definition nothing_retrieved : World :=
  Demo.world Demo.ok_200 true Demo.all_files Demo.load_ok
             (Return (mkQAResult "Não sei." []))
             [Return "What is the weather?"; Return "sair"].


(** The state of a run of [main] once the health check has passed. *)
Definition checked : State :=
  log (RequestsGet health_url 5) (log startup_banner Demo.fresh).

End Scenario.

(** ** Sample environments with faults *)

Module Faulty.

(** Whether [needle] occurs in [text]. *)
Definition mentions (needle text : string) : bool :=
  match index 0 needle text with
  | Some _ => true
  | None => false
  end.

Definition shown_text (ev : Event) : string :=
  match ev with
  | Print text => text
  | PrintPanel text _ _ => text
  | _ => ""
  end.

Definition markup_error : PyExc :=
  ExceptionInst "MarkupError"
    "closing tag '[/INST]' doesn't match any open tag".

(** A console that, as rich does, rejects every text in which the closing
    tag [[/INST]] occurs: no tag of that name is ever open. *)
Definition rejects_inst (h : Trace) (ev : Event) : option PyExc :=
  if mentions "[/INST]" (shown_text ev) then Some markup_error else None.

(** The chain fails with a message that quotes a prompt template. *)
Definition template_leak : Env :=
  mkEnv
    (Demo.world Demo.ok_200 true Demo.all_files Demo.load_ok
       (Raise (ExceptionInst "ValueError" "unexpected token [/INST]"))
       [Return "What was the quarterly revenue?"; Return "quit"])
    rejects_inst (fun _ _ => None).

(** A loader fails with such a message. *)
Definition load_template_leak (cls : Loader) (file : string)
  : Result (list Document) :=
  match cls with
  | Docx2txtLoader =>
      Raise (ExceptionInst "ValueError" "unexpected token [/INST]")
  | _ => Demo.load_ok cls file
  end.

Definition template_file : Env :=
  mkEnv
    (Demo.world Demo.ok_200 true Demo.all_files load_template_leak
       (Return Demo.retrieved) [Return "exit"])
    rejects_inst (fun _ _ => None).

Definition is_indexing_call (ev : Event) : bool :=
  match ev with ChromaFromDocuments _ => true | _ => false end.

Definition broken_pipe : PyExc :=
  ExceptionInst "BrokenPipeError" "[Errno 32] Broken pipe".

(** The terminal goes away while the vector store is being built: every
    print after the indexing call fails. *)
Definition lost_terminal : Env :=
  mkEnv Demo.healthy
        (fun h _ => if existsb is_indexing_call h then Some broken_pipe
                    else None)
        (fun _ _ => None).

Definition name_too_long : PyExc :=
  ExceptionInst "OSError" "[Errno 36] File name too long".

(** A folder name of 300 characters: it does not exist, and the file
    system refuses to look. *)
Definition long_path : string := Demo.times 300 "x".

Definition strict_filesystem : Env :=
  mkEnv Demo.no_folder (fun _ _ => None)
        (fun _ p => if (255 <? String.length p)%nat then Some name_too_long
                    else None).

End Faulty.

(** * Properties *)

Local Open Scope list_scope.

Arguments log : simpl never.

Ltac unfold_monad :=
  unfold try_except_Exception, try_except_bare, bind, ret, raise, call,
    console_print, console_print_panel, console_show,
    get_vector_db, set_vector_db in *;
  cbn [world console_fault exists_fault quiet] in *.

Lemma trace_log : forall ev s, trace (log ev s) = trace s ++ [ev].
Proof. reflexivity. Qed.

Lemma vector_db_log : forall ev s, vector_db (log ev s) = vector_db s.
Proof. reflexivity. Qed.

(** ** The console *)

Lemma console_show_quiet :
  forall (w : World) (ev : Event) (s : State),
    console_show w ev s = (Return tt, log ev s).
Proof. reflexivity. Qed.

Lemma console_show_ok :
  forall (env : Env) (ev : Event) (s : State),
    console_fault env (trace s) ev = None ->
    console_show env ev s = (Return tt, log ev s).
Proof. intros env ev s H. unfold console_show. rewrite H. reflexivity. Qed.

Lemma console_show_fails :
  forall (env : Env) (ev : Event) (s : State) (e : PyExc),
    console_fault env (trace s) ev = Some e ->
    console_show env ev s = (Raise e, s).
Proof. intros env ev s e H. unfold console_show. rewrite H. reflexivity. Qed.

(** A print either shows its event or raises and shows nothing. *)
Lemma console_show_shape :
  forall (env : Env) (ev : Event) (s : State) r s',
    console_show env ev s = (r, s') ->
    (r = Return tt /\ s' = log ev s /\ console_fault env (trace s) ev = None)
    \/ (exists e, r = Raise e /\ s' = s
                  /\ console_fault env (trace s) ev = Some e).
Proof.
  intros env ev s r s' Hrun. unfold console_show in Hrun.
  destruct (console_fault env (trace s) ev) as [e |]; inversion Hrun; subst.
  - right. exists e. repeat split.
  - left. repeat split.
Qed.

(** ** The health check *)

(** C10. [check_ollama] always returns a boolean and never raises: the
    boolean is [true] exactly when the request returned a response whose
    status code is 200; every other status code gives [false], and so does
    every exception of the request, whatever its class. *)
Theorem check_ollama_total :
  forall (w : World) (s : State),
    exists b : bool,
      check_ollama w s = (Return b, log (RequestsGet health_url 5) s)
      /\ (b = true <->
          exists r, w_requests_get w (trace s) health_url 5 = Return r
                    /\ status_code r = 200%Z)
      /\ (forall r, w_requests_get w (trace s) health_url 5 = Return r ->
                    status_code r <> 200%Z -> b = false)
      /\ (forall e, w_requests_get w (trace s) health_url 5 = Raise e ->
                    b = false).
Proof.
  intros w s. unfold check_ollama, health_url. unfold_monad.
  destruct (w_requests_get w (trace s) "http://localhost:11434" 5)
    as [r | e] eqn:Hget.
  - exists (status_code r =? 200)%Z. split; [reflexivity |].
    split; [| split].
    + split.
      * intros Hb. exists r. split; [reflexivity | now apply Z.eqb_eq].
      * intros [r' [Hr' Hc]]. inversion Hr'; subst. now apply Z.eqb_eq.
    + intros r' Hr' Hc. inversion Hr'; subst. now apply Z.eqb_neq.
    + intros e He. discriminate He.
  - exists false. split; [reflexivity |].
    split; [| split].
    + split; [discriminate |]. intros [r [Hr _]]. discriminate Hr.
    + intros r Hr. discriminate Hr.
    + reflexivity.
Qed.

Lemma check_ollama_false :
  forall (env : Env) (s : State),
    (forall r, w_requests_get (world env) (trace s) health_url 5 = Return r ->
               status_code r <> 200%Z) ->
    check_ollama env s = (Return false, log (RequestsGet health_url 5) s).
Proof.
  intros env s H. unfold check_ollama. unfold_monad. unfold health_url in H.
  destruct (w_requests_get (world env) (trace s) "http://localhost:11434" 5)
    as [r | e] eqn:Hget.
  - simpl. specialize (H r eq_refl). apply Z.eqb_neq in H. rewrite H.
    reflexivity.
  - reflexivity.
Qed.

Lemma check_ollama_true :
  forall (env : Env) (s : State) (r : Response),
    w_requests_get (world env) (trace s) health_url 5 = Return r ->
    status_code r = 200%Z ->
    check_ollama env s = (Return true, log (RequestsGet health_url 5) s).
Proof.
  intros env s r Hget Hc. unfold check_ollama. unfold_monad.
  unfold health_url in Hget. rewrite Hget. simpl. rewrite Hc. reflexivity.
Qed.

(** ** [answer_question] before indexing *)

(** C2. With [self.vector_db] unset, [answer_question] returns the fixed
    answer with an empty source list for every question; nothing is raised,
    no library is called and nothing is printed. *)
Theorem answer_question_not_loaded :
  forall (w : World) (question : string) (s : State),
    vector_db s = None ->
    answer_question w question s
    = (Return ("Documents not loaded properly.", []), s).
Proof.
  intros w question s Hdb. unfold answer_question. unfold_monad.
  rewrite Hdb. reflexivity.
Qed.

Lemma answer_question_not_loaded_witness :
  answer_question Demo.healthy "What was the quarterly revenue?" Demo.fresh
  = (Return ("Documents not loaded properly.", []), Demo.fresh).
Proof.
  apply (answer_question_not_loaded
           Demo.healthy "What was the quarterly revenue?" Demo.fresh).
  reflexivity.
Defined.

(** The guard does not look at the environment at all. *)
Lemma answer_question_unset :
  forall (env : Env) (question : string) (s : State),
    vector_db s = None ->
    answer_question env question s
    = (Return ("Documents not loaded properly.", []), s).
Proof.
  intros env question s Hdb. unfold answer_question. unfold_monad.
  rewrite Hdb. reflexivity.
Qed.

(** ** [load_documents]: the folder test *)

(** C5 (as the code has it). When the existence test answers [False],
    [load_documents] raises the folder-not-found error right after the
    test: the only event is that test, so no file is listed or loaded and
    nothing is indexed.  When the test itself raises, as [Path.exists]
    does with an [OSError] for some paths that do not exist,
    [load_documents] fails with that exception instead, at the same
    point. *)
Theorem load_documents_folder_not_found :
  forall (env : Env) (folder_path : string) (s : State),
    (exists_fault env (trace s) folder_path = None ->
     w_path_exists (world env) (trace s) folder_path = false ->
     load_documents env folder_path s
     = (Raise (ValueError ("Folder not found: " ++ folder_path)),
        log (PathExists folder_path) s))
    /\ (forall e,
           exists_fault env (trace s) folder_path = Some e ->
           load_documents env folder_path s
           = (Raise e, log (PathExists folder_path) s)).
Proof.
  intros env folder_path s. split.
  - intros Hfault Hex. unfold load_documents. unfold_monad.
    rewrite Hfault, Hex. reflexivity.
  - intros e Hfault. unfold load_documents. unfold_monad.
    rewrite Hfault. reflexivity.
Qed.

Lemma load_documents_folder_not_found_witness :
  load_documents Demo.no_folder "./documents" Demo.fresh
  = (Raise (ValueError "Folder not found: ./documents"),
     mkState [PathExists "./documents"] None).
Proof.
  apply (proj1 (load_documents_folder_not_found
                  Demo.no_folder "./documents" Demo.fresh));
    reflexivity.
Defined.

(** C5, the claim as worded, fails: for a folder name of 300 characters,
    which does not exist, the existence test raises [OSError] and
    [load_documents] fails with it, not with the folder-not-found error. *)
Lemma load_documents_unreadable_path :
  w_path_exists (world Faulty.strict_filesystem) [] Faulty.long_path = false
  /\ load_documents Faulty.strict_filesystem Faulty.long_path Demo.fresh
     = (Raise (ExceptionInst "OSError" "[Errno 36] File name too long"),
        mkState [PathExists Faulty.long_path] None).
Proof.
  split; reflexivity.
Qed.

(** ** [load_documents]: the per-file loop *)

Section LoadDocuments.

Variable env : Env.

Lemma load_failure_run :
  forall (f : Path) (docs : list Document) (e : PyExc) (s : State),
    load_failure env f docs e s
    = if isinstance_Exception e
      then match console_show env (failure_line f e) s with
           | (Return _, s') => (Return docs, s')
           | (Raise e', s') => (Raise e', s')
           end
      else (Raise e, s).
Proof.
  intros f docs e s. unfold load_failure, failure_line.
  destruct (isinstance_Exception e); [| reflexivity].
  unfold bind, ret, console_print.
  destruct (console_show env _ s) as [[[] | e'] s']; reflexivity.
Qed.

(** One pass of the loop, step by step. *)
Lemma load_file_run :
  forall (f : Path) (docs : list Document) (s : State),
    load_file env f docs s
    = match w_loader_load (world env) (trace s) (file_loader f) (path_str f)
      with
      | Raise e => load_failure env f docs e (log (load_call f) s)
      | Return new =>
          match console_show env (success_line f) (log (load_call f) s) with
          | (Return _, s2) => (Return (docs ++ new), s2)
          | (Raise e, s2) => load_failure env f (docs ++ new) e s2
          end
      end.
Proof.
  intros f docs s.
  unfold load_file, load_with, load_call, file_loader, success_line, call,
    console_print.
  destruct (loaders (lower (path_suffix f))) as [cls |]; reflexivity.
Qed.

Lemma load_failure_shape :
  forall (f : Path) (docs : list Document) (e : PyExc) (s : State) r s',
    load_failure env f docs e s = (r, s') ->
    vector_db s' = vector_db s
    /\ exists evs, trace s' = trace s ++ evs
                   /\ Forall (fun ev => is_load_call ev = false
                                        /\ is_file_loop_event ev = true) evs.
Proof.
  intros f docs e s r s' Hrun. rewrite load_failure_run in Hrun.
  destruct (isinstance_Exception e).
  - destruct (console_show env (failure_line f e) s) as [r1 s1] eqn:Hshow.
    destruct (console_show_shape _ _ _ _ _ Hshow)
      as [[-> [-> _]] | [e' [-> [-> _]]]]; inversion Hrun; subst.
    + split; [reflexivity |]. exists [failure_line f e].
      rewrite trace_log. split; [reflexivity | repeat constructor].
    + split; [reflexivity |]. exists []. rewrite app_nil_r.
      split; [reflexivity | constructor].
  - inversion Hrun; subst. split; [reflexivity |]. exists [].
    rewrite app_nil_r. split; [reflexivity | constructor].
Qed.

Lemma success_line_is_print :
  forall f : Path,
    is_load_call (success_line f) = false
    /\ is_file_loop_event (success_line f) = true.
Proof.
  intros f. unfold success_line.
  destruct (loaders (lower (path_suffix f))); split; reflexivity.
Qed.

(** A pass never touches [self.vector_db], starts with the loader call of
    its file and adds nothing but that call and status lines. *)
Lemma load_file_shape :
  forall (f : Path) (docs : list Document) (s : State) r s',
    load_file env f docs s = (r, s') ->
    vector_db s' = vector_db s
    /\ exists evs, trace s' = trace s ++ load_call f :: evs
                   /\ Forall (fun ev => is_load_call ev = false
                                        /\ is_file_loop_event ev = true) evs.
Proof.
  intros f docs s r s' Hrun. rewrite load_file_run in Hrun.
  destruct (w_loader_load (world env) (trace s) (file_loader f) (path_str f))
    as [new | e].
  - destruct (console_show env (success_line f) (log (load_call f) s))
      as [r1 s1] eqn:Hshow.
    destruct (console_show_shape _ _ _ _ _ Hshow)
      as [[-> [-> _]] | [e' [-> [-> _]]]].
    + inversion Hrun; subst. split; [reflexivity |].
      exists [success_line f]. rewrite !trace_log, <- app_assoc.
      split; [reflexivity |].
      constructor; [apply success_line_is_print | constructor].
    + destruct (load_failure_shape _ _ _ _ _ _ Hrun) as [Hdb [evs [Htr Hevs]]].
      split; [exact Hdb |]. exists evs.
      rewrite Htr, trace_log, <- app_assoc. split; [reflexivity | exact Hevs].
  - destruct (load_failure_shape _ _ _ _ _ _ Hrun) as [Hdb [evs [Htr Hevs]]].
    split; [exact Hdb |]. exists evs.
    rewrite Htr, trace_log, <- app_assoc. split; [reflexivity | exact Hevs].
Qed.

Lemma load_files_cons :
  forall (f : Path) (rest : list Path) (docs : list Document) (s : State),
    load_files env (f :: rest) docs s
    = match load_file env f docs s with
      | (Return docs', s') => load_files env rest docs' s'
      | (Raise e, s') => (Raise e, s')
      end.
Proof. reflexivity. Qed.

Lemma load_files_app :
  forall (pre post : list Path) (docs : list Document) (s : State),
    load_files env (pre ++ post) docs s
    = match load_files env pre docs s with
      | (Return docs', s') => load_files env post docs' s'
      | (Raise e, s') => (Raise e, s')
      end.
Proof.
  induction pre as [| f pre IH]; intros post docs s.
  - reflexivity.
  - rewrite <- app_comm_cons, !load_files_cons.
    destruct (load_file env f docs s) as [[docs' | e] s']; [apply IH | reflexivity].
Qed.

(** The loop leaves [self.vector_db] alone and only calls loaders and
    prints. *)
Lemma load_files_shape :
  forall (files : list Path) (docs : list Document) (s : State) r s',
    load_files env files docs s = (r, s') ->
    vector_db s' = vector_db s
    /\ exists evs, trace s' = trace s ++ evs
                   /\ Forall (fun ev => is_file_loop_event ev = true) evs.
Proof.
  induction files as [| f rest IH]; intros docs s r s' Hrun.
  - inversion Hrun; subst. split; [reflexivity |].
    exists []. rewrite app_nil_r. split; [reflexivity | constructor].
  - rewrite load_files_cons in Hrun.
    destruct (load_file env f docs s) as [[docs' | e] s1] eqn:Hone;
      destruct (load_file_shape _ _ _ _ _ Hone) as [Hdb [evs [Htr Hevs]]].
    + destruct (IH _ _ _ _ Hrun) as [Hdb' [evs' [Htr' Hevs']]].
      split; [congruence |].
      exists ((load_call f :: evs) ++ evs').
      rewrite Htr', Htr, <- app_assoc. split; [reflexivity |].
      apply Forall_app. split; [| exact Hevs'].
      constructor; [reflexivity |].
      eapply Forall_impl; [| exact Hevs]. intros ev [_ H]. exact H.
    + inversion Hrun; subst. split; [exact Hdb |].
      exists (load_call f :: evs). split; [exact Htr |].
      constructor; [reflexivity |].
      eapply Forall_impl; [| exact Hevs]. intros ev [_ H]. exact H.
Qed.

(** When the console shows every line and no loader raises outside
    [Exception], the loop runs to its end and has called the loader of
    every file, in order. *)
Lemma load_files_attempts_every_file :
  console_works env ->
  (forall h cls p e, w_loader_load (world env) h cls p = Raise e ->
                     isinstance_Exception e = true) ->
  forall (files : list Path) (docs : list Document) (s : State),
    exists docs' s',
      load_files env files docs s = (Return docs', s')
      /\ load_calls (trace s') = load_calls (trace s) ++ map load_call files.
Proof.
  intros Hconsole Hworld. induction files as [| f rest IH]; intros docs s.
  - exists docs, s. split; [reflexivity |]. simpl. now rewrite app_nil_r.
  - rewrite load_files_cons.
    destruct (load_file env f docs s) as [[docs1 | e] s1] eqn:Hone.
    + destruct (load_file_shape _ _ _ _ _ Hone) as [_ [evs [Htr Hevs]]].
      destruct (IH docs1 s1) as [docs' [s' [Hrun Hcalls]]].
      exists docs', s'. split; [exact Hrun |].
      rewrite Hcalls, Htr. unfold load_calls.
      rewrite filter_app. simpl.
      replace (filter is_load_call evs) with (@nil Event).
      * rewrite <- app_assoc. reflexivity.
      * symmetry. clear - Hevs. induction Hevs as [| ev evs [Hev _] _ IHevs].
        -- reflexivity.
        -- simpl. now rewrite Hev.
    + exfalso. rewrite load_file_run in Hone.
      destruct (w_loader_load (world env) (trace s) (file_loader f)
                  (path_str f)) as [new | e'] eqn:Hload.
      * rewrite (console_show_ok env _ _ (Hconsole _ _)) in Hone.
        discriminate Hone.
      * rewrite load_failure_run, (Hworld _ _ _ _ Hload) in Hone.
        rewrite (console_show_ok env _ _ (Hconsole _ _)) in Hone.
        discriminate Hone.
Qed.

End LoadDocuments.

(** ** [load_documents] as a whole *)

Section LoadDocumentsWhole.

Variable env : Env.

Lemma load_documents_listed :
  forall (folder_path : string) (s : State) (files : list Path),
    exists_fault env (trace s) folder_path = None ->
    w_path_exists (world env) (trace s) folder_path = true ->
    w_path_glob (world env) (trace s ++ [PathExists folder_path]) folder_path
    = Return files ->
    load_documents env folder_path s
    = bind (load_files env files []) (index_documents env)
           (listed folder_path s).
Proof.
  intros folder_path s files Hfault Hex Hglob.
  unfold load_documents, listed. unfold_monad.
  rewrite Hfault, Hex. simpl. rewrite Hglob. reflexivity.
Qed.

(** The tail of [load_documents], step by step. *)
Lemma index_documents_run :
  forall (documents : list Document) (s : State),
    index_documents env documents s
    = match documents with
      | [] => (Raise (ValueError "No valid documents found!"), s)
      | _ :: _ =>
          match w_split_documents (world env) (trace s) documents with
          | Raise e => (Raise e, log (SplitDocuments documents) s)
          | Return chunks =>
              let s1 := log (SplitDocuments documents) s in
              match w_chroma_from_documents (world env)
                      (trace s ++ [SplitDocuments documents]) chunks with
              | Raise e => (Raise e, log (ChromaFromDocuments chunks) s1)
              | Return db =>
                  console_show env indexed_line
                    (mkState
                       (trace s ++ [SplitDocuments documents;
                                    ChromaFromDocuments chunks])
                       (Some db))
              end
          end
      end.
Proof.
  intros documents s. unfold index_documents.
  destruct documents as [| d rest]; [reflexivity |].
  unfold bind at 1, call at 1.
  destruct (w_split_documents (world env) (trace s) (d :: rest))
    as [chunks | e]; [| reflexivity].
  cbn zeta. unfold bind at 1, call at 1.
  rewrite (trace_log (SplitDocuments (d :: rest)) s).
  destruct (w_chroma_from_documents (world env)
              (trace s ++ [SplitDocuments (d :: rest)]) chunks)
    as [db | e]; [| reflexivity].
  unfold bind, set_vector_db, console_print, indexed_line.
  unfold log at 1. cbn [trace vector_db]. unfold log at 1. cbn [trace vector_db].
  rewrite <- app_assoc. reflexivity.
Qed.

(** The tail of [load_documents] either raises with [self.vector_db] as it
    was, or has gone through the splitter and the store and has assigned
    the attribute; after that only the closing print can still fail. *)
Lemma index_documents_cases :
  forall (documents : list Document) (s : State) r s',
    index_documents env documents s = (r, s') ->
    (exists e, r = Raise e /\ vector_db s' = vector_db s)
    \/ (exists chunks db,
           w_split_documents (world env) (trace s) documents = Return chunks
           /\ w_chroma_from_documents (world env)
                (trace s ++ [SplitDocuments documents]) chunks = Return db
           /\ vector_db s' = Some db
           /\ (r = Return tt
               \/ exists e,
                    r = Raise e
                    /\ console_fault env
                         (trace s ++ [SplitDocuments documents;
                                      ChromaFromDocuments chunks])
                         indexed_line = Some e)).
Proof.
  intros documents s r s' Hrun. rewrite index_documents_run in Hrun.
  destruct documents as [| d rest].
  - inversion Hrun; subst. left. eexists. split; reflexivity.
  - destruct (w_split_documents (world env) (trace s) (d :: rest))
      as [chunks | e] eqn:Hsplit.
    + cbn zeta in Hrun.
      destruct (w_chroma_from_documents (world env)
                  (trace s ++ [SplitDocuments (d :: rest)]) chunks)
        as [db | e] eqn:Hindex.
      * right. exists chunks, db. split; [reflexivity |].
        split; [exact Hindex |].
        destruct (console_show_shape _ _ _ _ _ Hrun)
          as [[-> [-> _]] | [e' [-> [-> Hfault]]]].
        -- split; [reflexivity | left; reflexivity].
        -- split; [reflexivity |]. right. exists e'.
           split; [reflexivity | exact Hfault].
      * inversion Hrun; subst. left. eexists. split; reflexivity.
    + inversion Hrun; subst. left. eexists. split; reflexivity.
Qed.

(** Every run of [load_documents]: either it raises with
    [self.vector_db] as it was, or the splitter and the store have both
    returned and the attribute holds the new store; in that case the run
    returns unless the closing print fails. *)
Lemma load_documents_cases :
  forall (folder_path : string) (s : State) r s',
    load_documents env folder_path s = (r, s') ->
    (exists e, r = Raise e /\ vector_db s' = vector_db s)
    \/ (exists h documents chunks db,
           w_split_documents (world env) h documents = Return chunks
           /\ w_chroma_from_documents (world env)
                (h ++ [SplitDocuments documents]) chunks = Return db
           /\ vector_db s' = Some db
           /\ (r = Return tt
               \/ exists e,
                    r = Raise e
                    /\ console_fault env
                         (h ++ [SplitDocuments documents;
                                ChromaFromDocuments chunks])
                         indexed_line = Some e)).
Proof.
  intros folder_path s r s' Hrun.
  destruct (exists_fault env (trace s) folder_path) as [e0 |] eqn:Hfault.
  { unfold load_documents in Hrun. unfold_monad. rewrite Hfault in Hrun.
    inversion Hrun; subst. left. eexists. split; reflexivity. }
  destruct (w_path_exists (world env) (trace s) folder_path) eqn:Hex.
  - destruct (w_path_glob (world env) (trace s ++ [PathExists folder_path])
                folder_path) as [files | e] eqn:Hglob.
    + rewrite (load_documents_listed _ _ _ Hfault Hex Hglob) in Hrun.
      unfold bind in Hrun.
      destruct (load_files env files [] (listed folder_path s))
        as [[documents | e] s1] eqn:Hloop;
        destruct (load_files_shape _ _ _ _ _ _ Hloop) as [Hdb _].
      * destruct (index_documents_cases _ _ _ _ Hrun)
          as [[e [Hr Hdb']] | [chunks [db [H1 [H2 [H3 H4]]]]]].
        -- left. exists e. split; [exact Hr |]. rewrite Hdb', Hdb. reflexivity.
        -- right. exists (trace s1), documents, chunks, db.
           repeat split; assumption.
      * inversion Hrun; subst. left. exists e. split; [reflexivity | exact Hdb].
    + unfold load_documents in Hrun. unfold_monad.
      rewrite Hfault, Hex in Hrun. simpl in Hrun. rewrite Hglob in Hrun.
      inversion Hrun; subst. left. eexists. split; reflexivity.
  - unfold load_documents in Hrun. unfold_monad.
    rewrite Hfault, Hex in Hrun. simpl in Hrun.
    inversion Hrun; subst. left. eexists. split; reflexivity.
Qed.

End LoadDocumentsWhole.

(** C4. In an existing folder, when the loop over the listed entries ends
    with no document at all, [load_documents] raises the empty-corpus error
    (the [ValueError] saying that no valid documents were found);
    [self.vector_db] is as before and the run contains neither a split nor
    an indexing call. *)
Theorem load_documents_empty_corpus :
  forall (w : World) (folder_path : string) (s : State)
         (files : list Path) (s1 : State),
    w_path_exists w (trace s) folder_path = true ->
    w_path_glob w (trace s ++ [PathExists folder_path]) folder_path
    = Return files ->
    load_files w files [] (listed folder_path s) = (Return [], s1) ->
    load_documents w folder_path s
    = (Raise (ValueError "No valid documents found!"), s1)
    /\ vector_db s1 = vector_db s
    /\ exists evs, trace s1 = trace s ++ evs
                   /\ Forall (fun ev => is_indexing_event ev = false) evs.
Proof.
  intros w folder_path s files s1 Hex Hglob Hloop.
  rewrite (load_documents_listed w _ _ _ eq_refl Hex Hglob). unfold bind.
  rewrite Hloop. split; [reflexivity |].
  destruct (load_files_shape _ _ _ _ _ _ Hloop) as [Hdb [evs [Htr Hevs]]].
  split; [exact Hdb |].
  exists (PathExists folder_path :: PathGlob folder_path :: evs).
  split.
  - rewrite Htr. unfold listed. rewrite !trace_log, <- !app_assoc. reflexivity.
  - constructor; [reflexivity |]. constructor; [reflexivity |].
    eapply Forall_impl; [| exact Hevs].
    intros ev Hev. destruct ev; simpl in *; congruence.
Qed.

Lemma load_documents_empty_corpus_witness :
  load_documents Demo.empty_corpus "./documents" Demo.fresh
  = (Raise (ValueError "No valid documents found!"),
     mkState [PathExists "./documents"; PathGlob "./documents";
              LoaderLoad PyPDFLoader "documents/report.pdf";
              Print "[green]✓[/] report.pdf";
              LoaderLoad Docx2txtLoader "documents/broken.DOCX";
              Print "[red]✗[/] broken.DOCX (error: File is not a zip file)";
              LoaderLoad UnstructuredFileLoader "documents/notes.txt";
              Print "[red]✗[/] notes.txt (error: File is not a zip file)"]
             None).
Proof.
  apply (load_documents_empty_corpus Demo.empty_corpus "./documents" Demo.fresh
           Demo.all_files); reflexivity.
Defined.

(** The same holds whatever the console does, as long as the folder test
    answers: the error is raised before anything else is printed. *)
Lemma load_documents_empty_corpus_any_console :
  forall (env : Env) (folder_path : string) (s : State)
         (files : list Path) (s1 : State),
    exists_fault env (trace s) folder_path = None ->
    w_path_exists (world env) (trace s) folder_path = true ->
    w_path_glob (world env) (trace s ++ [PathExists folder_path]) folder_path
    = Return files ->
    load_files env files [] (listed folder_path s) = (Return [], s1) ->
    load_documents env folder_path s
    = (Raise (ValueError "No valid documents found!"), s1)
    /\ vector_db s1 = vector_db s.
Proof.
  intros env folder_path s files s1 Hfault Hex Hglob Hloop.
  rewrite (load_documents_listed env _ _ _ Hfault Hex Hglob). unfold bind.
  rewrite Hloop. split; [reflexivity |].
  exact (proj1 (load_files_shape _ _ _ _ _ _ Hloop)).
Qed.

(** C6 (as the code has it). A file whose loader raises an instance of
    [Exception] does not end the batch as long as its failure line can be
    printed: the exception is caught, the line is printed, the documents
    collected so far are kept, and [load_documents] goes on with the files
    after it and then with indexing, exactly as if the loop had started
    there.  When printing the failure line raises, that exception ends
    [load_documents] right there; and a loader exception outside
    [Exception] is not caught and ends [load_documents] as well. *)
Theorem load_documents_skips_failing_file :
  forall (env : Env) (folder_path : string) (s : State)
         (pre : list Path) (f : Path) (post : list Path)
         (docs1 : list Document) (s1 : State) (e : PyExc),
    exists_fault env (trace s) folder_path = None ->
    w_path_exists (world env) (trace s) folder_path = true ->
    w_path_glob (world env) (trace s ++ [PathExists folder_path]) folder_path
    = Return (pre ++ f :: post) ->
    load_files env pre [] (listed folder_path s) = (Return docs1, s1) ->
    w_loader_load (world env) (trace s1) (file_loader f) (path_str f)
    = Raise e ->
    (isinstance_Exception e = true ->
     (console_fault env (trace s1 ++ [load_call f]) (failure_line f e) = None ->
      load_files env (pre ++ f :: post) [] (listed folder_path s)
      = load_files env post docs1
          (log (failure_line f e) (log (load_call f) s1))
      /\ load_documents env folder_path s
         = bind (load_files env post docs1) (index_documents env)
                (log (failure_line f e) (log (load_call f) s1)))
     /\ (forall e',
            console_fault env (trace s1 ++ [load_call f]) (failure_line f e)
            = Some e' ->
            load_documents env folder_path s
            = (Raise e', log (load_call f) s1)))
    /\ (isinstance_Exception e = false ->
        load_documents env folder_path s = (Raise e, log (load_call f) s1)).
Proof.
  intros env folder_path s pre f post docs1 s1 e Hfault Hex Hglob Hpre Hload.
  assert (Hloop :
            load_files env (pre ++ f :: post) [] (listed folder_path s)
            = match load_failure env f docs1 e (log (load_call f) s1) with
              | (Return docs', s') => load_files env post docs' s'
              | (Raise e', s') => (Raise e', s')
              end).
  { rewrite load_files_app, Hpre, load_files_cons, load_file_run, Hload.
    reflexivity. }
  assert (Hdocs :
            load_documents env folder_path s
            = match load_files env (pre ++ f :: post) []
                      (listed folder_path s) with
              | (Return a, s') => index_documents env a s'
              | (Raise e', s') => (Raise e', s')
              end).
  { rewrite (load_documents_listed _ _ _ _ Hfault Hex Hglob). reflexivity. }
  rewrite load_failure_run in Hloop.
  split.
  - intros He. rewrite He in Hloop. split.
    + intros Hshow.
      rewrite (console_show_ok env (failure_line f e) (log (load_call f) s1)
                 Hshow) in Hloop.
      split; [exact Hloop |]. rewrite Hdocs, Hloop. reflexivity.
    + intros e' Hshow.
      rewrite (console_show_fails env (failure_line f e)
                 (log (load_call f) s1) e' Hshow) in Hloop.
      rewrite Hdocs, Hloop. reflexivity.
  - intros He. rewrite He in Hloop. rewrite Hdocs, Hloop. reflexivity.
Qed.

Lemma load_documents_skips_failing_file_witness :
  load_files Demo.healthy Demo.all_files [] (listed "./documents" Demo.fresh)
  = load_files Demo.healthy [Demo.notes_txt] [Demo.page1; Demo.page2]
      (mkState [PathExists "./documents"; PathGlob "./documents";
                LoaderLoad PyPDFLoader "documents/report.pdf";
                Print "[green]✓[/] report.pdf";
                LoaderLoad Docx2txtLoader "documents/broken.DOCX";
                Print "[red]✗[/] broken.DOCX (error: File is not a zip file)"]
               None)
  /\ load_documents Demo.healthy "./documents" Demo.fresh
     = bind (load_files Demo.healthy [Demo.notes_txt] [Demo.page1; Demo.page2])
            (index_documents Demo.healthy)
            (mkState [PathExists "./documents"; PathGlob "./documents";
                      LoaderLoad PyPDFLoader "documents/report.pdf";
                      Print "[green]✓[/] report.pdf";
                      LoaderLoad Docx2txtLoader "documents/broken.DOCX";
                      Print "[red]✗[/] broken.DOCX (error: File is not a zip file)"]
                     None).
Proof.
  refine (proj1 (proj1 (load_documents_skips_failing_file
           Demo.healthy "./documents" Demo.fresh
           [Demo.report_pdf] Demo.broken_docx [Demo.notes_txt]
           [Demo.page1; Demo.page2]
           (mkState [PathExists "./documents"; PathGlob "./documents";
                     LoaderLoad PyPDFLoader "documents/report.pdf";
                     Print "[green]✓[/] report.pdf"] None)
           (ExceptionInst "BadZipFile" "File is not a zip file")
           _ _ _ _ _) _) _);
    reflexivity.
Defined.

(** The failure line of a file is itself rich markup: when the loader's
    message holds a closing tag that was never opened, printing the line
    raises [MarkupError] inside the handler, and that exception ends
    [load_documents] before the file after it is loaded. *)
Example load_documents_failure_line_rejected :
  In Demo.notes_txt Demo.all_files
  /\ load_documents Faulty.template_file "./documents" Demo.fresh
     = (Raise Faulty.markup_error,
        mkState [PathExists "./documents"; PathGlob "./documents";
                 LoaderLoad PyPDFLoader "documents/report.pdf";
                 Print "[green]✓[/] report.pdf";
                 LoaderLoad Docx2txtLoader "documents/broken.DOCX"]
                None).
Proof.
  split; [simpl; tauto | reflexivity].
Qed.

(** C6, the claim as worded, fails: a loader that raises
    [KeyboardInterrupt] is not caught by [except Exception]; the exception
    leaves [load_documents] and the file after it is never loaded. *)
Lemma load_documents_interrupt_aborts_batch :
  In Demo.notes_txt Demo.all_files
  /\ load_documents Demo.interrupted_load "./documents" Demo.fresh
     = (Raise KeyboardInterrupt,
        mkState [PathExists "./documents"; PathGlob "./documents";
                 LoaderLoad PyPDFLoader "documents/report.pdf";
                 Print "[green]✓[/] report.pdf";
                 LoaderLoad Docx2txtLoader "documents/broken.DOCX"]
                None).
Proof.
  split; [simpl; tauto | reflexivity].
Qed.

(** C9 (as the code has it). [self.vector_db] is assigned after the
    splitter and the vector store have both returned, and before the
    closing message is printed.  So a run of [load_documents] that raises
    leaves the attribute as it was (and, if it was unset, every later
    [answer_question] gives the not-loaded answer and changes nothing),
    except when the exception comes from that closing print: then the
    splitter and the store had returned and the attribute holds the new
    store.  The attribute changes in no other run. *)
Theorem load_documents_failure_keeps_store :
  forall (env : Env) (folder_path : string) (s : State) r s',
    load_documents env folder_path s = (r, s') ->
    (forall e, r = Raise e ->
       (vector_db s' = vector_db s
        /\ (vector_db s = None ->
            forall (env' : Env) (question : string),
              answer_question env' question s'
              = (Return ("Documents not loaded properly.", []), s')))
       \/ (exists h documents chunks db,
              w_split_documents (world env) h documents = Return chunks
              /\ w_chroma_from_documents (world env)
                   (h ++ [SplitDocuments documents]) chunks = Return db
              /\ vector_db s' = Some db
              /\ console_fault env
                   (h ++ [SplitDocuments documents;
                          ChromaFromDocuments chunks])
                   indexed_line = Some e))
    /\ (vector_db s' <> vector_db s ->
        exists h documents chunks db,
          w_split_documents (world env) h documents = Return chunks
          /\ w_chroma_from_documents (world env)
               (h ++ [SplitDocuments documents]) chunks = Return db
          /\ vector_db s' = Some db).
Proof.
  intros env folder_path s r s' Hrun.
  destruct (load_documents_cases env _ _ _ _ Hrun)
    as [[e [Hr Hdb]] | [h [documents [chunks [db [H1 [H2 [H3 H4]]]]]]]].
  - split.
    + intros e' _. left. split; [exact Hdb |].
      intros Hnone env' question. apply answer_question_unset.
      rewrite Hdb. exact Hnone.
    + intros Hchanged. contradiction.
  - split.
    + intros e He. right. exists h, documents, chunks, db.
      split; [exact H1 |]. split; [exact H2 |]. split; [exact H3 |].
      destruct H4 as [Hr | [e' [Hr Hfault]]]; [congruence |].
      rewrite Hr in He. inversion He; subst. exact Hfault.
    + intros _. exists h, documents, chunks, db. repeat split; assumption.
Qed.

Lemma load_documents_failure_keeps_store_witness :
  fst (load_documents Demo.empty_corpus "./documents" Demo.fresh)
  = Raise (ValueError "No valid documents found!")
  /\ vector_db (snd (load_documents Demo.empty_corpus "./documents" Demo.fresh))
     = vector_db Demo.fresh
  /\ answer_question Demo.healthy "What was the quarterly revenue?"
       (snd (load_documents Demo.empty_corpus "./documents" Demo.fresh))
     = (Return ("Documents not loaded properly.", []),
        snd (load_documents Demo.empty_corpus "./documents" Demo.fresh)).
Proof.
  split; [reflexivity |].
  destruct (load_documents_failure_keeps_store
              Demo.empty_corpus "./documents" Demo.fresh
              (Raise (ValueError "No valid documents found!"))
              (snd (load_documents Demo.empty_corpus "./documents" Demo.fresh))
              eq_refl) as [Hfail _].
  destruct (Hfail _ eq_refl) as [[Hdb Hanswer] | Hprint].
  - split; [exact Hdb |].
    exact (Hanswer eq_refl Demo.healthy "What was the quarterly revenue?").
  - split; reflexivity.
Defined.

(** C9, the claim as worded, fails: when the terminal is gone by the time
    the closing message is printed, [load_documents] fails with
    [BrokenPipeError], and yet [self.vector_db], unset before, holds the
    new store, so a later question goes to the chain and does not get the
    not-loaded answer. *)
Lemma load_documents_fails_after_assignment :
  vector_db Demo.fresh = None
  /\ fst (load_documents Faulty.lost_terminal "./documents" Demo.fresh)
     = Raise (ExceptionInst "BrokenPipeError" "[Errno 32] Broken pipe")
  /\ vector_db (snd (load_documents Faulty.lost_terminal "./documents"
                       Demo.fresh))
     = Some (ChromaStore 0)
  /\ fst (answer_question Demo.healthy "What was the quarterly revenue?"
            (snd (load_documents Faulty.lost_terminal "./documents"
                    Demo.fresh)))
     <> Return ("Documents not loaded properly.", []).
Proof.
  repeat split; try reflexivity. vm_compute. discriminate.
Qed.

(** ** Previews and the [unique_sources] dict *)

(** [len] counts characters, not bytes: it is additive, and a byte that
    continues a character adds nothing. *)
Lemma len_app :
  forall a b : string, len (a ++ b)%string = (len a + len b)%nat.
Proof.
  induction a as [| c r IH]; intros b; simpl; [reflexivity |].
  rewrite IH. destruct (is_continuation_byte c); reflexivity.
Qed.

Lemma slice_to_length :
  forall (s : string) (n : nat), len (slice_to n s) = Nat.min n (len s).
Proof.
  induction s as [| c r IH]; intros n; simpl.
  - now rewrite Nat.min_0_r.
  - destruct (is_continuation_byte c) eqn:Hc; simpl.
    + rewrite Hc. apply IH.
    + destruct n as [| n]; simpl; [reflexivity |].
      rewrite Hc, IH. reflexivity.
Qed.

(** A slice is a prefix, and when the string starts at a character it cuts
    between two characters, never inside one. *)
Lemma slice_to_prefix :
  forall (s : string) (n : nat),
    exists tail,
      s = (slice_to n s ++ tail)%string
      /\ (at_character_boundary s = true ->
          at_character_boundary tail = true).
Proof.
  induction s as [| c r IH]; intros n.
  - exists ""%string. split; reflexivity.
  - simpl. destruct (is_continuation_byte c) eqn:Hc.
    + destruct (IH n) as [tail [Htail _]]. exists tail. split.
      * simpl. now rewrite <- Htail.
      * discriminate.
    + destruct n as [| n].
      * exists (String c r). split; [reflexivity |]. intros _. simpl.
        now rewrite Hc.
      * assert (Hcut : forall (t : string) (m : nat),
                   exists tail,
                     t = (slice_to m t ++ tail)%string
                     /\ at_character_boundary tail = true).
        { clear. induction t as [| c r IH]; intros m.
          - exists ""%string. split; reflexivity.
          - simpl. destruct (is_continuation_byte c) eqn:Hc.
            + destruct (IH m) as [tail [Htail Hb]]. exists tail.
              split; [simpl; now rewrite <- Htail | exact Hb].
            + destruct m as [| m].
              * exists (String c r). split; [reflexivity |]. simpl.
                now rewrite Hc.
              * destruct (IH m) as [tail [Htail Hb]]. exists tail.
                split; [simpl; now rewrite <- Htail | exact Hb]. }
        destruct (Hcut r n) as [tail [Htail Hb]]. exists tail.
        split; [simpl; now rewrite <- Htail | intros _; exact Hb].
Qed.

(** The preview is the first [min 250 len] characters of the text, followed
    by the ellipsis exactly when the text has more than 250 characters. *)
Lemma preview_spec :
  forall text : string,
    exists head tail,
      text = (head ++ tail)%string
      /\ len head = Nat.min 250 (len text)
      /\ (at_character_boundary text = true ->
          at_character_boundary tail = true)
      /\ preview text
         = (head ++ (if (250 <? len text)%nat then "..." else ""))%string.
Proof.
  intros text. destruct (slice_to_prefix text 250) as [tail [Htail Hb]].
  exists (slice_to 250 text), tail. split; [exact Htail |].
  split; [apply slice_to_length |]. split; [exact Hb | reflexivity].
Qed.

(** Characters of two bytes are counted once: a text of 200 accented
    letters is 400 bytes long and is its own preview; of 251 such letters
    the preview keeps 250, whole, and adds the ellipsis. *)
Example preview_accented :
  String.length (page_content Demo.accented_short) = 400%nat
  /\ len (page_content Demo.accented_short) = 200%nat
  /\ preview (page_content Demo.accented_short)
     = page_content Demo.accented_short
  /\ preview (page_content Demo.accented_long)
     = (Demo.times 250 "é" ++ "...")%string
  /\ len (preview (page_content Demo.accented_long)) = 253%nat.
Proof. repeat split; vm_compute; reflexivity. Qed.

Section Dict.

Variable V : Type.

Lemma dict_set_keys :
  forall (d : list (string * V)) (key : string) (value : V) (k : string),
    In k (map fst (dict_set d key value)) <-> In k (map fst d) \/ k = key.
Proof.
  induction d as [| [k0 v0] r IH]; intros key value k; simpl.
  - intuition congruence.
  - destruct (String.eqb_spec k0 key) as [Heq | Hneq]; simpl.
    + subst. intuition congruence.
    + rewrite IH. tauto.
Qed.

Lemma dict_set_NoDup :
  forall (d : list (string * V)) (key : string) (value : V),
    NoDup (map fst d) -> NoDup (map fst (dict_set d key value)).
Proof.
  induction d as [| [k0 v0] r IH]; intros key value Hnd; simpl.
  - constructor; [intros [] | constructor].
  - inversion Hnd as [| ? ? Hnotin Hr]; subst.
    destruct (String.eqb_spec k0 key) as [Heq | Hneq]; simpl.
    + constructor; assumption.
    + constructor; [| now apply IH].
      rewrite dict_set_keys. intros [Hin | Heq]; [contradiction | congruence].
Qed.

(** With distinct keys, an item of the updated dict is the new one, or an
    old one under another key. *)
Lemma dict_set_items :
  forall (d : list (string * V)) (key : string) (value : V),
    NoDup (map fst d) ->
    forall k v,
      In (k, v) (dict_set d key value)
      <-> (k = key /\ v = value) \/ (k <> key /\ In (k, v) d).
Proof.
  induction d as [| [k0 v0] r IH]; intros key value Hnd k v; simpl.
  - split.
    + intros [Heq | []]. inversion Heq. left; split; reflexivity.
    + intros [[-> ->] | [_ []]]. left; reflexivity.
  - inversion Hnd as [| ? ? Hnotin Hr]; subst.
    destruct (String.eqb_spec k0 key) as [Heq | Hneq]; simpl.
    + subst k0. split.
      * intros [Heq | Hin].
        -- inversion Heq. left; split; reflexivity.
        -- right. split; [| right; exact Hin].
           intros ->. apply Hnotin. apply (in_map fst) in Hin. exact Hin.
      * intros [[-> ->] | [Hneq [Heq | Hin]]].
        -- left; reflexivity.
        -- inversion Heq. congruence.
        -- right; exact Hin.
    + rewrite (IH key value Hr k v). split.
      * intros [Heq | [[-> ->] | [Hk Hin]]].
        -- inversion Heq; subst. right. split; [exact Hneq | left; reflexivity].
        -- left; split; reflexivity.
        -- right. split; [exact Hk | right; exact Hin].
      * intros [[-> ->] | [Hk [Heq | Hin]]].
        -- right; left; split; reflexivity.
        -- left; exact Heq.
        -- right; right; split; assumption.
Qed.

End Dict.

Lemma unique_sources_fold :
  forall docs, unique_sources docs = fold_left record_source docs [].
Proof. reflexivity. Qed.

(** The loop, started from any dict with distinct keys: the keys stay
    distinct; they are the old keys and the sources of the documents; and
    every item is an old one whose key no document has, or was written by
    the last document with that source. *)
Lemma record_sources_spec :
  forall (docs : list Document) (d : list (string * SourceEntry)),
    NoDup (map fst d) ->
    NoDup (map fst (fold_left record_source docs d))
    /\ (forall k, In k (map fst (fold_left record_source docs d))
                  <-> In k (map fst d) \/ In k (map doc_source docs))
    /\ (forall k v,
          In (k, v) (fold_left record_source docs d) ->
          (In (k, v) d /\ ~ In k (map doc_source docs))
          \/ exists pre doc post,
               docs = pre ++ doc :: post
               /\ ~ In k (map doc_source post)
               /\ k = doc_source doc
               /\ v = mkSourceEntry k (preview (page_content doc))).
Proof.
  induction docs as [| doc rest IH]; intros d Hnd; simpl.
  - split; [exact Hnd |]. split; [tauto |].
    intros k v Hin. left. split; [exact Hin | tauto].
  - assert (Hnd' : NoDup (map fst (record_source d doc)))
      by (apply dict_set_NoDup; exact Hnd).
    destruct (IH _ Hnd') as [Hnodup [Hkeys Hitems]].
    split; [exact Hnodup |]. split.
    + intros k. rewrite Hkeys. unfold record_source. rewrite dict_set_keys.
      intuition congruence.
    + intros k v Hin. destruct (Hitems k v Hin) as [[Hold Hrest] | Hnew].
      * unfold record_source in Hold.
        apply (dict_set_items _ d _ _ Hnd) in Hold.
        destruct Hold as [[-> ->] | [Hneq Hin_d]].
        -- right. exists [], doc, rest. repeat split; [exact Hrest].
        -- left. split; [exact Hin_d |].
           intros [Heq | Hin']; [congruence | contradiction].
      * destruct Hnew as [pre [doc' [post [Hsplit [Hpost [Hk Hv]]]]]].
        right. exists (doc :: pre), doc', post.
        rewrite Hsplit. repeat split; assumption.
Qed.

(** What [list(unique_sources.values())] holds, for every list of
    retrieved documents. *)
Lemma unique_sources_spec :
  forall docs : list Document,
    let sources := dict_values (unique_sources docs) in
    NoDup (map entry_source sources)
    /\ (forall p, In p (map entry_source sources)
                  <-> In p (map doc_source docs))
    /\ (forall entry,
          In entry sources ->
          exists pre doc post,
            docs = pre ++ doc :: post
            /\ ~ In (entry_source entry) (map doc_source post)
            /\ entry_source entry = doc_source doc
            /\ entry_content entry = preview (page_content doc)).
Proof.
  intros docs sources.
  destruct (record_sources_spec docs [] (NoDup_nil _)) as [Hnodup [Hkeys Hitems]].
  rewrite <- unique_sources_fold in *.
  assert (Hsrc : map entry_source sources = map fst (unique_sources docs)).
  { unfold sources, dict_values. rewrite map_map.
    apply map_ext_in. intros [k v] Hin. simpl.
    destruct (Hitems k v Hin) as [[[] _] | [pre [doc [post [_ [_ [Hk Hv]]]]]]].
    subst v. reflexivity. }
  split; [rewrite Hsrc; exact Hnodup |]. split.
  - intros p. rewrite Hsrc, Hkeys. simpl. tauto.
  - intros entry Hin. unfold sources, dict_values in Hin.
    apply in_map_iff in Hin. destruct Hin as [[k v] [Hv Hin]].
    simpl in Hv. subst v.
    destruct (Hitems k entry Hin)
      as [[[] _] | [pre [doc [post [Hsplit [Hpost [Hk Hv]]]]]]].
    exists pre, doc, post. subst entry k. simpl. repeat split; assumption.
Qed.

(** ** [answer_question] with a store *)

Section AnswerQuestion.

Variable env : Env.

(** The [try] block, call by call. *)
Lemma answer_body_run :
  forall (db : Chroma) (question : string) (s : State),
    answer_body env db question s
    = match w_as_retriever (world env) (trace s) (retriever_for db) with
      | Raise e => (Raise e, log (AsRetriever (retriever_for db)) s)
      | Return _ =>
          let s1 := log (AsRetriever (retriever_for db)) s in
          match w_from_chain_type (world env) (trace s1) (qa_chain_for db) with
          | Raise e => (Raise e, log (FromChainType (qa_chain_for db)) s1)
          | Return _ =>
              let s2 := log (FromChainType (qa_chain_for db)) s1 in
              let s3 := log (ChainInvoke (query_for question)) s2 in
              match w_chain_invoke (world env) (trace s2) (qa_chain_for db)
                      (query_for question) with
              | Raise e => (Raise e, s3)
              | Return result =>
                  (Return (qa_result result,
                           dict_values
                             (unique_sources (source_documents result))),
                   s3)
              end
          end
      end.
Proof.
  intros db question s. unfold answer_body. unfold_monad.
  fold (retriever_for db). fold (qa_chain_for db). fold (query_for question).
  destruct (w_as_retriever (world env) (trace s) (retriever_for db));
    [| reflexivity].
  cbn beta iota zeta.
  destruct (w_from_chain_type (world env)
              (trace (log (AsRetriever (retriever_for db)) s))
              (qa_chain_for db)); [| reflexivity].
  cbn beta iota zeta.
  destruct (w_chain_invoke (world env) _ (qa_chain_for db)
              (query_for question));
    reflexivity.
Qed.

(** The [try] statement: the body, then the handler with its print. *)
Lemma answer_question_run :
  forall (question : string) (s : State) (db : Chroma),
    vector_db s = Some db ->
    answer_question env question s
    = match answer_body env db question s with
      | (Return a, s') => (Return a, s')
      | (Raise e, s') =>
          if isinstance_Exception e
          then match console_show env (question_error_line e) s' with
               | (Return _, s2) => (Return (error_answer, []), s2)
               | (Raise e', s2) => (Raise e', s2)
               end
          else (Raise e, s')
      end.
Proof.
  intros question s db Hdb. unfold answer_question. unfold_monad.
  rewrite Hdb. unfold question_error_line.
  destruct (answer_body env db question s) as [[a | e] s']; [reflexivity |].
  destruct (isinstance_Exception e); [| reflexivity].
  destruct (console_fault env (trace s') _); reflexivity.
Qed.

End AnswerQuestion.

(** C1 (as the code has it). With a store in place, whenever a step of the
    [try] block raises an instance of [Exception], [answer_question] prints
    the error line; when that print returns, the result is the apology
    with an empty source list, and when it raises, its exception reaches
    the caller.  An exception of a step that is not an instance of
    [Exception] is not caught.  Those are the only two ways in which
    [answer_question] raises. *)
Theorem answer_question_catches_Exception :
  forall (env : Env) (question : string) (s : State) (db : Chroma),
    vector_db s = Some db ->
    (forall e s',
        answer_body env db question s = (Raise e, s') ->
        isinstance_Exception e = true ->
        (console_fault env (trace s') (question_error_line e) = None ->
         answer_question env question s
         = (Return ("Sorry, I encountered an error processing your question.",
                    []),
            log (question_error_line e) s'))
        /\ (forall e',
               console_fault env (trace s') (question_error_line e) = Some e' ->
               answer_question env question s = (Raise e', s')))
    /\ (forall e s',
           answer_body env db question s = (Raise e, s') ->
           isinstance_Exception e = false ->
           answer_question env question s = (Raise e, s'))
    /\ (forall e s',
           answer_question env question s = (Raise e, s') ->
           exists e0,
             answer_body env db question s = (Raise e0, s')
             /\ ((isinstance_Exception e0 = false /\ e = e0)
                 \/ (isinstance_Exception e0 = true
                     /\ console_fault env (trace s') (question_error_line e0)
                        = Some e))).
Proof.
  intros env question s db Hdb.
  rewrite (answer_question_run env question s db Hdb).
  split; [| split].
  - intros e s' Hbody He. rewrite Hbody, He. split.
    + intros Hshow. rewrite (console_show_ok env _ _ Hshow). reflexivity.
    + intros e' Hshow. rewrite (console_show_fails env _ _ e' Hshow).
      reflexivity.
  - intros e s' Hbody He. rewrite Hbody, He. reflexivity.
  - intros e s' Hrun.
    destruct (answer_body env db question s) as [[a | e0] s0]; [discriminate |].
    destruct (isinstance_Exception e0) eqn:He0.
    + destruct (console_show env (question_error_line e0) s0)
        as [r1 s1] eqn:Hshow.
      destruct (console_show_shape _ _ _ _ _ Hshow)
        as [[-> [-> _]] | [e' [-> [-> Hfault]]]]; [discriminate |].
      inversion Hrun; subst. exists e0. split; [reflexivity |].
      right. split; [exact He0 | exact Hfault].
    + inversion Hrun; subst. exists e. split; [reflexivity |].
      left. split; [exact He0 | reflexivity].
Qed.

Lemma answer_question_catches_Exception_witness :
  answer_question Demo.generation_fails "What was the quarterly revenue?"
    Demo.indexed
  = (Return ("Sorry, I encountered an error processing your question.", []),
     mkState
       [AsRetriever (retriever_for (ChromaStore 0));
        FromChainType (qa_chain_for (ChromaStore 0));
        ChainInvoke (query_for "What was the quarterly revenue?");
        Print "[red]Error processing question: connection refused[/]"]
       (Some (ChromaStore 0))).
Proof.
  apply (proj1 (proj1 (answer_question_catches_Exception
                         Demo.generation_fails
                         "What was the quarterly revenue?"
                         Demo.indexed (ChromaStore 0) eq_refl)
                  (ExceptionInst "ConnectionError" "connection refused")
                  (mkState
                     [AsRetriever (retriever_for (ChromaStore 0));
                      FromChainType (qa_chain_for (ChromaStore 0));
                      ChainInvoke (query_for "What was the quarterly revenue?")]
                     (Some (ChromaStore 0)))
                  eq_refl eq_refl));
    reflexivity.
Defined.

(** C1, the claim as worded, fails, in two ways.  With a store in place, a
    [KeyboardInterrupt] raised while the chain runs is not caught by
    [except Exception] and reaches the caller.  And when the chain fails
    with a message that holds a closing tag that was never opened, the
    handler's print of the error line raises [MarkupError], which reaches
    the caller in place of the apology; nothing has been printed. *)
Lemma answer_question_exception_reaches_caller :
  vector_db Demo.indexed = Some (ChromaStore 0)
  /\ answer_question Demo.interrupted_answer "What was the quarterly revenue?"
       Demo.indexed
     = (Raise KeyboardInterrupt,
        mkState
          [AsRetriever (retriever_for (ChromaStore 0));
           FromChainType (qa_chain_for (ChromaStore 0));
           ChainInvoke (query_for "What was the quarterly revenue?")]
          (Some (ChromaStore 0)))
  /\ answer_question Faulty.template_leak "What was the quarterly revenue?"
       Demo.indexed
     = (Raise (ExceptionInst "MarkupError"
                 "closing tag '[/INST]' doesn't match any open tag"),
        mkState
          [AsRetriever (retriever_for (ChromaStore 0));
           FromChainType (qa_chain_for (ChromaStore 0));
           ChainInvoke (query_for "What was the quarterly revenue?")]
          (Some (ChromaStore 0))).
Proof.
  repeat split.
Qed.

(** C3. When the chain returns, [answer_question] returns its text and a
    source list with exactly one entry for each distinct source path of the
    retrieved documents: the paths of the entries are pairwise different and
    are those of the documents.  Each entry carries the preview of a
    retrieved document with that path (the last one): the first 250
    characters of its text, all of it if it is shorter, followed by ["..."]
    exactly when the text has more than 250 characters.  Characters are
    counted as Python counts them, whatever the number of bytes each takes,
    and the cut falls between two characters. *)
Theorem answer_question_sources :
  forall (w : World) (question : string) (s : State) (db : Chroma)
         (result : QAResult),
    vector_db s = Some db ->
    w_as_retriever w (trace s) (retriever_for db) = Return tt ->
    w_from_chain_type w (trace s ++ [AsRetriever (retriever_for db)])
      (qa_chain_for db) = Return tt ->
    w_chain_invoke w
      (trace s ++ [AsRetriever (retriever_for db);
                   FromChainType (qa_chain_for db)])
      (qa_chain_for db) (query_for question) = Return result ->
    exists sources s',
      answer_question w question s = (Return (qa_result result, sources), s')
      /\ NoDup (map entry_source sources)
      /\ (forall p, In p (map entry_source sources)
                    <-> In p (map doc_source (source_documents result)))
      /\ (forall entry,
            In entry sources ->
            exists pre doc post head tail,
              source_documents result = pre ++ doc :: post
              /\ ~ In (entry_source entry) (map doc_source post)
              /\ entry_source entry = doc_source doc
              /\ page_content doc = (head ++ tail)%string
              /\ len head = Nat.min 250 (len (page_content doc))
              /\ (at_character_boundary (page_content doc) = true ->
                  at_character_boundary tail = true)
              /\ entry_content entry
                 = (head ++ (if (250 <? len (page_content doc))%nat
                             then "..." else ""))%string).
Proof.
  intros w question s db result Hdb Hretr Hchain Hinvoke.
  exists (dict_values (unique_sources (source_documents result))).
  eexists. split.
  - rewrite (answer_question_run w question s db Hdb), answer_body_run.
    cbn [world quiet].
    rewrite Hretr. cbn zeta. rewrite trace_log, Hchain.
    rewrite !trace_log, <- app_assoc. simpl app. rewrite Hinvoke.
    reflexivity.
  - destruct (unique_sources_spec (source_documents result))
      as [Hnodup [Hpaths Hentries]].
    split; [exact Hnodup |]. split; [exact Hpaths |].
    intros entry Hin.
    destruct (Hentries entry Hin) as [pre [doc [post [H1 [H2 [H3 H4]]]]]].
    destruct (preview_spec (page_content doc))
      as [head [tail [H5 [H6 [H7 H8]]]]].
    exists pre, doc, post, head, tail.
    rewrite H4, H8. repeat split; assumption.
Qed.

(** Five retrieved chunks from three sources give three entries; the
    entry of the report carries the preview of its last chunk. *)
Example answer_question_sources_run :
  fst (answer_question Demo.healthy "What was the quarterly revenue?"
         Demo.indexed)
  = Return ("A receita trimestral foi de 4,2 milhões.",
            [mkSourceEntry "documents/report.pdf"
               (Demo.times 25 "0123456789" ++ "...");
             mkSourceEntry "documents/notes.txt" "Remember the meeting.";
             mkSourceEntry "Unknown source" "No metadata here."]).
Proof. reflexivity. Qed.

(** Two chunks in Portuguese: the one of 200 accented letters (400 bytes)
    is shown whole, the one of 251 is cut after its 250th letter. *)
Example answer_question_sources_accented :
  fst (answer_question Demo.portuguese "Qual foi a receita?" Demo.indexed)
  = Return ("A receita foi de 4,2 milhões.",
            [mkSourceEntry "documentos/notas.txt" (Demo.times 200 "é");
             mkSourceEntry "documentos/relatório.pdf"
               (Demo.times 250 "é" ++ "...")]).
Proof. vm_compute. reflexivity. Qed.

Lemma answer_question_sources_witness :
  exists sources s',
    answer_question Demo.portuguese "Qual foi a receita?" Demo.indexed
    = (Return ("A receita foi de 4,2 milhões.", sources), s')
    /\ NoDup (map entry_source sources)
    /\ (forall p, In p (map entry_source sources)
                  <-> In p ["documentos/notas.txt";
                            "documentos/relatório.pdf"])
    /\ (forall entry,
          In entry sources ->
          exists pre doc post head tail,
            [Demo.accented_short; Demo.accented_long] = pre ++ doc :: post
            /\ ~ In (entry_source entry) (map doc_source post)
            /\ entry_source entry = doc_source doc
            /\ page_content doc = (head ++ tail)%string
            /\ len head = Nat.min 250 (len (page_content doc))
            /\ (at_character_boundary (page_content doc) = true ->
                at_character_boundary tail = true)
            /\ entry_content entry
               = (head ++ (if (250 <? len (page_content doc))%nat
                           then "..." else ""))%string).
Proof.
  exact (answer_question_sources
           Demo.portuguese "Qual foi a receita?" Demo.indexed
           (ChromaStore 0) Demo.retrieved_pt eq_refl eq_refl eq_refl eq_refl).
Defined.

(** ** [main]: the health check gate *)

(** [main], statement by statement. *)
Lemma main_run :
  forall (env : Env) (fuel : nat) (s : State),
    main env fuel s
    = match console_show env startup_banner s with
      | (Raise e, s0) => Some (Raise e, s0)
      | (Return _, s0) =>
          match check_ollama env s0 with
          | (Raise e, s1) => Some (Raise e, s1)
          | (Return false, s1) =>
              Some ((console_print env "[red]❌ Ollama is not running![/]" ;;
                     console_print env "Please first run in another terminal:" ;;
                     console_print env "[bold yellow]ollama serve[/]") s1)
          | (Return true, s1) =>
              match startup env s1 with
              | (Raise e, s2) => Some (main_epilogue env (Raise e) s2)
              | (Return _, s2) =>
                  match chat_loop env fuel s2 with
                  | None => None
                  | Some (r, s3) => Some (main_epilogue env r s3)
                  end
              end
          end
      end.
Proof.
  intros env fuel s. unfold main. unfold bind at 1.
  unfold console_print_panel, startup_banner.
  destruct (console_show env _ s) as [[[] | e] s0]; reflexivity.
Qed.

(** The same when the console shows whatever it is given. *)
Lemma main_run_quiet :
  forall (w : World) (fuel : nat) (s : State),
    main w fuel s
    = match check_ollama w (log startup_banner s) with
      | (Raise e, s1) => Some (Raise e, s1)
      | (Return false, s1) =>
          Some (Return tt,
                log (Print "[bold yellow]ollama serve[/]")
                  (log (Print "Please first run in another terminal:")
                     (log (Print "[red]❌ Ollama is not running![/]") s1)))
      | (Return true, s1) =>
          match startup w s1 with
          | (Raise e, s2) => Some (main_epilogue w (Raise e) s2)
          | (Return _, s2) =>
              match chat_loop w fuel s2 with
              | None => None
              | Some (r, s3) => Some (main_epilogue w r s3)
              end
          end
      end.
Proof.
  intros w fuel s. rewrite main_run, console_show_quiet.
  destruct (check_ollama w (log startup_banner s)) as [[[|] | e] s1];
    reflexivity.
Qed.

(** C7. When the health check fails (the request raises anything at all, or
    answers with a status other than 200), [main] prints the three lines
    that say Ollama is not running and returns.  The trace of the run is
    the banner, the request and those three lines: no model is built, no
    folder is read, nothing is indexed and no prompt is shown. *)
Theorem main_backend_unreachable :
  forall (w : World) (fuel : nat) (s : State),
    (forall r, w_requests_get w (trace s ++ [startup_banner]) health_url 5
               = Return r ->
               status_code r <> 200%Z) ->
    main w fuel s
    = Some (Return tt,
            mkState
              (trace s ++ [startup_banner;
                           RequestsGet health_url 5;
                           Print "[red]❌ Ollama is not running![/]";
                           Print "Please first run in another terminal:";
                           Print "[bold yellow]ollama serve[/]"])
              (vector_db s)).
Proof.
  intros w fuel s Hdown. rewrite main_run_quiet.
  rewrite (check_ollama_false w (log startup_banner s)).
  - unfold log. simpl. rewrite <- !app_assoc. reflexivity.
  - rewrite trace_log. exact Hdown.
Qed.

Lemma main_backend_unreachable_witness :
  main Demo.backend_down 3 Demo.fresh
  = Some (Return tt,
          mkState [startup_banner;
                   RequestsGet health_url 5;
                   Print "[red]❌ Ollama is not running![/]";
                   Print "Please first run in another terminal:";
                   Print "[bold yellow]ollama serve[/]"]
                  None).
Proof.
  apply (main_backend_unreachable Demo.backend_down 3 Demo.fresh).
  intros r Hget. discriminate Hget.
Defined.

(** ** The chat loop *)

Lemma is_exit_keyword_spec :
  forall user_input : string,
    is_exit_keyword user_input = true
    <-> (lower user_input = "exit" \/ lower user_input = "quit"
         \/ lower user_input = "sair")%string.
Proof.
  intros user_input. unfold is_exit_keyword.
  rewrite !orb_true_iff, !String.eqb_eq. tauto.
Qed.

Lemma chat_iteration_exit :
  forall (env : Env) (s : State) (user_input : string),
    w_prompt (world env) (trace s) "❔ Question: " ".chat_history"
    = Return user_input ->
    is_exit_keyword user_input = true ->
    chat_iteration env s = (Return Break, log prompt_event s).
Proof.
  intros env s user_input Hprompt Hexit.
  unfold chat_iteration. unfold bind at 1, call.
  rewrite Hprompt, Hexit. reflexivity.
Qed.

Lemma chat_loop_after_passes :
  forall (env : Env) (n : nat) (s1 s : State) (fuel : nat),
    continue_passes env n s1 = Some s ->
    chat_loop env (n + fuel) s1 = chat_loop env fuel s.
Proof.
  intros env. induction n as [| n IH]; intros s1 s fuel Hpasses; simpl in *.
  - inversion Hpasses; subst. reflexivity.
  - destruct (chat_iteration env s1) as [[[|] | e] s2]; try discriminate.
    now apply IH.
Qed.

Lemma lower_ascii_letter :
  forall k c : ascii,
    is_lower_letter k = true ->
    lower_ascii c = k <-> c = k \/ c = upper_ascii k.
Proof.
  intros k c Hk. unfold is_lower_letter in Hk.
  apply andb_true_iff in Hk. destruct Hk as [Hlo Hhi].
  apply Nat.leb_le in Hlo. apply Nat.leb_le in Hhi.
  unfold lower_ascii, upper_ascii.
  pose proof (nat_ascii_bounded c) as Hc.
  replace ((97 <=? nat_of_ascii k)%nat && (nat_of_ascii k <=? 122)%nat)
    with true
    by (symmetry; apply andb_true_iff; split; apply Nat.leb_le; assumption).
  destruct ((65 <=? nat_of_ascii c)%nat && (nat_of_ascii c <=? 90)%nat)
    eqn:Hupper.
  - apply andb_true_iff in Hupper. destruct Hupper as [H65 H90].
    apply Nat.leb_le in H65. apply Nat.leb_le in H90. split.
    + intros Heq. right.
      assert (Hn : (nat_of_ascii c + 32 = nat_of_ascii k)%nat).
      { rewrite <- Heq. rewrite nat_ascii_embedding by lia. reflexivity. }
      rewrite <- (ascii_nat_embedding c). f_equal. lia.
    + intros [Heq | Heq].
      * subst c. lia.
      * assert (Hn : nat_of_ascii c = (nat_of_ascii k - 32)%nat).
        { rewrite Heq. apply nat_ascii_embedding. lia. }
        rewrite Hn. replace (nat_of_ascii k - 32 + 32)%nat with (nat_of_ascii k)
          by lia.
        apply ascii_nat_embedding.
  - split.
    + intros Heq. left. exact Heq.
    + intros [Heq | Heq]; [exact Heq |]. exfalso.
      assert (Hn : nat_of_ascii c = (nat_of_ascii k - 32)%nat).
      { rewrite Heq. apply nat_ascii_embedding. lia. }
      apply andb_false_iff in Hupper.
      destruct Hupper as [H | H]; apply Nat.leb_gt in H; lia.
Qed.

(** Equality after [lower] with a word of lower-case letters is equality up
    to the case of each letter: same length, same letters. *)
Lemma lower_case_variant :
  forall kw : string,
    all_lower_letters kw = true ->
    forall x : string, lower x = kw <-> case_variant kw x = true.
Proof.
  induction kw as [| k kr IH]; intros Hkw x.
  - destruct x as [| c xr]; simpl; split; intros H;
      try reflexivity; discriminate H.
  - simpl in Hkw. apply andb_true_iff in Hkw. destruct Hkw as [Hk Hkr].
    destruct x as [| c xr]; simpl.
    + split; intros H; discriminate H.
    + rewrite andb_true_iff, orb_true_iff, !Ascii.eqb_eq.
      rewrite <- (IH Hkr xr), <- (lower_ascii_letter k c Hk).
      split.
      * intros H. inversion H. split; reflexivity.
      * intros [-> ->]. reflexivity.
Qed.

(** C8. The lines that end the chat are exactly those whose lower-case
    form is [exit], [quit] or [sair], that is, those three words with each
    letter in either case: the pass that reads such a line breaks out of
    the loop having done nothing else, and no other line does.  In a
    run of [main] that got through startup, after any number of passes,
    such a line makes [main] return with the shutdown message printed right
    after the prompt: the line never reaches [answer_question]. *)
Theorem main_exit_keyword :
  (forall user_input : string,
      (terminating_input user_input
       <-> (lower user_input = "exit" \/ lower user_input = "quit"
            \/ lower user_input = "sair")%string)
      /\ (terminating_input user_input
          <-> case_variant "exit" user_input = true
              \/ case_variant "quit" user_input = true
              \/ case_variant "sair" user_input = true))
  /\ (forall (w : World) (s0 : State) (r : Response) (s1 : State) (n : nat)
             (s : State) (user_input : string) (fuel : nat),
         w_requests_get w (trace s0 ++ [startup_banner]) health_url 5
         = Return r ->
         status_code r = 200%Z ->
         startup w (log (RequestsGet health_url 5) (log startup_banner s0))
         = (Return tt, s1) ->
         continue_passes w n s1 = Some s ->
         w_prompt w (trace s) "❔ Question: " ".chat_history"
         = Return user_input ->
         (lower user_input = "exit" \/ lower user_input = "quit"
          \/ lower user_input = "sair")%string ->
         main w (n + S fuel) s0
         = Some (Return tt,
                 log (Print shutdown_message) (log prompt_event s))).
Proof.
  split.
  - intros user_input.
    assert (Hlower :
              terminating_input user_input
              <-> (lower user_input = "exit" \/ lower user_input = "quit"
                   \/ lower user_input = "sair")%string);
      [| split;
         [exact Hlower
         | rewrite Hlower,
             (lower_case_variant "exit" eq_refl user_input),
             (lower_case_variant "quit" eq_refl user_input),
             (lower_case_variant "sair" eq_refl user_input);
           reflexivity]].
    rewrite <- is_exit_keyword_spec. split.
    + intros Hterm.
      destruct (is_exit_keyword user_input) eqn:Hexit; [reflexivity |].
      exfalso.
      specialize
        (Hterm (Demo.world Demo.ok_200 true [] Demo.load_ok
                  (Return Demo.retrieved) [Return user_input])
               Demo.fresh eq_refl).
      unfold chat_iteration in Hterm. unfold_monad. simpl in Hterm.
      rewrite Hexit in Hterm. simpl in Hterm. discriminate Hterm.
    + intros Hexit w s Hprompt. now apply chat_iteration_exit with user_input.
  - intros w s0 r s1 n s user_input fuel Hget Hok Hstart Hpasses Hprompt Hkey.
    apply is_exit_keyword_spec in Hkey.
    rewrite main_run_quiet.
    rewrite (check_ollama_true w (log startup_banner s0) r);
      [| rewrite trace_log; exact Hget | exact Hok].
    rewrite Hstart.
    rewrite (chat_loop_after_passes w n s1 s (S fuel) Hpasses).
    simpl chat_loop.
    rewrite (chat_iteration_exit w s user_input Hprompt Hkey).
    reflexivity.
Qed.

Lemma main_exit_keyword_witness :
  exists s1 s,
    startup Demo.healthy
      (log (RequestsGet health_url 5) (log startup_banner Demo.fresh))
    = (Return tt, s1)
    /\ continue_passes Demo.healthy 1 s1 = Some s
    /\ w_prompt Demo.healthy (trace s) "❔ Question: " ".chat_history"
       = Return "EXIT"%string
    /\ main Demo.healthy (1 + 1) Demo.fresh
       = Some (Return tt, log (Print shutdown_message) (log prompt_event s)).
Proof.
  eexists. eexists.
  split; [vm_compute; reflexivity |].
  split; [vm_compute; reflexivity |].
  split; [vm_compute; reflexivity |].
  eapply (proj2 main_exit_keyword
            Demo.healthy Demo.fresh (mkResponse 200) _ 1 _ "EXIT"%string 0).
  - reflexivity.
  - reflexivity.
  - vm_compute; reflexivity.
  - vm_compute; reflexivity.
  - vm_compute; reflexivity.
  - left. reflexivity.
Defined.


(** * Further properties *)

(** ** The per-file loop under loaders that answer the same at every moment *)

Lemma load_file_steady :
  forall (env : Env) (load : Loader -> string -> Result (list Document))
         (f : Path) (docs : list Document) (s : State),
    (forall h cls p, w_loader_load (world env) h cls p = load cls p) ->
    (forall cls p e, load cls p = Raise e -> isinstance_Exception e = true) ->
    console_fault env (trace s ++ [load_call f]) (status_line load f) = None ->
    load_file env f docs s
    = (Return (docs ++ loaded_from load f),
       log (status_line load f) (log (load_call f) s)).
Proof.
  intros env load f docs s Hsteady Hexc Hshow.
  rewrite load_file_run, Hsteady.
  unfold loaded_from, status_line in *.
  destruct (load (file_loader f) (path_str f)) as [new | e] eqn:Hload.
  - fold (success_line f) in Hshow. fold (success_line f).
    rewrite (console_show_ok env (success_line f) (log (load_call f) s) Hshow).
    reflexivity.
  - rewrite load_failure_run, (Hexc _ _ _ Hload).
    rewrite (console_show_ok env (failure_line f e) (log (load_call f) s)
               Hshow).
    rewrite app_nil_r. reflexivity.
Qed.

(** X1. When the loaders answer the same at every moment and raise only
    instances of [Exception], and the console shows the status line of
    each file, the loop over the files returns the documents it started
    with followed by the documents of each loadable file, in the order of
    the files; and it adds to the trace, file by file, the loader call and
    one status line. *)
Theorem load_files_collects :
  forall (env : Env) (load : Loader -> string -> Result (list Document))
         (files : list Path) (docs : list Document) (s : State),
    (forall h cls p, w_loader_load (world env) h cls p = load cls p) ->
    (forall cls p e, load cls p = Raise e -> isinstance_Exception e = true) ->
    (forall h f, In f files ->
                 console_fault env h (status_line load f) = None) ->
    load_files env files docs s
    = (Return (docs ++ flat_map (loaded_from load) files),
       mkState
         (trace s
          ++ flat_map (fun f => [load_call f; status_line load f]) files)
         (vector_db s)).
Proof.
  intros env load files docs s Hsteady Hexc. revert docs s.
  induction files as [| f rest IH]; intros docs s Hshow.
  - simpl. rewrite !app_nil_r. destruct s; reflexivity.
  - rewrite load_files_cons.
    rewrite (load_file_steady env load f docs s Hsteady Hexc
               (Hshow _ f (or_introl eq_refl))).
    rewrite IH by (intros h f' Hin; apply Hshow; right; exact Hin).
    simpl flat_map. rewrite !trace_log, !vector_db_log.
    rewrite <- !app_assoc. reflexivity.
Qed.

Lemma load_files_collects_witness :
  load_files Demo.healthy Demo.all_files [] Demo.fresh
  = (Return [Demo.page1; Demo.page2; Demo.notes],
     mkState
       [LoaderLoad PyPDFLoader "documents/report.pdf";
        Print "[green]✓[/] report.pdf";
        LoaderLoad Docx2txtLoader "documents/broken.DOCX";
        Print "[red]✗[/] broken.DOCX (error: File is not a zip file)";
        LoaderLoad UnstructuredFileLoader "documents/notes.txt";
        Print "[yellow]?[/] notes.txt (generic format)"]
       None).
Proof.
  apply (load_files_collects Demo.healthy Demo.load_ok Demo.all_files []
           Demo.fresh).
  - reflexivity.
  - intros cls p e Hload. destruct cls; inversion Hload; reflexivity.
  - reflexivity.
Defined.

(** Without the console the loop stops: the same files, a loader message
    that holds a closing tag, and the third file is never loaded. *)
Example load_files_stops_without_console :
  load_files Faulty.template_file Demo.all_files [] Demo.fresh
  = (Raise Faulty.markup_error,
     mkState
       [LoaderLoad PyPDFLoader "documents/report.pdf";
        Print "[green]✓[/] report.pdf";
        LoaderLoad Docx2txtLoader "documents/broken.DOCX"]
       None).
Proof. reflexivity. Qed.

(** X2. When no loader raises outside [Exception] and the console shows
    every status line, whatever else the loaders do and however their
    answers change over time, the loop ends normally and has called the
    loader of every file exactly once, in the order of the files. *)
Theorem load_files_calls_every_loader :
  forall (env : Env) (files : list Path) (docs : list Document) (s : State),
    console_works env ->
    (forall h cls p e, w_loader_load (world env) h cls p = Raise e ->
                       isinstance_Exception e = true) ->
    exists docs' s',
      load_files env files docs s = (Return docs', s')
      /\ load_calls (trace s') = load_calls (trace s) ++ map load_call files.
Proof.
  intros env files docs s Hconsole Hworld.
  exact (load_files_attempts_every_file env Hconsole Hworld files docs s).
Qed.

Lemma load_files_calls_every_loader_witness :
  exists docs' s',
    load_files Demo.empty_corpus Demo.all_files [] Demo.fresh
    = (Return docs', s')
    /\ load_calls (trace s')
       = [LoaderLoad PyPDFLoader "documents/report.pdf";
          LoaderLoad Docx2txtLoader "documents/broken.DOCX";
          LoaderLoad UnstructuredFileLoader "documents/notes.txt"].
Proof.
  apply (load_files_calls_every_loader Demo.empty_corpus Demo.all_files []
           Demo.fresh).
  - intros h ev. reflexivity.
  - intros h cls p e Hload. destruct cls; inversion Hload; reflexivity.
Defined.

(** ** What a question adds to the trace *)

Lemma answer_body_events :
  forall (env : Env) (db : Chroma) (question : string) (s : State) r s',
    answer_body env db question s = (r, s') ->
    vector_db s' = vector_db s
    /\ exists evs,
         trace s' = trace s ++ AsRetriever (retriever_for db) :: evs
         /\ Forall (question_event question) evs
         /\ (forall ev, In ev evs -> is_chat_event ev = true)
         /\ length (filter is_chain_invoke evs) <= 1.
Proof.
  intros env db question s r s' Hrun. rewrite answer_body_run in Hrun.
  destruct (w_as_retriever (world env) (trace s) (retriever_for db))
    as [[] | e1].
  - cbn zeta in Hrun.
    destruct (w_from_chain_type (world env)
                (trace (log (AsRetriever (retriever_for db)) s))
                (qa_chain_for db)) as [[] | e2].
    + assert (Hs' : s' = log (ChainInvoke (query_for question))
                           (log (FromChainType (qa_chain_for db))
                              (log (AsRetriever (retriever_for db)) s))).
      { destruct (w_chain_invoke (world env) _ (qa_chain_for db)
                    (query_for question));
          inversion Hrun; reflexivity. }
      subst s'. split; [reflexivity |].
      exists [FromChainType (qa_chain_for db);
              ChainInvoke (query_for question)].
      rewrite !trace_log, <- !app_assoc. split; [reflexivity |].
      split; [repeat constructor |]. split; [| simpl; lia].
      intros ev [<- | [<- | []]]; reflexivity.
    + inversion Hrun; subst. split; [reflexivity |].
      exists [FromChainType (qa_chain_for db)].
      rewrite !trace_log, <- !app_assoc. split; [reflexivity |].
      split; [repeat constructor |]. split; [| simpl; lia].
      intros ev [<- | []]; reflexivity.
  - inversion Hrun; subst. split; [reflexivity |].
    exists []. rewrite trace_log. split; [reflexivity |].
    split; [constructor |]. split; [intros ev [] | simpl; lia].
Qed.

Lemma answer_question_shape :
  forall (env : Env) (question : string) (s : State) r s',
    answer_question env question s = (r, s') ->
    vector_db s' = vector_db s
    /\ exists evs,
         trace s' = trace s ++ evs
         /\ Forall (question_event question) evs
         /\ length (filter is_chain_invoke evs) <= 1.
Proof.
  intros env question s r s' Hrun.
  destruct (vector_db s) as [db |] eqn:Hdb.
  - rewrite (answer_question_run env question s db Hdb) in Hrun.
    destruct (answer_body env db question s) as [[a | e] s1] eqn:Hbody;
      destruct (answer_body_events _ _ _ _ _ _ Hbody)
        as [Hkeep [evs [Htr [Hevs [_ Hone]]]]].
    + inversion Hrun; subst. split; [congruence |].
      exists (AsRetriever (retriever_for db) :: evs).
      split; [exact Htr |]. split; [constructor; [exact I | exact Hevs] |].
      exact Hone.
    + destruct (isinstance_Exception e).
      * destruct (console_show env (question_error_line e) s1)
          as [r1 s2] eqn:Hshow.
        destruct (console_show_shape _ _ _ _ _ Hshow)
          as [[-> [-> _]] | [e' [-> [-> _]]]]; inversion Hrun; subst.
        -- split; [rewrite vector_db_log; congruence |].
           exists ((AsRetriever (retriever_for db) :: evs)
                     ++ [question_error_line e]).
           rewrite trace_log, Htr, <- app_assoc. split; [reflexivity |].
           split.
           ++ apply Forall_app. split.
              ** constructor; [exact I | exact Hevs].
              ** repeat constructor.
           ++ simpl. rewrite filter_app. simpl. rewrite app_nil_r. exact Hone.
        -- split; [congruence |].
           exists (AsRetriever (retriever_for db) :: evs).
           split; [exact Htr |].
           split; [constructor; [exact I | exact Hevs] |].
           exact Hone.
      * inversion Hrun; subst. split; [congruence |].
        exists (AsRetriever (retriever_for db) :: evs).
        split; [exact Htr |]. split; [constructor; [exact I | exact Hevs] |].
        exact Hone.
  - rewrite (answer_question_unset env question s Hdb) in Hrun.
    inversion Hrun; subst. split; [exact Hdb |].
    exists []. rewrite app_nil_r. split; [reflexivity |].
    split; [constructor | simpl; lia].
Qed.

(** X3. Whatever a call of [answer_question] does (answer, apologise,
    raise), it leaves [self.vector_db] as it was; it only adds retrieval
    and chain calls and console lines to the trace (no prompt, no loader,
    no indexing); and it invokes the chain at most once, with the question
    behind the instruction to answer in Portuguese. *)
Theorem answer_question_effects :
  forall (w : World) (question : string) (s : State),
    vector_db (snd (answer_question w question s)) = vector_db s
    /\ exists evs,
         trace (snd (answer_question w question s)) = trace s ++ evs
         /\ Forall (question_event question) evs
         /\ length (filter is_chain_invoke evs) <= 1.
Proof.
  intros w question s.
  destruct (answer_question w question s) as [r s'] eqn:Hrun.
  exact (answer_question_shape w question s r s' Hrun).
Qed.

(** ** Loading, then asking *)

Lemma index_documents_returns :
  forall (env : Env) (documents : list Document) (s s' : State),
    index_documents env documents s = (Return tt, s') ->
    documents <> []
    /\ exists chunks db,
         w_split_documents (world env) (trace s) documents = Return chunks
         /\ w_chroma_from_documents (world env)
              (trace s ++ [SplitDocuments documents]) chunks = Return db
         /\ s' = mkState
                   (trace s ++ [SplitDocuments documents;
                                ChromaFromDocuments chunks;
                                Print "[green]✅ Documents indexed successfully[/]"])
                   (Some db).
Proof.
  intros env documents s s' Hrun. rewrite index_documents_run in Hrun.
  destruct documents as [| d rest]; [discriminate Hrun |].
  split; [discriminate |].
  destruct (w_split_documents (world env) (trace s) (d :: rest))
    as [chunks | e] eqn:Hsplit; [| discriminate Hrun].
  cbn zeta in Hrun.
  destruct (w_chroma_from_documents (world env)
              (trace s ++ [SplitDocuments (d :: rest)]) chunks)
    as [db | e] eqn:Hindex; [| discriminate Hrun].
  exists chunks, db. split; [reflexivity |]. split; [exact Hindex |].
  destruct (console_show_shape _ _ _ _ _ Hrun)
    as [[_ [-> _]] | [e' [Hr _]]]; [| discriminate Hr].
  unfold log, indexed_line. simpl. rewrite <- !app_assoc. reflexivity.
Qed.

Lemma load_documents_returns :
  forall (env : Env) (folder_path : string) (s s1 : State),
    load_documents env folder_path s = (Return tt, s1) ->
    exists files documents s_loop chunks db,
      w_path_exists (world env) (trace s) folder_path = true
      /\ w_path_glob (world env) (trace s ++ [PathExists folder_path])
           folder_path
         = Return files
      /\ load_files env files [] (listed folder_path s)
         = (Return documents, s_loop)
      /\ documents <> []
      /\ w_split_documents (world env) (trace s_loop) documents = Return chunks
      /\ w_chroma_from_documents (world env)
           (trace s_loop ++ [SplitDocuments documents]) chunks = Return db
      /\ s1 = mkState
                (trace s_loop
                 ++ [SplitDocuments documents;
                     ChromaFromDocuments chunks;
                     Print "[green]✅ Documents indexed successfully[/]"])
                (Some db).
Proof.
  intros env folder_path s s1 Hrun.
  destruct (exists_fault env (trace s) folder_path) as [e0 |] eqn:Hfault.
  { unfold load_documents in Hrun. unfold_monad. rewrite Hfault in Hrun.
    discriminate Hrun. }
  destruct (w_path_exists (world env) (trace s) folder_path) eqn:Hex.
  - destruct (w_path_glob (world env) (trace s ++ [PathExists folder_path])
                folder_path) as [files | e] eqn:Hglob.
    + rewrite (load_documents_listed _ _ _ _ Hfault Hex Hglob) in Hrun.
      unfold bind in Hrun.
      destruct (load_files env files [] (listed folder_path s))
        as [[documents | e] s_loop] eqn:Hloop; [| discriminate Hrun].
      destruct (index_documents_returns _ _ _ _ Hrun)
        as [Hne [chunks [db [Hsplit [Hindex Hs1]]]]].
      exists files, documents, s_loop, chunks, db.
      repeat split; assumption.
    + unfold load_documents in Hrun. unfold_monad.
      rewrite Hfault, Hex in Hrun. simpl in Hrun. rewrite Hglob in Hrun.
      discriminate Hrun.
  - unfold load_documents in Hrun. unfold_monad.
    rewrite Hfault, Hex in Hrun. simpl in Hrun. discriminate Hrun.
Qed.

(** X4. A run of [load_documents] that returns went through the whole
    pipeline: the folder existed and was listed, the loop over its files
    collected at least one document, the splitter got exactly those
    documents, [Chroma.from_documents] got exactly the chunks the splitter
    returned, [self.vector_db] holds the store it returned, and the last
    line printed says that the documents were indexed.  From then on no
    question is stopped by the not-loaded guard: every call of
    [answer_question] starts by asking that very store for a retriever. *)
Theorem load_documents_then_answer :
  forall (w : World) (folder_path : string) (s s1 : State),
    load_documents w folder_path s = (Return tt, s1) ->
    exists files documents s_loop chunks db,
      w_path_exists w (trace s) folder_path = true
      /\ w_path_glob w (trace s ++ [PathExists folder_path]) folder_path
         = Return files
      /\ load_files w files [] (listed folder_path s)
         = (Return documents, s_loop)
      /\ documents <> []
      /\ w_split_documents w (trace s_loop) documents = Return chunks
      /\ w_chroma_from_documents
           w (trace s_loop ++ [SplitDocuments documents]) chunks = Return db
      /\ s1 = mkState
                (trace s_loop
                 ++ [SplitDocuments documents;
                     ChromaFromDocuments chunks;
                     Print "[green]✅ Documents indexed successfully[/]"])
                (Some db)
      /\ (forall (w' : World) (question : string),
            exists evs,
              trace (snd (answer_question w' question s1))
              = trace s1 ++ AsRetriever (retriever_for db) :: evs).
Proof.
  intros w folder_path s s1 Hrun.
  destruct (load_documents_returns w _ _ _ Hrun)
    as [files [documents [s_loop [chunks [db
         [Hex [Hglob [Hloop [Hne [Hsplit [Hindex Hs1]]]]]]]]]]].
  exists files, documents, s_loop, chunks, db.
  repeat (split; [assumption |]).
  assert (Hdb : vector_db s1 = Some db) by (rewrite Hs1; reflexivity).
  intros w' question.
  destruct (answer_question w' question s1) as [r s2] eqn:Hans.
  rewrite (answer_question_run w' question s1 db Hdb) in Hans.
  destruct (answer_body w' db question s1) as [[a | e] s3] eqn:Hbody;
    destruct (answer_body_events _ _ _ _ _ _ Hbody) as [_ [evs [Htr _]]].
  - inversion Hans; subst. exists evs. exact Htr.
  - destruct (isinstance_Exception e).
    + rewrite console_show_quiet in Hans. inversion Hans; subst.
      exists (evs ++ [question_error_line e]). simpl snd.
      rewrite trace_log, Htr, <- app_assoc. reflexivity.
    + inversion Hans; subst. exists evs. exact Htr.
Qed.

Lemma load_documents_then_answer_witness :
  vector_db (snd (load_documents Demo.healthy "./documents" Demo.fresh))
  = Some (ChromaStore 0)
  /\ exists files documents s_loop chunks db,
       w_path_exists Demo.healthy (trace Demo.fresh) "./documents" = true
       /\ w_path_glob Demo.healthy
            (trace Demo.fresh ++ [PathExists "./documents"]) "./documents"
          = Return files
       /\ load_files Demo.healthy files [] (listed "./documents" Demo.fresh)
          = (Return documents, s_loop)
       /\ documents <> []
       /\ w_split_documents Demo.healthy (trace s_loop) documents
          = Return chunks
       /\ w_chroma_from_documents Demo.healthy
            (trace s_loop ++ [SplitDocuments documents]) chunks = Return db
       /\ snd (load_documents Demo.healthy "./documents" Demo.fresh)
          = mkState
              (trace s_loop
               ++ [SplitDocuments documents;
                   ChromaFromDocuments chunks;
                   Print "[green]✅ Documents indexed successfully[/]"])
              (Some db)
       /\ (forall (w' : World) (question : string),
             exists evs,
               trace (snd (answer_question w' question
                             (snd (load_documents Demo.healthy "./documents"
                                     Demo.fresh))))
               = trace (snd (load_documents Demo.healthy "./documents"
                               Demo.fresh))
                 ++ AsRetriever (retriever_for db) :: evs).
Proof.
  split; [reflexivity |].
  exact (load_documents_then_answer
           Demo.healthy "./documents" Demo.fresh
           (snd (load_documents Demo.healthy "./documents" Demo.fresh))
           eq_refl).
Defined.

(** ** More on previews *)

Lemma string_length_append :
  forall a b : string,
    String.length (a ++ b)%string = String.length a + String.length b.
Proof.
  induction a as [| c a IH]; intros b; simpl; [reflexivity |].
  now rewrite IH.
Qed.

Lemma slice_to_all :
  forall (s : string) (n : nat), len s <= n -> slice_to n s = s.
Proof.
  induction s as [| c r IH]; intros n Hlen; simpl in *; [reflexivity |].
  destruct (is_continuation_byte c).
  - rewrite IH by exact Hlen. reflexivity.
  - destruct n as [| n]; [lia |]. rewrite IH by lia. reflexivity.
Qed.

Lemma slice_to_append_exact :
  forall (a b : string) (n : nat),
    len a = n -> at_character_boundary b = true ->
    slice_to n (a ++ b)%string = a.
Proof.
  induction a as [| c a IH]; intros b n Hlen Hb; simpl in *.
  - subst n. destruct b as [| c r]; [reflexivity |]. simpl in *.
    apply negb_true_iff in Hb. rewrite Hb. reflexivity.
  - destruct (is_continuation_byte c).
    + rewrite (IH b n Hlen Hb). reflexivity.
    + destruct n as [| n]; [discriminate Hlen |].
      rewrite (IH b n) by (try lia; exact Hb). reflexivity.
Qed.

Lemma string_append_nil_r : forall a : string, (a ++ "")%string = a.
Proof.
  induction a as [| c a IH]; simpl; [reflexivity | now rewrite IH].
Qed.

(** X5. Lengths counted in characters, as Python counts them: a text of
    at most 250 characters is its own preview; a longer text has a
    preview of exactly 253 characters (250 of the text and the three
    dots), so no preview is longer than 253 characters; and taking the
    preview of a preview changes nothing. *)
Theorem preview_length :
  forall text : string,
    (len text <= 250 -> preview text = text)
    /\ (250 < len text -> len (preview text) = 253)
    /\ len (preview text) <= 253
    /\ preview (preview text) = preview text.
Proof.
  intros text.
  assert (Hshort : len text <= 250 -> preview text = text).
  { intros Hlen. unfold preview.
    destruct (Nat.ltb_spec 250 (len text)) as [Hlt | _]; [lia |].
    rewrite (slice_to_all text 250 Hlen). apply string_append_nil_r. }
  assert (Hlong : 250 < len text ->
                  preview text = (slice_to 250 text ++ "...")%string
                  /\ len (slice_to 250 text) = 250).
  { intros Hlen. unfold preview.
    destruct (Nat.ltb_spec 250 (len text)) as [_ | Hle]; [| lia].
    split; [reflexivity |]. rewrite slice_to_length. lia. }
  assert (Hlong_len : 250 < len text -> len (preview text) = 253).
  { intros Hlen. destruct (Hlong Hlen) as [Heq Hhead].
    rewrite Heq, len_app, Hhead. reflexivity. }
  split; [exact Hshort | split; [exact Hlong_len | split]].
  - destruct (Nat.le_gt_cases (len text) 250) as [H | H].
    + rewrite (Hshort H). lia.
    + rewrite (Hlong_len H). lia.
  - destruct (Nat.le_gt_cases (len text) 250) as [H | H].
    + rewrite (Hshort H). exact (Hshort H).
    + destruct (Hlong H) as [Heq Hhead]. specialize (Hlong_len H).
      unfold preview at 1.
      destruct (Nat.ltb_spec 250 (len (preview text))) as [_ | Hle];
        [| lia].
      rewrite Heq at 1.
      rewrite (slice_to_append_exact _ "..." 250 Hhead eq_refl).
      symmetry. exact Heq.
Qed.

(** A text of 200 accented letters takes 400 bytes and still is its own
    preview; the preview of 251 accented letters has 253 characters. *)
Example preview_length_accented :
  len (Demo.times 200 "é") = 200
  /\ String.length (Demo.times 200 "é") = 400
  /\ preview (Demo.times 200 "é") = Demo.times 200 "é"
  /\ len (preview (Demo.times 251 "é")) = 253.
Proof. repeat split; vm_compute; reflexivity. Qed.

(** ** More on the source list *)

Lemma filter_filter_implied :
  forall (A : Type) (f g : A -> bool) (l : list A),
    (forall x, f x = true -> g x = true) ->
    filter f (filter g l) = filter f l.
Proof.
  intros A f g l Himp. induction l as [| x l IH]; simpl; [reflexivity |].
  destruct (g x) eqn:Hg; simpl.
  - now rewrite IH.
  - destruct (f x) eqn:Hf; [| exact IH].
    rewrite (Himp x Hf) in Hg. discriminate Hg.
Qed.

Lemma filter_filter_and :
  forall (A : Type) (f g : A -> bool) (l : list A),
    filter f (filter g l) = filter (fun x => g x && f x) l.
Proof.
  intros A f g l. induction l as [| x l IH]; simpl; [reflexivity |].
  destruct (g x); simpl; [destruct (f x) |]; now rewrite IH.
Qed.

Lemma dict_set_key_list :
  forall (V : Type) (d : list (string * V)) (key : string) (value : V),
    map fst (dict_set d key value)
    = if has_key d key then map fst d else map fst d ++ [key].
Proof.
  intros V d key value. unfold has_key.
  induction d as [| [k0 v0] r IH]; simpl; [reflexivity |].
  destruct (String.eqb k0 key) eqn:Heq; simpl.
  - apply String.eqb_eq in Heq. subst. reflexivity.
  - rewrite IH. destruct (existsb (fun k => String.eqb k key) (map fst r));
      reflexivity.
Qed.

Lemma dict_set_fresh :
  forall (V : Type) (d : list (string * V)) (key : string) (value : V),
    ~ In key (map fst d) -> dict_set d key value = d ++ [(key, value)].
Proof.
  intros V d key value. induction d as [| [k0 v0] r IH]; simpl; intros Hnot.
  - reflexivity.
  - destruct (String.eqb_spec k0 key) as [Heq | Hneq].
    + exfalso. apply Hnot. left. exact Heq.
    + rewrite IH; [reflexivity |]. intros Hin. apply Hnot. right. exact Hin.
Qed.

(** The keys of the dict after the loop: the old keys, then the sources
    that are new, each once, in the order in which they first occur. *)
Lemma record_sources_keys :
  forall (docs : list Document) (d : list (string * SourceEntry)),
    map fst (fold_left record_source docs d)
    = map fst d
      ++ filter (fun k => negb (has_key d k)) (keep_first (map doc_source docs)).
Proof.
  induction docs as [| doc rest IH]; intros d; simpl.
  - now rewrite app_nil_r.
  - rewrite IH. unfold record_source. cbn zeta.
    set (key := doc_source doc).
    set (value := mkSourceEntry key (preview (page_content doc))).
    set (later := keep_first (map doc_source rest)).
    assert (Hkeys := dict_set_key_list _ d key value).
    destruct (has_key d key) eqn:Hhas; cbn [negb].
    + f_equal; [exact Hkeys |].
      rewrite (filter_filter_implied _ (fun k => negb (has_key d k))
                 (fun y => negb (String.eqb y key))).
      * apply filter_ext. intros k. unfold has_key. rewrite Hkeys.
        reflexivity.
      * intros k Hk. destruct (String.eqb_spec k key) as [-> | _];
          [| reflexivity].
        rewrite Hhas in Hk. discriminate Hk.
    + rewrite Hkeys, <- app_assoc. cbn [app]. f_equal. f_equal.
      rewrite filter_filter_and. apply filter_ext. intros k.
      unfold has_key. rewrite Hkeys, existsb_app. simpl.
      rewrite orb_false_r, negb_orb, andb_comm, (String.eqb_sym key k).
      reflexivity.
Qed.

Lemma unique_sources_entry_sources :
  forall docs : list Document,
    map entry_source (dict_values (unique_sources docs))
    = map fst (unique_sources docs).
Proof.
  intros docs. unfold dict_values. rewrite map_map.
  apply map_ext_in. intros [k v] Hin. simpl.
  rewrite unique_sources_fold in Hin.
  destruct (record_sources_spec docs [] (NoDup_nil _)) as [_ [_ Hitems]].
  destruct (Hitems k v Hin) as [[[] _] | [pre [doc [post [_ [_ [Hk Hv]]]]]]].
  subst v. reflexivity.
Qed.

Lemma unique_sources_paths :
  forall docs : list Document,
    map entry_source (dict_values (unique_sources docs))
    = keep_first (map doc_source docs).
Proof.
  intros docs. rewrite unique_sources_entry_sources, unique_sources_fold.
  rewrite record_sources_keys. cbn [map app].
  transitivity (filter (fun _ : string => true)
                  (keep_first (map doc_source docs)));
    [apply filter_ext; reflexivity | apply filter_true].
Qed.

(** X6. The source list names the sources in the order in which they
    first occur among the retrieved documents, each once. *)
Theorem sources_in_order_of_first_retrieval :
  forall (w : World) (question : string) (s : State) (db : Chroma)
         (answer : string) (sources : list SourceEntry) (s' : State),
    vector_db s = Some db ->
    answer_body w db question s = (Return (answer, sources), s') ->
    exists result,
      w_chain_invoke w
        (trace s ++ [AsRetriever (retriever_for db);
                     FromChainType (qa_chain_for db)])
        (qa_chain_for db) (query_for question) = Return result
      /\ answer = qa_result result
      /\ answer_question w question s = (Return (answer, sources), s')
      /\ map entry_source sources
         = keep_first (map doc_source (source_documents result)).
Proof.
  intros w question s db answer sources s' Hdb Hbody.
  pose proof (answer_question_run w question s db Hdb) as Hrun.
  rewrite Hbody in Hrun.
  rewrite answer_body_run in Hbody.
  cbn [world quiet] in Hbody.
  destruct (w_as_retriever w (trace s) (retriever_for db)) as [[] | e1];
    [| discriminate Hbody].
  cbn zeta in Hbody. rewrite trace_log in Hbody.
  destruct (w_from_chain_type w (trace s ++ [AsRetriever (retriever_for db)])
              (qa_chain_for db)) as [[] | e2]; [| discriminate Hbody].
  rewrite !trace_log, <- app_assoc in Hbody. simpl app in Hbody.
  destruct (w_chain_invoke w _ (qa_chain_for db) (query_for question))
    as [result | e3] eqn:Hinvoke; [| discriminate Hbody].
  exists result. inversion Hbody; subst.
  repeat split; [exact Hrun | apply unique_sources_paths].
Qed.

Lemma sources_in_order_of_first_retrieval_witness :
  exists result,
    w_chain_invoke Demo.healthy
      (trace Demo.indexed ++ [AsRetriever (retriever_for (ChromaStore 0));
                              FromChainType (qa_chain_for (ChromaStore 0))])
      (qa_chain_for (ChromaStore 0))
      (query_for "What was the quarterly revenue?") = Return result
    /\ "A receita trimestral foi de 4,2 milhões."%string = qa_result result
    /\ answer_question Demo.healthy "What was the quarterly revenue?"
         Demo.indexed
       = (Return ("A receita trimestral foi de 4,2 milhões."%string,
                  [entry_of Demo.page2; entry_of Demo.notes;
                   entry_of Demo.untitled]),
          snd (answer_body Demo.healthy (ChromaStore 0)
                 "What was the quarterly revenue?" Demo.indexed))
    /\ map entry_source [entry_of Demo.page2; entry_of Demo.notes;
                         entry_of Demo.untitled]
       = keep_first (map doc_source (source_documents result)).
Proof.
  apply (sources_in_order_of_first_retrieval
           Demo.healthy "What was the quarterly revenue?" Demo.indexed
           (ChromaStore 0)); reflexivity.
Defined.

(** X7. When the retrieved documents all have different sources, nothing
    is merged: the source list has one entry per document, in the order of
    the documents, each with the preview of its own document. *)
Theorem sources_of_distinct_documents :
  forall docs : list Document,
    NoDup (map doc_source docs) ->
    dict_values (unique_sources docs) = map entry_of docs.
Proof.
  intros docs Hnd.
  assert (Hgen :
            forall (l : list Document) (d : list (string * SourceEntry)),
              NoDup (map fst d ++ map doc_source l) ->
              fold_left record_source l d
              = d ++ map (fun doc => (doc_source doc, entry_of doc)) l).
  { induction l as [| doc rest IH]; intros d Hd; simpl.
    - now rewrite app_nil_r.
    - simpl in Hd. pose proof (NoDup_remove_2 _ _ _ Hd) as Hfresh.
      assert (Hnotin : ~ In (doc_source doc) (map fst d)).
      { intros Hin. apply Hfresh. apply in_or_app. left. exact Hin. }
      unfold record_source at 2. cbn zeta.
      rewrite (dict_set_fresh _ d _ _ Hnotin).
      rewrite IH.
      + rewrite <- app_assoc. reflexivity.
      + rewrite map_app, <- app_assoc. exact Hd. }
  rewrite unique_sources_fold, (Hgen docs [] Hnd).
  unfold dict_values. simpl. rewrite map_map. reflexivity.
Qed.

Lemma sources_of_distinct_documents_witness :
  dict_values (unique_sources [Demo.accented_short; Demo.accented_long;
                               Demo.untitled])
  = [entry_of Demo.accented_short; entry_of Demo.accented_long;
     entry_of Demo.untitled].
Proof.
  apply (sources_of_distinct_documents
           [Demo.accented_short; Demo.accented_long; Demo.untitled]).
  repeat constructor; simpl; intuition discriminate.
Defined.

(** The entries of the two accented chunks: the short one whole, the long
    one cut after its 250th letter. *)
Example entry_of_accented :
  entry_of Demo.accented_short
  = mkSourceEntry "documentos/notas.txt" (Demo.times 200 "é")
  /\ entry_of Demo.accented_long
     = mkSourceEntry "documentos/relatório.pdf"
         (Demo.times 250 "é" ++ "...").
Proof. split; vm_compute; reflexivity. Qed.

Lemma unique_sources_nil_iff :
  forall docs : list Document,
    dict_values (unique_sources docs) = [] <-> docs = [].
Proof.
  intros docs. split.
  - intros Hnil. destruct docs as [| doc rest]; [reflexivity |].
    pose proof (unique_sources_paths (doc :: rest)) as Hpaths.
    rewrite Hnil in Hpaths. discriminate Hpaths.
  - intros ->. reflexivity.
Qed.

(** X8. The source list is empty exactly when nothing was retrieved, and
    it never has more entries than there are retrieved documents. *)
Theorem sources_empty_iff_nothing_retrieved :
  forall docs : list Document,
    (dict_values (unique_sources docs) = [] <-> docs = [])
    /\ length (dict_values (unique_sources docs)) <= length docs.
Proof.
  intros docs. split; [apply unique_sources_nil_iff |].
  destruct (unique_sources_spec docs) as [Hnodup [Hpaths _]].
  cbn zeta in Hnodup, Hpaths.
  rewrite <- (length_map entry_source), <- (length_map doc_source docs).
  apply NoDup_incl_length; [exact Hnodup |].
  intros p Hin. apply Hpaths. exact Hin.
Qed.

(** ** One pass of the chat loop *)

Lemma chat_iteration_run :
  forall (env : Env) (s : State),
    chat_iteration env s
    = match prompt_of (world env) s with
      | Raise e => chat_handler env e (log prompt_event s)
      | Return user_input =>
          if is_exit_keyword user_input
          then (Return Break, log prompt_event s)
          else
            match answer_question env user_input (log prompt_event s) with
            | (Return (answer, sources), s1) =>
                match show_answer env answer sources s1 with
                | (Return _, s2) => (Return Continue, s2)
                | (Raise e, s2) => chat_handler env e s2
                end
            | (Raise e, s1) => chat_handler env e s1
            end
      end.
Proof.
  intros env s. unfold chat_iteration, prompt_of.
  unfold bind at 1, call. fold prompt_event.
  destruct (w_prompt (world env) (trace s) "❔ Question: " ".chat_history")
    as [user_input | e].
  - destruct (is_exit_keyword user_input); [reflexivity |].
    unfold bind at 1.
    destruct (answer_question env user_input (log prompt_event s))
      as [[[answer sources] | e] s1].
    + unfold show_answer, answer_panel, sources_panel, sources_panel_text.
      unfold bind, ret, console_print_panel.
      destruct (console_show env _ s1) as [[[] | e] s2].
      * destruct sources as [| src rest]; [reflexivity |].
        destruct (console_show env _ s2) as [[[] | e] s3];
          [reflexivity | destruct e; reflexivity].
      * destruct e; reflexivity.
    + destruct e; reflexivity.
  - destruct e; reflexivity.
Qed.

Lemma answer_question_returns :
  forall (env : Env) (question : string) (s : State) (db : Chroma)
         (result : QAResult),
    vector_db s = Some db ->
    w_as_retriever (world env) (trace s) (retriever_for db) = Return tt ->
    w_from_chain_type (world env) (trace s ++ [AsRetriever (retriever_for db)])
      (qa_chain_for db) = Return tt ->
    w_chain_invoke (world env)
      (trace s ++ [AsRetriever (retriever_for db);
                   FromChainType (qa_chain_for db)])
      (qa_chain_for db) (query_for question) = Return result ->
    answer_question env question s
    = (Return (qa_result result,
               dict_values (unique_sources (source_documents result))),
       mkState
         (trace s ++ [AsRetriever (retriever_for db);
                      FromChainType (qa_chain_for db);
                      ChainInvoke (query_for question)])
         (vector_db s)).
Proof.
  intros env question s db result Hdb Hretr Hchain Hinvoke.
  rewrite (answer_question_run env question s db Hdb), answer_body_run.
  rewrite Hretr. cbn zeta. rewrite trace_log, Hchain.
  rewrite !trace_log, <- app_assoc. simpl app. rewrite Hinvoke.
  unfold log. simpl. rewrite <- !app_assoc. reflexivity.
Qed.

(** X9. A question whose processing fails with an instance of
    [Exception] does not end the session when the console shows what the
    pass prints: the pass prints the error line, shows the apology in the
    answer panel, shows no sources panel, and the loop goes on to the next
    prompt. *)
Theorem failed_question_continues :
  forall (env : Env) (s : State) (db : Chroma) (user_input : string)
         (e : PyExc) (s_a : State),
    prompt_of (world env) s = Return user_input ->
    is_exit_keyword user_input = false ->
    vector_db s = Some db ->
    answer_body env db user_input (log prompt_event s) = (Raise e, s_a) ->
    isinstance_Exception e = true ->
    console_fault env (trace s_a) (question_error_line e) = None ->
    console_fault env (trace s_a ++ [question_error_line e])
      (answer_panel "Sorry, I encountered an error processing your question.")
    = None ->
    chat_iteration env s
    = (Return Continue,
       log (answer_panel
              "Sorry, I encountered an error processing your question.")
         (log (question_error_line e) s_a)).
Proof.
  intros env s db user_input e s_a Hprompt Hkey Hdb Hbody He Hline Hpanel.
  rewrite chat_iteration_run, Hprompt, Hkey.
  rewrite (answer_question_run env user_input (log prompt_event s) db)
    by (rewrite vector_db_log; exact Hdb).
  rewrite Hbody, He, (console_show_ok env _ _ Hline).
  unfold show_answer, bind, ret, error_answer.
  rewrite (console_show_ok env
             (answer_panel
                "Sorry, I encountered an error processing your question.")
             (log (question_error_line e) s_a) Hpanel).
  reflexivity.
Qed.

Lemma failed_question_continues_witness :
  chat_iteration Demo.generation_fails Demo.indexed
  = (Return Continue,
     mkState
       [prompt_event;
        AsRetriever (retriever_for (ChromaStore 0));
        FromChainType (qa_chain_for (ChromaStore 0));
        ChainInvoke (query_for "What was the quarterly revenue?");
        Print "[red]Error processing question: connection refused[/]";
        answer_panel "Sorry, I encountered an error processing your question."]
       (Some (ChromaStore 0))).
Proof.
  apply (failed_question_continues
           Demo.generation_fails Demo.indexed (ChromaStore 0)
           "What was the quarterly revenue?"
           (ExceptionInst "ConnectionError" "connection refused")
           (mkState
              [prompt_event;
               AsRetriever (retriever_for (ChromaStore 0));
               FromChainType (qa_chain_for (ChromaStore 0));
               ChainInvoke (query_for "What was the quarterly revenue?")]
              (Some (ChromaStore 0))));
    reflexivity.
Defined.

(** When the error line cannot be printed, the failed question does end
    the pass with an exception: the [MarkupError] of the first handler is
    caught by the loop's own handler, whose chat-error line quotes the
    same text and fails the same way, and that second [MarkupError]
    leaves the loop. *)
Example failed_question_leaves_loop :
  chat_loop Faulty.template_leak 5 Demo.indexed
  = Some (Raise Faulty.markup_error,
          mkState
            [prompt_event;
             AsRetriever (retriever_for (ChromaStore 0));
             FromChainType (qa_chain_for (ChromaStore 0));
             ChainInvoke (query_for "What was the quarterly revenue?")]
            (Some (ChromaStore 0))).
Proof. reflexivity. Qed.

(** X10. A question the chain answers is shown in the answer panel and
    the loop goes on, provided the console shows the panels (the answer
    is handed to rich as markup).  The sources panel follows exactly when
    at least one document was retrieved; it lists every distinct source
    once, one per line, in the order of first retrieval. *)
Theorem answered_question_panels :
  forall (env : Env) (s : State) (db : Chroma) (user_input : string)
         (result : QAResult),
    prompt_of (world env) s = Return user_input ->
    is_exit_keyword user_input = false ->
    vector_db s = Some db ->
    w_as_retriever (world env) (trace s ++ [prompt_event]) (retriever_for db)
    = Return tt ->
    w_from_chain_type (world env)
      (trace s ++ [prompt_event; AsRetriever (retriever_for db)])
      (qa_chain_for db) = Return tt ->
    w_chain_invoke (world env)
      (trace s ++ [prompt_event; AsRetriever (retriever_for db);
                   FromChainType (qa_chain_for db)])
      (qa_chain_for db) (query_for user_input) = Return result ->
    (forall h, console_fault env h (answer_panel (qa_result result)) = None) ->
    (forall h,
        console_fault env h
          (sources_panel
             (dict_values (unique_sources (source_documents result))))
        = None) ->
    chat_iteration env s
    = (Return Continue,
       mkState
         (trace s
          ++ [prompt_event;
              AsRetriever (retriever_for db);
              FromChainType (qa_chain_for db);
              ChainInvoke (query_for user_input);
              answer_panel (qa_result result)]
          ++ match source_documents result with
             | [] => []
             | _ :: _ =>
                 [PrintPanel
                    (join nl
                       (map (fun path => "[bold]" ++ path ++ "[/]")%string
                          (keep_first
                             (map doc_source (source_documents result)))))
                    "📚 Source Documents" "blue"]
             end)
         (vector_db s)).
Proof.
  intros env s db user_input result Hprompt Hkey Hdb Hretr Hchain Hinvoke
         Hanswer Hsources.
  rewrite chat_iteration_run, Hprompt, Hkey.
  rewrite (answer_question_returns env user_input (log prompt_event s) db
             result).
  - unfold show_answer, bind, ret.
    rewrite (console_show_ok env _ _ (Hanswer _)).
    destruct (dict_values (unique_sources (source_documents result)))
      as [| src rest] eqn:Hlist.
    + apply unique_sources_nil_iff in Hlist. rewrite Hlist.
      unfold log. simpl. rewrite <- !app_assoc. reflexivity.
    + destruct (source_documents result) as [| doc docs] eqn:Hdocs;
        [discriminate Hlist |].
      rewrite (console_show_ok env _ _ (Hsources _)).
      rewrite <- Hlist, <- Hdocs.
      unfold sources_panel, sources_panel_text.
      rewrite <- (unique_sources_paths (source_documents result)), map_map.
      unfold log. simpl. rewrite <- !app_assoc. reflexivity.
  - rewrite vector_db_log. exact Hdb.
  - rewrite trace_log. exact Hretr.
  - rewrite trace_log, <- app_assoc. exact Hchain.
  - rewrite trace_log, <- app_assoc. exact Hinvoke.
Qed.

Lemma answered_question_panels_witness :
  chat_iteration Demo.healthy Demo.indexed
  = (Return Continue,
     mkState
       (trace Demo.indexed
        ++ [prompt_event;
            AsRetriever (retriever_for (ChromaStore 0));
            FromChainType (qa_chain_for (ChromaStore 0));
            ChainInvoke (query_for "What was the quarterly revenue?");
            answer_panel "A receita trimestral foi de 4,2 milhões."]
        ++ [PrintPanel
              (join nl ["[bold]documents/report.pdf[/]"%string;
                        "[bold]documents/notes.txt[/]"%string;
                        "[bold]Unknown source[/]"%string])
              "📚 Source Documents" "blue"])
       (vector_db Demo.indexed)).
Proof.
  apply (answered_question_panels
           Demo.healthy Demo.indexed (ChromaStore 0)
           "What was the quarterly revenue?" Demo.retrieved);
    reflexivity.
Defined.

(** When nothing was retrieved the pass shows the answer panel alone. *)
Example answered_question_without_sources :
  chat_iteration Scenario.nothing_retrieved Demo.indexed
  = (Return Continue,
     mkState
       [prompt_event;
        AsRetriever (retriever_for (ChromaStore 0));
        FromChainType (qa_chain_for (ChromaStore 0));
        ChainInvoke (query_for "What is the weather?");
        answer_panel "Não sei."]
       (Some (ChromaStore 0))).
Proof. reflexivity. Qed.

(** An answer that holds a closing tag is rejected by the console when
    its panel is printed; the loop's handler then fails on its own line,
    which quotes the console's message, and the exception leaves the
    pass. *)
Example answered_question_panel_rejected :
  chat_iteration
    (mkEnv (Demo.world Demo.ok_200 true Demo.all_files Demo.load_ok
              (Return (mkQAResult "End the turn with [/INST]." []))
              [Return "How do I prompt the model?"])
           Faulty.rejects_inst (fun _ _ => None))
    Demo.indexed
  = (Raise Faulty.markup_error,
     mkState
       [prompt_event;
        AsRetriever (retriever_for (ChromaStore 0));
        FromChainType (qa_chain_for (ChromaStore 0));
        ChainInvoke (query_for "How do I prompt the model?")]
       (Some (ChromaStore 0))).
Proof. reflexivity. Qed.

(** ** What a pass and the whole loop keep *)

Lemma app_eq_app_cons :
  forall (A : Type) (l1 l2 pre post : list A) (x : A),
    l1 ++ l2 = pre ++ x :: post ->
    (exists mid, l1 = pre ++ x :: mid /\ post = mid ++ l2)
    \/ (exists mid, pre = l1 ++ mid /\ l2 = mid ++ x :: post).
Proof.
  intros A l1 l2 pre post x Heq.
  destruct (app_eq_app _ _ _ _ Heq) as [l [[H1 H2] | [H1 H2]]].
  - destruct l as [| y mid].
    + right. exists []. rewrite app_nil_r in *. simpl in H2.
      split; [symmetry; exact H1 | symmetry; exact H2].
    + simpl in H2. inversion H2; subst. left. exists mid.
      split; reflexivity.
  - right. exists l. split; assumption.
Qed.

(** Events that are not queries keep [asked_by_user]. *)
Lemma asked_by_user_app :
  forall (w : World) (h evs : Trace),
    asked_by_user w h ->
    Forall (fun ev => is_chain_invoke ev = false) evs ->
    asked_by_user w (h ++ evs).
Proof.
  intros w h evs Hask Hevs pre query post Heq.
  destruct (app_eq_app_cons _ _ _ _ _ _ Heq)
    as [[mid [Hh _]] | [mid [_ Hmid]]].
  - exact (Hask pre query mid Hh).
  - exfalso. rewrite Hmid in Hevs. apply Forall_app in Hevs.
    destruct Hevs as [_ Hq]. inversion Hq as [| ? ? Hhead _].
    discriminate Hhead.
Qed.

(** So does a query that follows a prompt, when it is built from the line
    the prompt returned. *)
Lemma asked_by_user_question :
  forall (w : World) (h : Trace) (user_input : string) (rt : Retriever)
         (c : RetrievalQA),
    asked_by_user w h ->
    w_prompt w h "❔ Question: " ".chat_history" = Return user_input ->
    is_exit_keyword user_input = false ->
    asked_by_user w
      (h ++ [prompt_event; AsRetriever rt; FromChainType c;
             ChainInvoke (query_for user_input)]).
Proof.
  intros w h user_input rt c Hask Hprompt Hkey pre query post Heq.
  destruct (app_eq_app_cons _ _ _ _ _ _ Heq)
    as [[mid [Hh _]] | [mid [Hpre Hmid]]].
  - exact (Hask pre query mid Hh).
  - destruct mid as [| m1 [| m2 [| m3 [| m4 mid]]]]; simpl in Hmid;
      inversion Hmid; subst.
    + exists h, user_input, rt, c. repeat split; assumption.
    + destruct mid; discriminate.
Qed.

Lemma asked_by_user_nil : forall w : World, asked_by_user w [].
Proof.
  intros w pre query post Heq. destruct pre; discriminate Heq.
Qed.

(** What a call of [answer_question] adds to the trace: no setup event,
    and at most one query, which is then the third event and carries the
    question. *)
Lemma answer_question_events :
  forall (env : Env) (question : string) (s : State) r s',
    answer_question env question s = (r, s') ->
    exists evs,
      trace s' = trace s ++ evs
      /\ Forall (fun ev => is_setup_event ev = false) evs
      /\ (Forall (fun ev => is_chain_invoke ev = false) evs
          \/ exists rt c evs2,
               evs = AsRetriever rt :: FromChainType c
                       :: ChainInvoke (query_for question) :: evs2
               /\ Forall (fun ev => is_chain_invoke ev = false) evs2).
Proof.
  intros env question s r s' Hrun.
  destruct (vector_db s) as [db |] eqn:Hdb.
  - rewrite (answer_question_run env question s db Hdb) in Hrun.
    assert (Hbody :
              exists r0 s0 evs,
                answer_body env db question s = (r0, s0)
                /\ trace s0 = trace s ++ evs
                /\ Forall (fun ev => is_setup_event ev = false) evs
                /\ (Forall (fun ev => is_chain_invoke ev = false) evs
                    \/ evs = [AsRetriever (retriever_for db);
                              FromChainType (qa_chain_for db);
                              ChainInvoke (query_for question)])).
    { rewrite answer_body_run.
      destruct (w_as_retriever (world env) (trace s) (retriever_for db))
        as [[] | e1].
      - cbn zeta.
        destruct (w_from_chain_type (world env)
                    (trace (log (AsRetriever (retriever_for db)) s))
                    (qa_chain_for db)) as [[] | e2].
        + destruct (w_chain_invoke (world env) _ (qa_chain_for db)
                      (query_for question)) as [result | e3];
            (eexists; eexists;
             exists [AsRetriever (retriever_for db);
                     FromChainType (qa_chain_for db);
                     ChainInvoke (query_for question)];
             split; [reflexivity |];
             split; [rewrite !trace_log, <- !app_assoc; reflexivity |];
             split; [repeat constructor | right; reflexivity]).
        + eexists. eexists.
          exists [AsRetriever (retriever_for db);
                  FromChainType (qa_chain_for db)].
          split; [reflexivity |].
          split; [rewrite !trace_log, <- !app_assoc; reflexivity |].
          split; [repeat constructor | left; repeat constructor].
      - eexists. eexists. exists [AsRetriever (retriever_for db)].
        split; [reflexivity |].
        split; [rewrite !trace_log; reflexivity |].
        split; [repeat constructor | left; repeat constructor]. }
    destruct Hbody as [r0 [s0 [evs [Hbody [Htr [Hsetup Hquery]]]]]].
    rewrite Hbody in Hrun.
    assert (Hplain :
              s' = s0 ->
              exists evs',
                trace s' = trace s ++ evs'
                /\ Forall (fun ev => is_setup_event ev = false) evs'
                /\ (Forall (fun ev => is_chain_invoke ev = false) evs'
                    \/ exists rt c evs2,
                         evs' = AsRetriever rt :: FromChainType c
                                  :: ChainInvoke (query_for question) :: evs2
                         /\ Forall (fun ev => is_chain_invoke ev = false)
                              evs2)).
    { intros ->. exists evs. split; [exact Htr |]. split; [exact Hsetup |].
      destruct Hquery as [Hnone | ->]; [left; exact Hnone |].
      right. eexists. eexists. exists []. split; [reflexivity | constructor]. }
    destruct r0 as [a | e].
    + inversion Hrun; subst. apply Hplain. reflexivity.
    + destruct (isinstance_Exception e).
      * destruct (console_show env (question_error_line e) s0)
          as [r1 s1] eqn:Hshow.
        destruct (console_show_shape _ _ _ _ _ Hshow)
          as [[-> [-> _]] | [e' [-> [-> _]]]]; inversion Hrun; subst.
        -- exists (evs ++ [question_error_line e]).
           rewrite trace_log, Htr, <- app_assoc. split; [reflexivity |].
           split; [apply Forall_app; split;
                   [exact Hsetup | repeat constructor] |].
           destruct Hquery as [Hnone | ->].
           ++ left. apply Forall_app. split; [exact Hnone |].
              repeat constructor.
           ++ right. eexists. eexists. exists [question_error_line e].
              split; [reflexivity | repeat constructor].
        -- apply Hplain. reflexivity.
      * inversion Hrun; subst. apply Hplain. reflexivity.
  - rewrite (answer_question_unset env question s Hdb) in Hrun.
    inversion Hrun; subst. exists []. rewrite app_nil_r.
    split; [reflexivity |]. split; [constructor | left; constructor].
Qed.

Lemma chat_handler_shape :
  forall (env : Env) (e : PyExc) (s : State) r s',
    chat_handler env e s = (r, s') ->
    vector_db s' = vector_db s
    /\ (exists evs,
           trace s' = trace s ++ evs
           /\ Forall (fun ev => is_setup_event ev = false
                                /\ is_chain_invoke ev = false) evs)
    /\ (forall e', r = Raise e' ->
                   e' = SystemExit \/ raised_in_chat_handler env e')
    /\ (r = Return Break -> s' = log interrupt_line s).
Proof.
  intros env e s r s' Hrun. destruct e as [cls msg | |];
    unfold chat_handler, bind, ret, raise in Hrun.
  - destruct (console_show env (chat_error_line (ExceptionInst cls msg)) s)
      as [r1 s1] eqn:Hshow.
    destruct (console_show_shape _ _ _ _ _ Hshow)
      as [[-> [-> _]] | [e' [-> [-> Hfault]]]]; inversion Hrun; subst.
    + split; [reflexivity |]. split.
      * eexists. rewrite trace_log. split; [reflexivity |].
        repeat constructor.
      * split; [intros e' H; discriminate H | intros H; discriminate H].
    + split; [reflexivity |]. split.
      * exists []. rewrite app_nil_r. split; [reflexivity | constructor].
      * split; [| intros H; discriminate H].
        intros e0 H. inversion H; subst. right. exists (trace s'). right.
        exists (ExceptionInst cls msg). split; [reflexivity | exact Hfault].
  - destruct (console_show env interrupt_line s) as [r1 s1] eqn:Hshow.
    destruct (console_show_shape _ _ _ _ _ Hshow)
      as [[-> [-> _]] | [e' [-> [-> Hfault]]]]; inversion Hrun; subst.
    + split; [reflexivity |]. split.
      * eexists. rewrite trace_log. split; [reflexivity |].
        repeat constructor.
      * split; [intros e' H; discriminate H | reflexivity].
    + split; [reflexivity |]. split.
      * exists []. rewrite app_nil_r. split; [reflexivity | constructor].
      * split; [| intros H; discriminate H].
        intros e0 H. inversion H; subst. right. exists (trace s'). left.
        exact Hfault.
  - inversion Hrun; subst. split; [reflexivity |]. split.
    + exists []. rewrite app_nil_r. split; [reflexivity | constructor].
    + split; [| intros H; discriminate H].
      intros e' H. inversion H; subst. left. reflexivity.
Qed.

Lemma show_answer_shape :
  forall (env : Env) (answer : string) (sources : list SourceEntry)
         (s : State) r s',
    show_answer env answer sources s = (r, s') ->
    vector_db s' = vector_db s
    /\ exists evs,
         trace s' = trace s ++ evs
         /\ Forall (fun ev => is_setup_event ev = false
                              /\ is_chain_invoke ev = false) evs.
Proof.
  intros env answer sources s r s' Hrun.
  unfold show_answer, bind, ret in Hrun.
  destruct (console_show env (answer_panel answer) s) as [r1 s1] eqn:Hshow.
  destruct (console_show_shape _ _ _ _ _ Hshow)
    as [[-> [-> _]] | [e' [-> [-> _]]]].
  - destruct sources as [| src rest].
    + inversion Hrun; subst. split; [reflexivity |]. eexists.
      rewrite trace_log. split; [reflexivity | repeat constructor].
    + destruct (console_show_shape _ _ _ _ _ Hrun)
        as [[-> [-> _]] | [e' [-> [-> _]]]].
      * split; [reflexivity |]. eexists. rewrite !trace_log, <- app_assoc.
        split; [reflexivity | repeat constructor].
      * split; [reflexivity |]. eexists. rewrite trace_log.
        split; [reflexivity | repeat constructor].
  - inversion Hrun; subst. split; [reflexivity |]. exists [].
    rewrite app_nil_r. split; [reflexivity | constructor].
Qed.

Lemma Forall_no_setup :
  forall evs : Trace,
    Forall (fun ev => is_setup_event ev = false
                      /\ is_chain_invoke ev = false) evs ->
    Forall (fun ev => is_setup_event ev = false) evs
    /\ Forall (fun ev => is_chain_invoke ev = false) evs.
Proof.
  intros evs H. split; (eapply Forall_impl; [| exact H]); intros ev [H1 H2];
    assumption.
Qed.

(** A pass keeps the store and adds no setup event; it sends the chain at
    most one query, built from the line its prompt returned; the only
    exceptions it lets out are [SystemExit] and what the console raised
    inside a handler; and it breaks only on a keyword or through the
    interrupt handler. *)
Lemma chat_iteration_shape :
  forall (env : Env) (s : State) r s',
    chat_iteration env s = (r, s') ->
    vector_db s' = vector_db s
    /\ (exists evs,
           trace s' = trace s ++ evs
           /\ Forall (fun ev => is_setup_event ev = false) evs)
    /\ (asked_by_user (world env) (trace s) ->
        asked_by_user (world env) (trace s'))
    /\ (forall e, r = Raise e ->
                  e = SystemExit \/ raised_in_chat_handler env e)
    /\ (r = Return Break ->
        (exists user_input,
            prompt_of (world env) s = Return user_input
            /\ is_exit_keyword user_input = true
            /\ s' = log prompt_event s)
        \/ exists s_i, s' = log interrupt_line s_i).
Proof.
  intros env s r s' Hrun. rewrite chat_iteration_run in Hrun.
  destruct (prompt_of (world env) s) as [user_input | e] eqn:Hprompt.
  - destruct (is_exit_keyword user_input) eqn:Hkey.
    + inversion Hrun; subst. split; [reflexivity |]. split.
      * exists [prompt_event]. rewrite trace_log.
        split; [reflexivity | repeat constructor].
      * split.
        -- intros Hask. rewrite trace_log. apply asked_by_user_app;
             [exact Hask | repeat constructor].
        -- split; [intros e H; discriminate H |].
           intros _. left. exists user_input.
           split; [reflexivity | split; [exact Hkey | reflexivity]].
    + destruct (answer_question env user_input (log prompt_event s))
        as [ra s1] eqn:Hans.
      destruct (answer_question_shape _ _ _ _ _ Hans) as [Hdb1 _].
      destruct (answer_question_events _ _ _ _ _ Hans)
        as [evs [Htr [Hsetup Hquery]]].
      rewrite trace_log in Htr. rewrite vector_db_log in Hdb1.
      assert (Hask1 : asked_by_user (world env) (trace s) ->
                      asked_by_user (world env) (trace s1)).
      { intros Hask. rewrite Htr.
        destruct Hquery as [Hnone | [rt [c [evs2 [-> Hnone]]]]].
        - rewrite <- app_assoc. apply asked_by_user_app; [exact Hask |].
          constructor; [reflexivity | exact Hnone].
        - rewrite <- app_assoc.
          change (asked_by_user (world env)
                    (trace s
                     ++ [prompt_event; AsRetriever rt; FromChainType c;
                         ChainInvoke (query_for user_input)] ++ evs2)).
          rewrite app_assoc. apply asked_by_user_app; [| exact Hnone].
          apply asked_by_user_question; assumption. }
      assert (Htail :
                forall rz sz sy,
                  vector_db sz = vector_db s1 ->
                  (exists evs3,
                      trace sz = trace s1 ++ evs3
                      /\ Forall (fun ev => is_setup_event ev = false
                                           /\ is_chain_invoke ev = false)
                           evs3) ->
                  chat_handler env rz sz = (r, sy) ->
                  vector_db sy = vector_db s
                  /\ (exists evs0,
                         trace sy = trace s ++ evs0
                         /\ Forall (fun ev => is_setup_event ev = false) evs0)
                  /\ (asked_by_user (world env) (trace s) ->
                      asked_by_user (world env) (trace sy))
                  /\ (forall e, r = Raise e ->
                                e = SystemExit \/ raised_in_chat_handler env e)
                  /\ (r = Return Break ->
                      (exists user_input0,
                          Return user_input = Return user_input0
                          /\ is_exit_keyword user_input0 = true
                          /\ sy = log prompt_event s)
                      \/ exists s_i, sy = log interrupt_line s_i)).
      { intros rz sz sy Hdbz [evs3 [Htr3 Hevs3]] Hh.
        destruct (chat_handler_shape _ _ _ _ _ Hh)
          as [Hdb4 [[evs4 [Htr4 Hevs4]] [Hraise Hbreak]]].
        destruct (Forall_no_setup _ Hevs3) as [Hs3 Hq3].
        destruct (Forall_no_setup _ Hevs4) as [Hs4 Hq4].
        split; [congruence |]. split.
        - exists ((prompt_event :: evs) ++ evs3 ++ evs4).
          rewrite Htr4, Htr3, Htr, <- !app_assoc. split; [reflexivity |].
          apply Forall_app. split;
            [constructor; [reflexivity | exact Hsetup] |].
          apply Forall_app. split; assumption.
        - split.
          + intros Hask. rewrite Htr4, Htr3, <- app_assoc.
            apply asked_by_user_app; [exact (Hask1 Hask) |].
            apply Forall_app. split; assumption.
          + split; [exact Hraise |].
            intros Hr. right. exists sz. exact (Hbreak Hr). }
      destruct ra as [[answer sources] | e].
      * destruct (show_answer env answer sources s1) as [r2 s2] eqn:Hshow.
        destruct (show_answer_shape _ _ _ _ _ _ Hshow)
          as [Hdb2 [evs2 [Htr2 Hevs2]]].
        destruct r2 as [[] | e2].
        -- inversion Hrun; subst.
           destruct (Forall_no_setup _ Hevs2) as [Hs2 Hq2].
           split; [congruence |]. split.
           ++ exists ((prompt_event :: evs) ++ evs2).
              rewrite Htr2, Htr, <- !app_assoc. split; [reflexivity |].
              apply Forall_app. split;
                [constructor; [reflexivity | exact Hsetup] | exact Hs2].
           ++ split.
              ** intros Hask. rewrite Htr2.
                 apply asked_by_user_app; [exact (Hask1 Hask) | exact Hq2].
              ** split; intros; discriminate.
        -- apply (Htail e2 s2 s' Hdb2); [| exact Hrun].
           exists evs2. split; assumption.
      * apply (Htail e s1 s' eq_refl); [| exact Hrun].
        exists []. rewrite app_nil_r. split; [reflexivity | constructor].
  - destruct (chat_handler_shape _ _ _ _ _ Hrun)
      as [Hdb2 [[evs2 [Htr2 Hevs2]] [Hraise Hbreak]]].
    rewrite vector_db_log in Hdb2. rewrite trace_log in Htr2.
    destruct (Forall_no_setup _ Hevs2) as [Hs2 Hq2].
    split; [exact Hdb2 |]. split.
    + exists (prompt_event :: evs2). rewrite Htr2, <- app_assoc.
      split; [reflexivity | constructor; [reflexivity | exact Hs2]].
    + split.
      * intros Hask. rewrite Htr2, <- app_assoc.
        apply asked_by_user_app; [exact Hask |].
        constructor; [reflexivity | exact Hq2].
      * split; [exact Hraise |].
        intros Hr. right. exists (log prompt_event s). exact (Hbreak Hr).
Qed.

Lemma chat_loop_shape :
  forall (env : Env) (fuel : nat) (s : State) r s',
    chat_loop env fuel s = Some (r, s') ->
    vector_db s' = vector_db s
    /\ (exists evs,
           trace s' = trace s ++ evs
           /\ Forall (fun ev => is_setup_event ev = false) evs)
    /\ (asked_by_user (world env) (trace s) ->
        asked_by_user (world env) (trace s'))
    /\ (forall e, r = Raise e ->
                  e = SystemExit \/ raised_in_chat_handler env e)
    /\ (r = Return tt ->
        exists s_last,
          (exists user_input,
              prompt_of (world env) s_last = Return user_input
              /\ is_exit_keyword user_input = true
              /\ s' = log prompt_event s_last)
          \/ s' = log interrupt_line s_last).
Proof.
  intros env. induction fuel as [| fuel IH]; intros s r s' Hrun;
    [discriminate Hrun |].
  simpl in Hrun.
  destruct (chat_iteration env s) as [[[|] | e] s1] eqn:Hpass;
    destruct (chat_iteration_shape _ _ _ _ Hpass)
      as [Hdb [[evs [Htr Hevs]] [Hask [Hraise Hbreak]]]].
  - destruct (IH _ _ _ Hrun)
      as [Hdb' [[evs' [Htr' Hevs']] [Hask' [Hraise' Hend]]]].
    split; [congruence |]. split.
    + exists (evs ++ evs'). rewrite Htr', Htr, <- app_assoc.
      split; [reflexivity | apply Forall_app; split; assumption].
    + split; [intros H; exact (Hask' (Hask H)) |]. split; assumption.
  - inversion Hrun; subst. split; [exact Hdb |]. split.
    + exists evs. split; assumption.
    + split; [exact Hask |]. split; [intros e H; discriminate H |].
      intros _. destruct (Hbreak eq_refl) as [Hkey | [s_i Hs_i]].
      * exists s. left. exact Hkey.
      * exists s_i. right. exact Hs_i.
  - inversion Hrun; subst. split; [exact Hdb |]. split.
    + exists evs. split; assumption.
    + split; [exact Hask |].
      split; [intros e' H; inversion H; subst; apply Hraise; reflexivity |].
      intros H; discriminate H.
Qed.

(** X11. However long the chat runs and however it ends, the loop leaves
    [self.vector_db] as it found it (the store is never rebuilt or dropped
    during the chat), and it never lists the folder, loads a file, splits
    or indexes.  Every query it sends to the chain comes right after a
    prompt and the two calls that prepare the chain, and is the line that
    very prompt returned, which is no exit keyword, behind the fixed
    instruction. *)
Theorem chat_loop_keeps_store :
  forall (env : Env) (fuel : nat) (s : State) r s',
    chat_loop env fuel s = Some (r, s') ->
    vector_db s' = vector_db s
    /\ (exists evs,
           trace s' = trace s ++ evs
           /\ Forall (fun ev => is_setup_event ev = false) evs)
    /\ (asked_by_user (world env) (trace s) ->
        asked_by_user (world env) (trace s')).
Proof.
  intros env fuel s r s' Hrun.
  destruct (chat_loop_shape env fuel s r s' Hrun) as [Hdb [Hevs [Hask _]]].
  split; [exact Hdb |]. split; [exact Hevs | exact Hask].
Qed.

Lemma chat_loop_keeps_store_witness :
  exists s',
    chat_loop Demo.healthy 2 Demo.indexed = Some (Return tt, s')
    /\ vector_db s' = vector_db Demo.indexed
    /\ (exists evs,
           trace s' = trace Demo.indexed ++ evs
           /\ Forall (fun ev => is_setup_event ev = false) evs)
    /\ asked_by_user Demo.healthy (trace s').
Proof.
  eexists. split; [vm_compute; reflexivity |].
  destruct (chat_loop_keeps_store Demo.healthy 2 Demo.indexed (Return tt) _
              eq_refl) as [Hdb [Hevs Hask]].
  split; [exact Hdb |]. split; [exact Hevs |].
  apply Hask. apply asked_by_user_nil.
Defined.

(** The query of the sample session, traced back to its prompt. *)
Example chat_loop_query_of_the_user :
  exists h0 post,
    trace (snd (match chat_loop Demo.healthy 2 Demo.indexed with
                | Some rs => rs
                | None => (Return tt, Demo.indexed)
                end))
    = h0 ++ [prompt_event;
             AsRetriever (retriever_for (ChromaStore 0));
             FromChainType (qa_chain_for (ChromaStore 0));
             ChainInvoke (query_for "What was the quarterly revenue?")]
         ++ post
    /\ w_prompt Demo.healthy h0 "❔ Question: " ".chat_history"
       = Return "What was the quarterly revenue?"%string.
Proof.
  exists [].
  exists [answer_panel "A receita trimestral foi de 4,2 milhões.";
          sources_panel
            (dict_values (unique_sources (source_documents Demo.retrieved)));
          prompt_event].
  split; vm_compute; reflexivity.
Qed.

(** X12. The chat loop ends normally in two ways only: the user typed an
    exit keyword at the last prompt, or the interrupt handler ran and
    printed its line.  An exception that leaves the loop is a
    [SystemExit], or was raised by the console while a handler of the
    loop was printing its line (the interrupt line, or the chat-error
    line of a caught exception); in particular, with a console that shows
    those lines, neither an instance of [Exception] nor a
    [KeyboardInterrupt] leaves the loop. *)
Theorem chat_loop_ends :
  forall (env : Env) (fuel : nat) (s : State) r s',
    chat_loop env fuel s = Some (r, s') ->
    (forall e, r = Raise e ->
               (e = SystemExit \/ raised_in_chat_handler env e)
               /\ (console_works env -> e = SystemExit))
    /\ (r = Return tt ->
        exists s_last,
          (exists user_input,
              prompt_of (world env) s_last = Return user_input
              /\ is_exit_keyword user_input = true
              /\ s' = log prompt_event s_last)
          \/ s' = log interrupt_line s_last).
Proof.
  intros env fuel s r s' Hrun.
  destruct (chat_loop_shape env fuel s r s' Hrun)
    as [_ [_ [_ [Hraise Hends]]]].
  split; [| exact Hends].
  intros e He. split; [exact (Hraise e He) |].
  intros Hconsole. destruct (Hraise e He) as [Hexit | [h Hfault]];
    [exact Hexit |].
  exfalso. destruct Hfault as [Hfault | [e0 [_ Hfault]]];
    rewrite (Hconsole _ _) in Hfault; discriminate Hfault.
Qed.

Lemma chat_loop_ends_witness :
  exists s',
    chat_loop Demo.interrupted_answer 1 Demo.indexed = Some (Return tt, s')
    /\ (forall e, @Return unit tt = Raise e ->
                  (e = SystemExit
                   \/ raised_in_chat_handler Demo.interrupted_answer e)
                  /\ (console_works Demo.interrupted_answer ->
                      e = SystemExit))
    /\ (@Return unit tt = Return tt ->
        exists s_last,
          (exists user_input,
              prompt_of Demo.interrupted_answer s_last = Return user_input
              /\ is_exit_keyword user_input = true
              /\ s' = log prompt_event s_last)
          \/ s' = log interrupt_line s_last).
Proof.
  eexists. split; [vm_compute; reflexivity |].
  apply (chat_loop_ends Demo.interrupted_answer 1 Demo.indexed (Return tt)).
  vm_compute. reflexivity.
Defined.

(** ** The constructor *)

Lemma init_failure_run :
  forall (env : Env) (e : PyExc) (s : State),
    init_failure env e s
    = if isinstance_Exception e
      then match console_show env (initialization_error_line e) s with
           | (Return _, s') => (Raise e, s')
           | (Raise e', s') => (Raise e', s')
           end
      else (Raise e, s).
Proof.
  intros env e s. unfold init_failure.
  destruct (isinstance_Exception e); [| reflexivity].
  unfold bind, raise.
  destruct (console_show env (initialization_error_line e) s)
    as [[[] | e'] s']; reflexivity.
Qed.

Lemma DocumentChatbot_run :
  forall (env : Env) (s : State),
    DocumentChatbot env s
    = match w_new_embeddings (world env) (trace s) with
      | Raise e => init_failure env e (log NewEmbeddings s)
      | Return _ =>
          match w_new_ollama (world env) (trace s ++ [NewEmbeddings]) with
          | Raise e => init_failure env e (log NewOllama (log NewEmbeddings s))
          | Return _ =>
              match w_new_text_splitter (world env)
                      (trace s ++ [NewEmbeddings; NewOllama]) with
              | Raise e =>
                  init_failure env e
                    (log NewTextSplitter
                       (log NewOllama (log NewEmbeddings s)))
              | Return _ =>
                  match
                    console_show env
                      (Print "[green]✅ Models loaded successfully[/]")
                      (mkState
                         (trace s
                          ++ [NewEmbeddings; NewOllama; NewTextSplitter])
                         None)
                  with
                  | (Return _, s') => (Return tt, s')
                  | (Raise e, s') => init_failure env e s'
                  end
              end
          end
      end.
Proof.
  intros env s. unfold DocumentChatbot, init_failure, initialization_error_line.
  unfold try_except_Exception, bind, ret, raise, call, set_vector_db,
    console_print.
  destruct (w_new_embeddings (world env) (trace s)) as [[] | e1];
    [| destruct (isinstance_Exception e1); reflexivity].
  cbn beta iota. rewrite (trace_log NewEmbeddings s).
  destruct (w_new_ollama (world env) (trace s ++ [NewEmbeddings]))
    as [[] | e2];
    [| destruct (isinstance_Exception e2); reflexivity].
  cbn beta iota. rewrite !trace_log, <- app_assoc. simpl app.
  destruct (w_new_text_splitter (world env)
              (trace s ++ [NewEmbeddings; NewOllama]))
    as [[] | e3];
    [| destruct (isinstance_Exception e3); reflexivity].
  cbn beta iota. unfold log. cbn [trace vector_db]. rewrite <- !app_assoc.
  cbn [app].
  destruct (console_show env _ _) as [[[] | e4] s4]; [reflexivity |].
  destruct (isinstance_Exception e4); reflexivity.
Qed.

Lemma init_failure_shape :
  forall (env : Env) (e : PyExc) (s : State) r s',
    init_failure env e s = (r, s') ->
    vector_db s' = vector_db s
    /\ (exists evs,
           trace s' = trace s ++ evs
           /\ Forall (fun ev => is_chat_event ev = false) evs)
    /\ ((r = Raise e
         /\ (isinstance_Exception e = true ->
             s' = log (initialization_error_line e) s))
        \/ exists e',
             r = Raise e'
             /\ isinstance_Exception e = true
             /\ console_fault env (trace s) (initialization_error_line e)
                = Some e').
Proof.
  intros env e s r s' Hrun. rewrite init_failure_run in Hrun.
  destruct (isinstance_Exception e) eqn:He.
  - destruct (console_show env (initialization_error_line e) s)
      as [r1 s1] eqn:Hshow.
    destruct (console_show_shape _ _ _ _ _ Hshow)
      as [[-> [-> _]] | [e' [-> [-> Hfault]]]]; inversion Hrun; subst.
    + split; [reflexivity |]. split.
      * eexists. rewrite trace_log. split; [reflexivity | repeat constructor].
      * left. split; [reflexivity | intros _; reflexivity].
    + split; [reflexivity |]. split.
      * exists []. rewrite app_nil_r. split; [reflexivity | constructor].
      * right. exists e'. repeat split. exact Hfault.
  - inversion Hrun; subst. split; [reflexivity |]. split.
    + exists []. rewrite app_nil_r. split; [reflexivity | constructor].
    + left. split; [reflexivity | intros H; discriminate H].
Qed.



(** ** The events of startup *)

Lemma DocumentChatbot_shape :
  forall (env : Env) (s : State) r s',
    DocumentChatbot env s = (r, s') ->
    exists evs,
      trace s' = trace s ++ evs
      /\ Forall (fun ev => is_chat_event ev = false) evs.
Proof.
  intros env s r s' Hrun. rewrite DocumentChatbot_run in Hrun.
  assert (Hfail :
            forall e s0 evs0,
              init_failure env e s0 = (r, s') ->
              trace s0 = trace s ++ evs0 ->
              Forall (fun ev => is_chat_event ev = false) evs0 ->
              exists evs,
                trace s' = trace s ++ evs
                /\ Forall (fun ev => is_chat_event ev = false) evs).
  { intros e s0 evs0 Hf Htr Hevs.
    destruct (init_failure_shape _ _ _ _ _ Hf) as [_ [[evs1 [Htr1 Hevs1]] _]].
    exists (evs0 ++ evs1). rewrite Htr1, Htr, <- app_assoc.
    split; [reflexivity | apply Forall_app; split; assumption]. }
  destruct (w_new_embeddings (world env) (trace s)) as [[] | e1].
  - destruct (w_new_ollama (world env) (trace s ++ [NewEmbeddings]))
      as [[] | e2].
    + destruct (w_new_text_splitter (world env)
                  (trace s ++ [NewEmbeddings; NewOllama]))
        as [[] | e3].
      * destruct (console_show env _ _) as [r4 s4] eqn:Hshow in Hrun.
        destruct (console_show_shape _ _ _ _ _ Hshow)
          as [[-> [-> _]] | [e4 [-> [-> _]]]].
        -- inversion Hrun; subst. eexists. rewrite trace_log. cbn [trace].
           rewrite <- app_assoc. split; [reflexivity | repeat constructor].
        -- apply (Hfail _ _ [NewEmbeddings; NewOllama; NewTextSplitter] Hrun).
           ++ reflexivity.
           ++ repeat constructor.
      * apply (Hfail _ _ [NewEmbeddings; NewOllama; NewTextSplitter] Hrun).
        -- rewrite !trace_log, <- !app_assoc. reflexivity.
        -- repeat constructor.
    + apply (Hfail _ _ [NewEmbeddings; NewOllama] Hrun).
      * rewrite !trace_log, <- !app_assoc. reflexivity.
      * repeat constructor.
  - apply (Hfail _ _ [NewEmbeddings] Hrun).
    + rewrite !trace_log. reflexivity.
    + repeat constructor.
Qed.

Lemma index_documents_shape :
  forall (env : Env) (documents : list Document) (s : State) r s',
    index_documents env documents s = (r, s') ->
    exists evs,
      trace s' = trace s ++ evs
      /\ Forall (fun ev => is_chat_event ev = false) evs.
Proof.
  intros env documents s r s' Hrun. rewrite index_documents_run in Hrun.
  destruct documents as [| d rest].
  - inversion Hrun; subst. exists []. rewrite app_nil_r.
    split; [reflexivity | constructor].
  - destruct (w_split_documents (world env) (trace s) (d :: rest))
      as [chunks | e].
    + cbn zeta in Hrun.
      destruct (w_chroma_from_documents (world env)
                  (trace s ++ [SplitDocuments (d :: rest)]) chunks)
        as [db | e].
      * destruct (console_show_shape _ _ _ _ _ Hrun)
          as [[_ [-> _]] | [e' [_ [-> _]]]].
        -- eexists. rewrite trace_log. cbn [trace]. rewrite <- app_assoc.
           split; [reflexivity | repeat constructor].
        -- eexists. cbn [trace]. split; [reflexivity | repeat constructor].
      * inversion Hrun; subst. eexists. rewrite !trace_log, <- app_assoc.
        split; [reflexivity | repeat constructor].
    + inversion Hrun; subst. eexists. rewrite trace_log.
      split; [reflexivity | repeat constructor].
Qed.

Lemma load_documents_shape :
  forall (env : Env) (folder_path : string) (s : State) r s',
    load_documents env folder_path s = (r, s') ->
    exists evs,
      trace s' = trace s ++ evs
      /\ Forall (fun ev => is_chat_event ev = false) evs.
Proof.
  intros env folder_path s r s' Hrun.
  destruct (exists_fault env (trace s) folder_path) as [e0 |] eqn:Hfault.
  { unfold load_documents in Hrun. unfold_monad. rewrite Hfault in Hrun.
    inversion Hrun; subst. rewrite trace_log. eexists.
    split; [reflexivity | repeat constructor]. }
  destruct (w_path_exists (world env) (trace s) folder_path) eqn:Hex.
  - destruct (w_path_glob (world env) (trace s ++ [PathExists folder_path])
                folder_path) as [files | e] eqn:Hglob.
    + rewrite (load_documents_listed _ _ _ _ Hfault Hex Hglob) in Hrun.
      unfold bind in Hrun.
      destruct (load_files env files [] (listed folder_path s))
        as [[documents | e] s_loop] eqn:Hloop;
        destruct (load_files_shape _ _ _ _ _ _ Hloop) as [_ [evs [Htr Hevs]]];
        unfold listed in Htr; rewrite !trace_log, <- !app_assoc in Htr;
        simpl app in Htr;
        assert (Hloop_evs : Forall (fun ev => is_chat_event ev = false) evs)
          by (eapply Forall_impl; [| exact Hevs];
              intros ev Hev; destruct ev; simpl in *; congruence).
      * destruct (index_documents_shape _ _ _ _ _ Hrun)
          as [evs2 [Htr2 Hevs2]].
        exists (PathExists folder_path :: PathGlob folder_path :: evs ++ evs2).
        rewrite Htr2, Htr, <- !app_assoc. split; [reflexivity |].
        constructor; [reflexivity |]. constructor; [reflexivity |].
        apply Forall_app. split; assumption.
      * inversion Hrun; subst. rewrite Htr. eexists. split; [reflexivity |].
        constructor; [reflexivity |]. constructor; [reflexivity |].
        exact Hloop_evs.
    + unfold load_documents in Hrun. unfold_monad.
      rewrite Hfault, Hex in Hrun. simpl in Hrun. rewrite Hglob in Hrun.
      inversion Hrun; subst. unfold log. simpl. rewrite <- app_assoc.
      eexists. split; [reflexivity | repeat constructor].
  - unfold load_documents in Hrun. unfold_monad.
    rewrite Hfault, Hex in Hrun. simpl in Hrun. inversion Hrun; subst.
    rewrite trace_log. eexists. split; [reflexivity | repeat constructor].
Qed.

(** A print adds at most its own event. *)
Lemma console_print_shape :
  forall (env : Env) (text : string) (s : State) r s',
    console_print env text s = (r, s') ->
    vector_db s' = vector_db s
    /\ exists evs,
         trace s' = trace s ++ evs
         /\ Forall (fun ev => is_chat_event ev = false
                              /\ is_setup_event ev = false
                              /\ is_chain_invoke ev = false) evs.
Proof.
  intros env text s r s' Hrun. unfold console_print in Hrun.
  destruct (console_show_shape _ _ _ _ _ Hrun)
    as [[_ [-> _]] | [e [_ [-> _]]]].
  - split; [reflexivity |]. eexists. rewrite trace_log.
    split; [reflexivity | repeat constructor].
  - split; [reflexivity |]. exists []. rewrite app_nil_r.
    split; [reflexivity | constructor].
Qed.

Lemma console_print_panel_shape :
  forall (env : Env) (text title style : string) (s : State) r s',
    console_print_panel env text title style s = (r, s') ->
    vector_db s' = vector_db s
    /\ exists evs,
         trace s' = trace s ++ evs
         /\ Forall (fun ev => is_chat_event ev = false
                              /\ is_setup_event ev = false
                              /\ is_chain_invoke ev = false) evs.
Proof.
  intros env text title style s r s' Hrun. unfold console_print_panel in Hrun.
  destruct (console_show_shape _ _ _ _ _ Hrun)
    as [[_ [-> _]] | [e [_ [-> _]]]].
  - split; [reflexivity |]. eexists. rewrite trace_log.
    split; [reflexivity | repeat constructor].
  - split; [reflexivity |]. exists []. rewrite app_nil_r.
    split; [reflexivity | constructor].
Qed.

Lemma Forall_printed :
  forall evs : Trace,
    Forall (fun ev => is_chat_event ev = false
                      /\ is_setup_event ev = false
                      /\ is_chain_invoke ev = false) evs ->
    Forall (fun ev => is_chat_event ev = false) evs
    /\ Forall (fun ev => is_setup_event ev = false) evs
    /\ Forall (fun ev => is_chain_invoke ev = false) evs.
Proof.
  intros evs H. repeat split; (eapply Forall_impl; [| exact H]);
    intros ev [H1 [H2 H3]]; assumption.
Qed.

(** The composition of two steps that add only events outside the chat. *)
Lemma bind_shape :
  forall (A B : Type) (m : M A) (k : A -> M B) (s : State) r s',
    bind m k s = (r, s') ->
    (forall r1 s1, m s = (r1, s1) ->
       exists evs, trace s1 = trace s ++ evs
                   /\ Forall (fun ev => is_chat_event ev = false) evs) ->
    (forall a s1 r2 s2, k a s1 = (r2, s2) ->
       exists evs, trace s2 = trace s1 ++ evs
                   /\ Forall (fun ev => is_chat_event ev = false) evs) ->
    exists evs, trace s' = trace s ++ evs
                /\ Forall (fun ev => is_chat_event ev = false) evs.
Proof.
  intros A B m k s r s' Hrun Hm Hk. unfold bind in Hrun.
  destruct (m s) as [[a | e] s1] eqn:Hms;
    destruct (Hm _ _ eq_refl) as [evs1 [Htr1 Hevs1]].
  - destruct (Hk _ _ _ _ Hrun) as [evs2 [Htr2 Hevs2]].
    exists (evs1 ++ evs2). rewrite Htr2, Htr1, <- app_assoc.
    split; [reflexivity | apply Forall_app; split; assumption].
  - inversion Hrun; subst. exists evs1. split; assumption.
Qed.

Lemma startup_shape :
  forall (env : Env) (s : State) r s',
    startup env s = (r, s') ->
    exists evs,
      trace s' = trace s ++ evs
      /\ Forall (fun ev => is_chat_event ev = false) evs.
Proof.
  intros env s r s' Hrun. unfold startup in Hrun.
  assert (Hprint :
            forall text s0 r0 s0',
              console_print env text s0 = (r0, s0') ->
              exists evs, trace s0' = trace s0 ++ evs
                          /\ Forall (fun ev => is_chat_event ev = false) evs).
  { intros text s0 r0 s0' H.
    destruct (console_print_shape _ _ _ _ _ H) as [_ [evs [Htr Hevs]]].
    exists evs. split; [exact Htr | exact (proj1 (Forall_printed _ Hevs))]. }
  assert (Hpanel :
            forall text title style s0 r0 s0',
              console_print_panel env text title style s0 = (r0, s0') ->
              exists evs, trace s0' = trace s0 ++ evs
                          /\ Forall (fun ev => is_chat_event ev = false) evs).
  { intros text title style s0 r0 s0' H.
    destruct (console_print_panel_shape _ _ _ _ _ _ _ H)
      as [_ [evs [Htr Hevs]]].
    exists evs. split; [exact Htr | exact (proj1 (Forall_printed _ Hevs))]. }
  eapply bind_shape; [exact Hrun | |].
  - intros r1 s1 H. exact (DocumentChatbot_shape _ _ _ _ H).
  - intros a1 s1 r2 s2 H2. eapply bind_shape; [exact H2 | |].
    + intros r3 s3 H. exact (Hprint _ _ _ _ H).
    + intros a3 s3 r4 s4 H4. eapply bind_shape; [exact H4 | |].
      * intros r5 s5 H. exact (load_documents_shape _ _ _ _ _ H).
      * intros a5 s5 r6 s6 H6. eapply bind_shape; [exact H6 | |].
        -- intros r7 s7 H. exact (Hprint _ _ _ _ H).
        -- intros a7 s7 r8 s8 H. exact (Hpanel _ _ _ _ _ _ H).
Qed.

(** ** Whole runs of [main] *)

Lemma some_injective :
  forall (A : Type) (a b : A), Some a = Some b -> a = b.
Proof. intros A a b H. congruence. Qed.

Lemma check_ollama_result :
  forall (env : Env) (s : State),
    exists b,
      check_ollama env s = (Return b, log (RequestsGet health_url 5) s).
Proof.
  intros env s. unfold check_ollama. unfold_monad.
  destruct (w_requests_get (world env) (trace s) "http://localhost:11434" 5);
    eexists; reflexivity.
Qed.

(** The [finally] clause: the shutdown message, then whatever was under
    way, unless the print itself raises. *)
Lemma main_finally_run :
  forall (env : Env) (r : Result unit) (s : State),
    main_finally env r s
    = match console_show env (Print shutdown_message) s with
      | (Return _, s') =>
          (match r with Return _ => Return tt | Raise e => Raise e end, s')
      | (Raise e', s') => (Raise e', s')
      end.
Proof.
  intros env r s. unfold main_finally, bind, ret, raise, console_print.
  destruct (console_show env (Print shutdown_message) s) as [[[] | e'] s'];
    [destruct r; reflexivity | reflexivity].
Qed.

Lemma main_epilogue_run :
  forall (env : Env) (r : Result unit) (s : State),
    main_epilogue env r s
    = match r with
      | Return _ => main_finally env (Return tt) s
      | Raise e =>
          if isinstance_Exception e
          then match console_show env (critical_failure_line e) s with
               | (handled, s') => main_finally env handled s'
               end
          else main_finally env (Raise e) s
      end.
Proof.
  intros env r s. unfold main_epilogue, critical_failure_line, console_print.
  destruct r as [[] | e]; [reflexivity |].
  destruct (isinstance_Exception e); reflexivity.
Qed.



Lemma main_finally_shape :
  forall (env : Env) (r : Result unit) (s : State) r' s',
    main_finally env r s = (r', s') ->
    (forall e, r' = Raise e ->
               r = Raise e \/ exists h ev, console_fault env h ev = Some e)
    /\ exists evs,
         trace s' = trace s ++ evs
         /\ Forall (fun ev => is_setup_event ev = false
                              /\ is_chain_invoke ev = false) evs.
Proof.
  intros env r s r' s' Hrun. rewrite main_finally_run in Hrun.
  destruct (console_show env (Print shutdown_message) s) as [r1 s1] eqn:Hshow.
  destruct (console_show_shape _ _ _ _ _ Hshow)
    as [[-> [-> _]] | [e' [-> [-> Hfault]]]]; inversion Hrun; subst.
  - split.
    + intros e He. left. destruct r as [[] | e0]; [discriminate He |].
      exact He.
    + eexists. rewrite trace_log. split; [reflexivity | repeat constructor].
  - split.
    + intros e He. inversion He; subst. right. eexists. eexists.
      exact Hfault.
    + exists []. rewrite app_nil_r. split; [reflexivity | constructor].
Qed.

(** Whatever leaves the two clauses is an exception they do not catch, or
    one the console raised; they only print. *)
Lemma main_epilogue_shape :
  forall (env : Env) (r : Result unit) (s : State) r' s',
    main_epilogue env r s = (r', s') ->
    (forall e, r' = Raise e ->
               (r = Raise e /\ isinstance_Exception e = false)
               \/ exists h ev, console_fault env h ev = Some e)
    /\ exists evs,
         trace s' = trace s ++ evs
         /\ Forall (fun ev => is_setup_event ev = false
                              /\ is_chain_invoke ev = false) evs.
Proof.
  intros env r s r' s' Hrun. rewrite main_epilogue_run in Hrun.
  destruct r as [[] | e].
  - destruct (main_finally_shape _ _ _ _ _ Hrun) as [Hraise Hevs].
    split; [| exact Hevs].
    intros e He. destruct (Hraise e He) as [H | H]; [discriminate H |].
    right. exact H.
  - destruct (isinstance_Exception e) eqn:He0.
    + destruct (console_show env (critical_failure_line e) s)
        as [handled s1] eqn:Hshow.
      destruct (main_finally_shape _ _ _ _ _ Hrun)
        as [Hraise [evs2 [Htr2 Hevs2]]].
      destruct (console_show_shape _ _ _ _ _ Hshow)
        as [[-> [-> _]] | [e' [-> [-> Hfault]]]].
      * split.
        -- intros e1 He1. destruct (Hraise e1 He1) as [H | H];
             [discriminate H | right; exact H].
        -- exists (critical_failure_line e :: evs2).
           rewrite Htr2, trace_log, <- app_assoc.
           split; [reflexivity |]. constructor; [split; reflexivity |].
           exact Hevs2.
      * split.
        -- intros e1 He1. right. destruct (Hraise e1 He1) as [H | H].
           ++ inversion H; subst. eexists. eexists. exact Hfault.
           ++ exact H.
        -- exists evs2. split; assumption.
    + destruct (main_finally_shape _ _ _ _ _ Hrun) as [Hraise Hevs].
      split; [| exact Hevs].
      intros e1 He1. destruct (Hraise e1 He1) as [H | H].
      * left. inversion H; subst. split; [reflexivity | exact He0].
      * right. exact H.
Qed.

(** Every way in which [main] ends, with what it has added to the
    trace. *)
Lemma main_shape :
  forall (env : Env) (fuel : nat) (s : State) r s',
    main env fuel s = Some (r, s') ->
    (forall e, r = Raise e ->
               isinstance_Exception e = false
               \/ exists h ev, console_fault env h ev = Some e)
    /\ (exists setup chat,
           trace s' = trace s ++ setup ++ chat
           /\ Forall (fun ev => is_chat_event ev = false) setup
           /\ Forall (fun ev => is_setup_event ev = false) chat)
    /\ (asked_by_user (world env) (trace s) ->
        asked_by_user (world env) (trace s')).
Proof.
  intros env fuel s r s' Hrun. rewrite main_run in Hrun.
  assert (Hquiet :
            forall evs : Trace,
              Forall (fun ev => is_chat_event ev = false) evs ->
              Forall (fun ev => is_chain_invoke ev = false) evs).
  { intros evs H. eapply Forall_impl; [| exact H].
    intros ev Hev. destruct ev; simpl in *; try reflexivity; discriminate. }
  destruct (console_show env startup_banner s) as [r0 s0] eqn:Hbanner.
  destruct (console_show_shape _ _ _ _ _ Hbanner)
    as [[-> [-> _]] | [e0 [-> [-> Hfault0]]]].
  - destruct (check_ollama_result env (log startup_banner s)) as [b Hcheck].
    rewrite Hcheck in Hrun. destruct b.
    + destruct (startup env (log (RequestsGet health_url 5)
                               (log startup_banner s)))
        as [r2 s2] eqn:Hstart.
      destruct (startup_shape _ _ _ _ Hstart) as [evs [Htr Hevs]].
      rewrite !trace_log, <- !app_assoc in Htr. simpl app in Htr.
      assert (Hsetup : Forall (fun ev => is_chat_event ev = false)
                         (startup_banner :: RequestsGet health_url 5 :: evs))
        by (constructor; [reflexivity |];
            constructor; [reflexivity | exact Hevs]).
      assert (Hask2 : asked_by_user (world env) (trace s) ->
                      asked_by_user (world env) (trace s2)).
      { intros Hask. rewrite Htr. apply asked_by_user_app; [exact Hask |].
        exact (Hquiet _ Hsetup). }
      destruct r2 as [[] | e1].
      * destruct (chat_loop env fuel s2) as [[r3 s3] |] eqn:Hloop;
          [| discriminate Hrun].
        pose proof (some_injective _ _ _ Hrun) as Hep.
        destruct (chat_loop_shape _ _ _ _ _ Hloop)
          as [_ [[evs3 [Htr3 Hevs3]] [Hask3 _]]].
        destruct (main_epilogue_shape _ _ _ _ _ Hep)
          as [Hraise [evs4 [Htr4 Hevs4]]].
        destruct (Forall_no_setup _ Hevs4) as [Hs4 Hq4].
        split; [| split].
        -- intros e He. destruct (Hraise e He) as [[_ H] | H];
             [left; exact H | right; exact H].
        -- exists (startup_banner :: RequestsGet health_url 5 :: evs),
             (evs3 ++ evs4).
           split; [rewrite Htr4, Htr3, Htr, <- !app_assoc; reflexivity |].
           split; [exact Hsetup | apply Forall_app; split; assumption].
        -- intros Hask. rewrite Htr4.
           apply asked_by_user_app; [exact (Hask3 (Hask2 Hask)) | exact Hq4].
      * pose proof (some_injective _ _ _ Hrun) as Hep.
        destruct (main_epilogue_shape _ _ _ _ _ Hep)
          as [Hraise [evs4 [Htr4 Hevs4]]].
        destruct (Forall_no_setup _ Hevs4) as [Hs4 Hq4].
        split; [| split].
        -- intros e He. destruct (Hraise e He) as [[_ H] | H];
             [left; exact H | right; exact H].
        -- exists (startup_banner :: RequestsGet health_url 5 :: evs), evs4.
           split; [rewrite Htr4, Htr, <- !app_assoc; reflexivity |].
           split; assumption.
        -- intros Hask. rewrite Htr4.
           apply asked_by_user_app; [exact (Hask2 Hask) | exact Hq4].
    + pose proof (some_injective _ _ _ Hrun) as Hlines. clear Hrun.
      unfold bind in Hlines.
      destruct (console_print env "[red]❌ Ollama is not running![/]"
                  (log (RequestsGet health_url 5) (log startup_banner s)))
        as [r1 s1] eqn:H1.
      destruct (console_print_shape _ _ _ _ _ H1) as [_ [evs1 [Htr1 Hevs1]]].
      destruct (console_show_shape _ _ _ _ _ H1)
        as [[-> _] | [e1 [-> [_ Hf1]]]].
      * destruct (console_print env "Please first run in another terminal:"
                    s1) as [r2 s2] eqn:H2.
        destruct (console_print_shape _ _ _ _ _ H2) as [_ [evs2 [Htr2 Hevs2]]].
        destruct (console_show_shape _ _ _ _ _ H2)
          as [[-> _] | [e2 [-> [_ Hf2]]]].
        -- destruct (console_print_shape _ _ _ _ _ Hlines)
             as [_ [evs3 [Htr3 Hevs3]]].
           destruct (Forall_printed _ Hevs1) as [Hc1 [_ Hq1]].
           destruct (Forall_printed _ Hevs2) as [Hc2 [_ Hq2]].
           destruct (Forall_printed _ Hevs3) as [Hc3 [_ Hq3]].
           split; [| split].
           ++ intros e He. right.
              destruct (console_show_shape _ _ _ _ _ Hlines)
                as [[Hr _] | [e3 [Hr [_ Hf3]]]]; [congruence |].
              rewrite Hr in He. inversion He; subst.
              eexists. eexists. exact Hf3.
           ++ exists ([startup_banner; RequestsGet health_url 5]
                        ++ evs1 ++ evs2 ++ evs3), [].
              rewrite app_nil_r.
              split; [rewrite Htr3, Htr2, Htr1, !trace_log, <- !app_assoc;
                      reflexivity |].
              split; [| constructor].
              constructor; [reflexivity |]. constructor; [reflexivity |].
              repeat (apply Forall_app; split; try assumption).
           ++ intros Hask. rewrite Htr3, Htr2, Htr1, !trace_log, <- !app_assoc.
              apply asked_by_user_app; [exact Hask |].
              constructor; [reflexivity |]. constructor; [reflexivity |].
              repeat (apply Forall_app; split; try assumption).
        -- inversion Hlines; subst.
           destruct (Forall_printed _ Hevs1) as [Hc1 [_ Hq1]].
           destruct (Forall_printed _ Hevs2) as [Hc2 [_ Hq2]].
           split; [| split].
           ++ intros e He. inversion He; subst. right.
              eexists. eexists. exact Hf2.
           ++ exists ([startup_banner; RequestsGet health_url 5]
                        ++ evs1 ++ evs2), [].
              rewrite app_nil_r.
              split; [rewrite Htr2, Htr1, !trace_log, <- !app_assoc;
                      reflexivity |].
              split; [| constructor].
              constructor; [reflexivity |]. constructor; [reflexivity |].
              apply Forall_app; split; assumption.
           ++ intros Hask. rewrite Htr2, Htr1, !trace_log, <- !app_assoc.
              apply asked_by_user_app; [exact Hask |].
              constructor; [reflexivity |]. constructor; [reflexivity |].
              apply Forall_app; split; assumption.
      * inversion Hlines; subst.
        destruct (Forall_printed _ Hevs1) as [Hc1 [_ Hq1]].
        split; [| split].
        -- intros e He. inversion He; subst. right.
           eexists. eexists. exact Hf1.
        -- exists ([startup_banner; RequestsGet health_url 5] ++ evs1), [].
           rewrite app_nil_r.
           split; [rewrite Htr1, !trace_log, <- !app_assoc; reflexivity |].
           split; [| constructor].
           constructor; [reflexivity |]. constructor; [reflexivity |].
           exact Hc1.
        -- intros Hask. rewrite Htr1, !trace_log, <- !app_assoc.
           apply asked_by_user_app; [exact Hask |].
           constructor; [reflexivity |]. constructor; [reflexivity |].
           exact Hq1.
  - inversion Hrun; subst. split; [| split].
    + intros e He. inversion He; subst. right. eexists. eexists.
      exact Hfault0.
    + exists [], []. rewrite app_nil_r. split; [reflexivity |].
      split; constructor.
    + intros Hask. exact Hask.
Qed.

(** X14. [main] catches every instance of [Exception] raised at startup
    or in the chat: an exception that leaves [main] is a
    [KeyboardInterrupt] or a [SystemExit], or else it was raised by the
    console itself while [main] was printing (the critical-failure line
    interpolates the exception text as markup, and the [finally] clause
    prints too).  With a console that shows everything, no instance of
    [Exception] leaves [main]. *)
Theorem main_never_raises_Exception :
  forall (env : Env) (fuel : nat) (s : State) (e : PyExc) (s' : State),
    main env fuel s = Some (Raise e, s') ->
    (isinstance_Exception e = false
     \/ exists h ev, console_fault env h ev = Some e)
    /\ (console_works env -> isinstance_Exception e = false).
Proof.
  intros env fuel s e s' Hrun.
  destruct (main_shape env fuel s _ _ Hrun) as [Hraise _].
  split; [exact (Hraise e eq_refl) |].
  intros Hconsole. destruct (Hraise e eq_refl) as [H | [h [ev Hfault]]];
    [exact H |].
  rewrite (Hconsole h ev) in Hfault. discriminate Hfault.
Qed.

Lemma main_never_raises_Exception_witness :
  exists s',
    main Demo.interrupted_load 1 Demo.fresh = Some (Raise KeyboardInterrupt, s')
    /\ (isinstance_Exception KeyboardInterrupt = false
        \/ exists h ev,
             console_fault Demo.interrupted_load h ev = Some KeyboardInterrupt)
    /\ (console_works Demo.interrupted_load ->
        isinstance_Exception KeyboardInterrupt = false).
Proof.
  eexists. split; [vm_compute; reflexivity |].
  eapply (main_never_raises_Exception Demo.interrupted_load 1 Demo.fresh).
  vm_compute. reflexivity.
Defined.

(** When the language model fails with a message that quotes a prompt
    template, every line that reports the failure is rejected by the
    console: the error line of [answer_question], the chat-error line of
    the loop and the critical-failure line of [main].  The shutdown
    message is printed and [main] raises [MarkupError]. *)
Example main_raises_markup_error :
  match main Faulty.template_leak 3 Demo.fresh with
  | Some (Raise e, s') =>
      e = Faulty.markup_error
      /\ isinstance_Exception e = true
      /\ last (trace s') startup_banner = Print shutdown_message
  | _ => False
  end.
Proof. vm_compute. repeat split. Qed.



(** X16. A run of [main] has two phases that never mix.  Its trace is a
    setup part followed by a chat part: the setup part contains no prompt
    and no retrieval or chain call; the chat part contains no health
    check, no constructor, no folder listing, no loader call, no split and
    no indexing.  And every query the chain receives comes right after a
    prompt and the two calls that prepare the chain, and is the line that
    very prompt returned, which is no exit keyword, behind the fixed
    instruction. *)
Theorem main_phases :
  forall (env : Env) (fuel : nat) (s : State) r s',
    main env fuel s = Some (r, s') ->
    (exists setup chat,
        trace s' = trace s ++ setup ++ chat
        /\ Forall (fun ev => is_chat_event ev = false) setup
        /\ Forall (fun ev => is_setup_event ev = false) chat)
    /\ (asked_by_user (world env) (trace s) ->
        asked_by_user (world env) (trace s')).
Proof.
  intros env fuel s r s' Hrun.
  destruct (main_shape env fuel s r s' Hrun) as [_ Hphases].
  exact Hphases.
Qed.

Lemma main_phases_witness :
  (exists setup chat,
      trace (snd (match main Demo.healthy 2 Demo.fresh with
                  | Some rs => rs
                  | None => (Return tt, Demo.fresh)
                  end))
      = trace Demo.fresh ++ setup ++ chat
      /\ Forall (fun ev => is_chat_event ev = false) setup
      /\ Forall (fun ev => is_setup_event ev = false) chat)
  /\ asked_by_user Demo.healthy
       (trace (snd (match main Demo.healthy 2 Demo.fresh with
                    | Some rs => rs
                    | None => (Return tt, Demo.fresh)
                    end))).
Proof.
  destruct (main_phases Demo.healthy 2 Demo.fresh (Return tt)
              (snd (match main Demo.healthy 2 Demo.fresh with
                    | Some rs => rs
                    | None => (Return tt, Demo.fresh)
                    end)))
    as [Hphases Hask].
  - vm_compute. reflexivity.
  - split; [exact Hphases |].
    apply Hask. apply asked_by_user_nil.
Defined.

(** X17. A startup that fails with an instance of [Exception] (a model
    that cannot be built, a missing folder, an empty corpus, a failing
    splitter or vector store) is fatal; the chat never starts, so the
    trace holds no prompt and no retrieval or chain call.  [main] prints
    the critical-failure line with the exception's message, then the
    shutdown message, and returns normally.  When the console rejects the
    critical-failure line, [main] still prints the shutdown message and
    then raises the console's exception. *)
Theorem main_startup_failure :
  forall (env : Env) (fuel : nat) (s : State) (response : Response)
         (e : PyExc) (s2 : State),
    console_fault env (trace s) startup_banner = None ->
    w_requests_get (world env) (trace s ++ [startup_banner]) health_url 5
    = Return response ->
    status_code response = 200%Z ->
    startup env (log (RequestsGet health_url 5) (log startup_banner s))
    = (Raise e, s2) ->
    isinstance_Exception e = true ->
    (console_fault env (trace s2) (critical_failure_line e) = None ->
     console_fault env (trace s2 ++ [critical_failure_line e])
       (Print shutdown_message) = None ->
     main env fuel s
     = Some (Return tt,
             log (Print shutdown_message) (log (critical_failure_line e) s2)))
    /\ (forall e',
           console_fault env (trace s2) (critical_failure_line e) = Some e' ->
           console_fault env (trace s2) (Print shutdown_message) = None ->
           main env fuel s = Some (Raise e', log (Print shutdown_message) s2))
    /\ exists evs,
         trace s2 = trace s ++ evs
         /\ Forall (fun ev => is_chat_event ev = false) evs.
Proof.
  intros env fuel s response e s2 Hbanner Hget Hok Hstart He.
  assert (Hmain : main env fuel s = Some (main_epilogue env (Raise e) s2)).
  { rewrite main_run, (console_show_ok env _ _ Hbanner).
    rewrite (check_ollama_true env (log startup_banner s) response);
      [| rewrite trace_log; exact Hget | exact Hok].
    rewrite Hstart. reflexivity. }
  rewrite Hmain, main_epilogue_run, He. split; [| split].
  - intros Hline Hlast.
    rewrite (console_show_ok env _ _ Hline), main_finally_run.
    rewrite (console_show_ok env (Print shutdown_message)
               (log (critical_failure_line e) s2) Hlast).
    reflexivity.
  - intros e' Hline Hlast.
    rewrite (console_show_fails env _ _ e' Hline), main_finally_run.
    rewrite (console_show_ok env _ _ Hlast). reflexivity.
  - destruct (startup_shape _ _ _ _ Hstart) as [evs [Htr Hevs]].
    rewrite !trace_log, <- !app_assoc in Htr. simpl app in Htr.
    eexists. split; [exact Htr |].
    constructor; [reflexivity |]. constructor; [reflexivity | exact Hevs].
Qed.

Lemma main_startup_failure_witness :
  main Demo.no_folder 3 Demo.fresh
  = Some (Return tt,
          mkState
            [startup_banner;
             RequestsGet health_url 5;
             NewEmbeddings; NewOllama; NewTextSplitter;
             Print "[green]✅ Models loaded successfully[/]";
             Print "[bold]📂 Loading documents...[/]";
             PathExists "./documents";
             Print "[red]Critical failure: Folder not found: ./documents[/]";
             Print shutdown_message]
            None).
Proof.
  apply (proj1 (main_startup_failure
                  Demo.no_folder 3 Demo.fresh (mkResponse 200)
                  (ValueError "Folder not found: ./documents")
                  (mkState
                     [startup_banner;
                      RequestsGet health_url 5;
                      NewEmbeddings; NewOllama; NewTextSplitter;
                      Print "[green]✅ Models loaded successfully[/]";
                      Print "[bold]📂 Loading documents...[/]";
                      PathExists "./documents"]
                     None)
                  eq_refl eq_refl eq_refl eq_refl eq_refl));
    reflexivity.
Defined.

Lemma main_after_break :
  forall (w : World) (s0 : State) (response : Response) (s1 : State)
         (n : nat) (s s' : State) (fuel : nat),
    w_requests_get w (trace s0 ++ [startup_banner]) health_url 5
    = Return response ->
    status_code response = 200%Z ->
    startup w (log (RequestsGet health_url 5) (log startup_banner s0))
    = (Return tt, s1) ->
    continue_passes w n s1 = Some s ->
    chat_iteration w s = (Return Break, s') ->
    main w (n + S fuel) s0 = Some (Return tt, log (Print shutdown_message) s').
Proof.
  intros w s0 response s1 n s s' fuel Hget Hok Hstart Hpasses Hbreak.
  rewrite main_run_quiet.
  rewrite (check_ollama_true w (log startup_banner s0) response);
    [| rewrite trace_log; exact Hget | exact Hok].
  rewrite Hstart.
  rewrite (chat_loop_after_passes w n s1 s (S fuel) Hpasses).
  simpl chat_loop. rewrite Hbreak. reflexivity.
Qed.

(** X18. Ctrl-C at the prompt ends the session cleanly: in a run that got
    through startup, after any number of passes, a [KeyboardInterrupt]
    raised by the prompt makes [main] print the interrupt line, then the
    shutdown message, and return normally. *)
Theorem main_interrupt_at_prompt :
  forall (w : World) (s0 : State) (response : Response) (s1 : State)
         (n : nat) (s : State) (fuel : nat),
    w_requests_get w (trace s0 ++ [startup_banner]) health_url 5
    = Return response ->
    status_code response = 200%Z ->
    startup w (log (RequestsGet health_url 5) (log startup_banner s0))
    = (Return tt, s1) ->
    continue_passes w n s1 = Some s ->
    prompt_of w s = Raise KeyboardInterrupt ->
    main w (n + S fuel) s0
    = Some (Return tt,
            log (Print shutdown_message)
              (log interrupt_line (log prompt_event s))).
Proof.
  intros w s0 response s1 n s fuel Hget Hok Hstart Hpasses Hprompt.
  apply (main_after_break w s0 response s1 n s _ fuel Hget Hok Hstart Hpasses).
  rewrite chat_iteration_run. cbn [world quiet]. rewrite Hprompt.
  reflexivity.
Qed.

Lemma main_interrupt_at_prompt_witness :
  exists s1,
    startup Scenario.interrupted_prompt Scenario.checked = (Return tt, s1)
    /\ main Scenario.interrupted_prompt (0 + 1) Demo.fresh
       = Some (Return tt,
               log (Print shutdown_message)
                 (log interrupt_line (log prompt_event s1))).
Proof.
  eexists. split; [vm_compute; reflexivity |].
  eapply (main_interrupt_at_prompt
            Scenario.interrupted_prompt Demo.fresh (mkResponse 200) _ 0 _ 0).
  - reflexivity.
  - reflexivity.
  - vm_compute; reflexivity.
  - vm_compute; reflexivity.
  - vm_compute; reflexivity.
Defined.

(** X19. Ctrl-C while a question is being answered ends the session just
    as cleanly: the [KeyboardInterrupt] that [answer_question] lets
    through is caught by the loop, and [main] prints the interrupt line,
    then the shutdown message, and returns normally; no answer panel is
    shown for that question. *)
Theorem main_interrupt_while_answering :
  forall (w : World) (s0 : State) (response : Response) (s1 : State)
         (n : nat) (s : State) (user_input : string) (s_a : State)
         (fuel : nat),
    w_requests_get w (trace s0 ++ [startup_banner]) health_url 5
    = Return response ->
    status_code response = 200%Z ->
    startup w (log (RequestsGet health_url 5) (log startup_banner s0))
    = (Return tt, s1) ->
    continue_passes w n s1 = Some s ->
    prompt_of w s = Return user_input ->
    is_exit_keyword user_input = false ->
    answer_question w user_input (log prompt_event s)
    = (Raise KeyboardInterrupt, s_a) ->
    main w (n + S fuel) s0
    = Some (Return tt, log (Print shutdown_message) (log interrupt_line s_a)).
Proof.
  intros w s0 response s1 n s user_input s_a fuel
         Hget Hok Hstart Hpasses Hprompt Hkey Hanswer.
  apply (main_after_break w s0 response s1 n s _ fuel Hget Hok Hstart Hpasses).
  rewrite chat_iteration_run. cbn [world quiet].
  rewrite Hprompt, Hkey, Hanswer. reflexivity.
Qed.

Lemma main_interrupt_while_answering_witness :
  exists s1 s_a,
    startup Demo.interrupted_answer Scenario.checked = (Return tt, s1)
    /\ answer_question Demo.interrupted_answer
         "What was the quarterly revenue?" (log prompt_event s1)
       = (Raise KeyboardInterrupt, s_a)
    /\ main Demo.interrupted_answer (0 + 1) Demo.fresh
       = Some (Return tt,
               log (Print shutdown_message) (log interrupt_line s_a)).
Proof.
  eexists. eexists.
  split; [vm_compute; reflexivity |].
  split; [vm_compute; reflexivity |].
  eapply (main_interrupt_while_answering
            Demo.interrupted_answer Demo.fresh (mkResponse 200) _ 0 _
            "What was the quarterly revenue?" _ 0).
  - reflexivity.
  - reflexivity.
  - vm_compute; reflexivity.
  - vm_compute; reflexivity.
  - vm_compute; reflexivity.
  - reflexivity.
  - vm_compute; reflexivity.
Defined.

Lemma chat_loop_prompt_always_fails :
  forall (env : Env),
    (forall h, exists e,
        w_prompt (world env) h "❔ Question: " ".chat_history" = Raise e
        /\ isinstance_Exception e = true) ->
    (forall h e, console_fault env h (chat_error_line e) = None) ->
    forall (fuel : nat) (s : State), chat_loop env fuel s = None.
Proof.
  intros env Hprompt Hshow. induction fuel as [| fuel IH]; intros s;
    [reflexivity |].
  simpl. rewrite chat_iteration_run. unfold prompt_of.
  destruct (Hprompt (trace s)) as [e [Hraise He]]. rewrite Hraise.
  destruct e as [cls msg | |]; try discriminate He.
  unfold chat_handler, bind, ret.
  rewrite (console_show_ok env _ _ (Hshow _ _)). apply IH.
Qed.

(** X20. When every prompt fails with an instance of [Exception] (an
    [EOFError] on a closed standard input, for one) and the console shows
    the chat-error lines, the session never ends: each pass prints a chat
    error and the loop prompts again, so [main], once through startup,
    does not come back within any number of passes. *)
Theorem main_never_ends_without_input :
  forall (env : Env) (fuel : nat) (s0 : State) (response : Response)
         (s1 : State),
    console_fault env (trace s0) startup_banner = None ->
    w_requests_get (world env) (trace s0 ++ [startup_banner]) health_url 5
    = Return response ->
    status_code response = 200%Z ->
    startup env (log (RequestsGet health_url 5) (log startup_banner s0))
    = (Return tt, s1) ->
    (forall h, exists e,
        w_prompt (world env) h "❔ Question: " ".chat_history" = Raise e
        /\ isinstance_Exception e = true) ->
    (forall h e, console_fault env h (chat_error_line e) = None) ->
    main env fuel s0 = None
    /\ exists e,
         prompt_of (world env) s1 = Raise e
         /\ chat_iteration env s1
            = (Return Continue,
               log (chat_error_line e) (log prompt_event s1)).
Proof.
  intros env fuel s0 response s1 Hbanner Hget Hok Hstart Hprompt Hshow. split.
  - rewrite main_run, (console_show_ok env _ _ Hbanner).
    rewrite (check_ollama_true env (log startup_banner s0) response);
      [| rewrite trace_log; exact Hget | exact Hok].
    rewrite Hstart, (chat_loop_prompt_always_fails env Hprompt Hshow).
    reflexivity.
  - destruct (Hprompt (trace s1)) as [e [Hraise He]].
    exists e. split; [exact Hraise |].
    rewrite chat_iteration_run. unfold prompt_of. rewrite Hraise.
    destruct e as [cls msg | |]; try discriminate He.
    unfold chat_handler, bind, ret.
    rewrite (console_show_ok env _ _ (Hshow _ _)). reflexivity.
Qed.

Lemma main_never_ends_without_input_witness :
  main Scenario.closed_stdin 40 Demo.fresh = None.
Proof.
  eapply (proj1 (main_never_ends_without_input
                   Scenario.closed_stdin 40 Demo.fresh (mkResponse 200) _
                   eq_refl eq_refl eq_refl _ _ _)).
  Unshelve.
  - exact (snd (startup Scenario.closed_stdin Scenario.checked)).
  - vm_compute. reflexivity.
  - intros h. exists (ExceptionInst "EOFError" ""). split; reflexivity.
  - intros h e. reflexivity.
Defined.

(** ** Which loader a file gets *)

(** X21. The loader is chosen by the file's suffix without regard to
    case, and the table is complete: the PDF loader for [.pdf], the Word
    loader for [.docx] and [.doc], the Excel loader for [.xlsx] and
    [.xls], and the generic loader for every other suffix, the empty one
    included.  The loop calls exactly that loader with the file's path. *)
Theorem file_loader_table :
  forall (w : World) (f : Path) (docs : list Document) (s : State),
    let ext := lower (path_suffix f) in
    (file_loader f = PyPDFLoader <-> ext = ".pdf"%string)
    /\ (file_loader f = Docx2txtLoader
        <-> ext = ".docx"%string \/ ext = ".doc"%string)
    /\ (file_loader f = UnstructuredExcelLoader
        <-> ext = ".xlsx"%string \/ ext = ".xls"%string)
    /\ (file_loader f = UnstructuredFileLoader
        <-> ext <> ".pdf"%string /\ ext <> ".docx"%string
            /\ ext <> ".doc"%string /\ ext <> ".xlsx"%string
            /\ ext <> ".xls"%string)
    /\ exists evs,
         trace (snd (load_file w f docs s))
         = trace s ++ LoaderLoad (file_loader f) (path_str f) :: evs.
Proof.
  intros w f docs s ext.
  assert (Htable :
            (file_loader f = PyPDFLoader <-> ext = ".pdf"%string)
            /\ (file_loader f = Docx2txtLoader
                <-> ext = ".docx"%string \/ ext = ".doc"%string)
            /\ (file_loader f = UnstructuredExcelLoader
                <-> ext = ".xlsx"%string \/ ext = ".xls"%string)
            /\ (file_loader f = UnstructuredFileLoader
                <-> ext <> ".pdf"%string /\ ext <> ".docx"%string
                    /\ ext <> ".doc"%string /\ ext <> ".xlsx"%string
                    /\ ext <> ".xls"%string)).
  { unfold file_loader, loaders. fold ext.
    destruct (String.eqb_spec ext ".pdf") as [-> | H1].
    { repeat split; intros; try reflexivity; try discriminate;
        intuition discriminate. }
    destruct (String.eqb_spec ext ".docx") as [-> | H2].
    { repeat split; intros; try reflexivity; try discriminate;
        intuition discriminate. }
    destruct (String.eqb_spec ext ".xlsx") as [-> | H3].
    { repeat split; intros; try reflexivity; try discriminate;
        intuition discriminate. }
    destruct (String.eqb_spec ext ".doc") as [-> | H4].
    { repeat split; intros; try reflexivity; try discriminate;
        intuition discriminate. }
    destruct (String.eqb_spec ext ".xls") as [-> | H5].
    { repeat split; intros; try reflexivity; try discriminate;
        intuition discriminate. }
    repeat split; intros; try reflexivity; try discriminate;
      try assumption; intuition congruence. }
  destruct Htable as [H1 [H2 [H3 H4]]].
  repeat (split; [assumption |]).
  destruct (load_file w f docs s) as [r s'] eqn:Hrun.
  destruct (load_file_shape w f docs s r s' Hrun) as [_ [evs [Htr _]]].
  exists evs. exact Htr.
Qed.

(** ** Documents of one file, documents without a source *)

Lemma dict_get_missing :
  forall (d : list (string * string)) (key default : string),
    ~ In key (map fst d) -> dict_get d key default = default.
Proof.
  induction d as [| [k v] r IH]; intros key default Hnot; simpl.
  - reflexivity.
  - destruct (String.eqb_spec k key) as [Heq | Hneq].
    + exfalso. apply Hnot. left. exact Heq.
    + apply IH. intros Hin. apply Hnot. right. exact Hin.
Qed.

Lemma dict_get_present :
  forall (d : list (string * string)) (key default value : string),
    NoDup (map fst d) -> In (key, value) d -> dict_get d key default = value.
Proof.
  induction d as [| [k v] r IH]; intros key default value Hnd Hin; simpl.
  - destruct Hin.
  - inversion Hnd as [| ? ? Hnotin Hr]; subst.
    destruct Hin as [Heq | Hin].
    + inversion Heq; subst. rewrite String.eqb_refl. reflexivity.
    + destruct (String.eqb_spec k key) as [Heq | Hneq].
      * exfalso. subst k. apply Hnotin.
        apply (in_map fst) in Hin. exact Hin.
      * apply IH; assumption.
Qed.

(** X22. The source of a document is read from its metadata: it is the
    value stored under the key [source], and the fixed text
    [Unknown source] when the metadata has no such key. *)
Theorem doc_source_lookup :
  forall doc : Document,
    NoDup (map fst (metadata doc)) ->
    (forall path, In ("source"%string, path) (metadata doc) ->
                  doc_source doc = path)
    /\ (~ In "source"%string (map fst (metadata doc)) ->
        doc_source doc = "Unknown source"%string).
Proof.
  intros doc Hnd. unfold doc_source. split.
  - intros path Hin. apply dict_get_present; assumption.
  - intros Hnot. apply dict_get_missing. exact Hnot.
Qed.

Lemma doc_source_lookup_witness :
  (forall path, In ("source"%string, path) (metadata Demo.page2) ->
                doc_source Demo.page2 = path)
  /\ (~ In "source"%string (map fst (metadata Demo.page2)) ->
      doc_source Demo.page2 = "Unknown source"%string).
Proof.
  apply (doc_source_lookup Demo.page2).
  repeat constructor; simpl; intuition discriminate.
Defined.

Lemma record_sources_one_source :
  forall (p : string) (docs : list Document),
    (forall d, In d docs -> doc_source d = p) ->
    fold_left record_source docs [] = []
    \/ exists entry, fold_left record_source docs [] = [(p, entry)].
Proof.
  intros p docs Hall.
  destruct (record_sources_spec docs [] (NoDup_nil _)) as [Hnodup [Hkeys _]].
  destruct (fold_left record_source docs []) as [| [k1 v1] rest];
    [left; reflexivity | right].
  assert (Hk : forall k, In k (map fst ((k1, v1) :: rest)) -> k = p).
  { intros k Hin. apply Hkeys in Hin. destruct Hin as [[] | Hin].
    apply in_map_iff in Hin. destruct Hin as [d [Hd Hin]].
    rewrite <- Hd. apply Hall. exact Hin. }
  assert (Hk1 : k1 = p) by (apply Hk; left; reflexivity).
  destruct rest as [| [k2 v2] rest].
  - exists v1. subst k1. reflexivity.
  - exfalso. assert (Hk2 : k2 = p) by (apply Hk; right; left; reflexivity).
    simpl in Hnodup. inversion Hnodup as [| ? ? Hnotin _]; subst.
    apply Hnotin. left. reflexivity.
Qed.

(** X23. Retrieved documents that all have the same source (the chunks
    of one file, or documents that all lack a source) give a source list
    with a single entry, and that entry carries the preview of the last
    of them, not of the first. *)
Theorem sources_of_one_file :
  forall (docs : list Document) (doc : Document) (path : string),
    (forall d, In d (docs ++ [doc]) -> doc_source d = path) ->
    dict_values (unique_sources (docs ++ [doc]))
    = [mkSourceEntry path (preview (page_content doc))].
Proof.
  intros docs doc path Hall.
  rewrite unique_sources_fold, fold_left_app. simpl fold_left.
  assert (Hdoc : doc_source doc = path)
    by (apply Hall; apply in_or_app; right; left; reflexivity).
  assert (Hdocs : forall d, In d docs -> doc_source d = path)
    by (intros d Hin; apply Hall; apply in_or_app; left; exact Hin).
  unfold record_source at 1. cbn zeta. rewrite Hdoc.
  destruct (record_sources_one_source path docs Hdocs) as [Hnil | [entry Hone]].
  - rewrite Hnil. reflexivity.
  - rewrite Hone. simpl. rewrite String.eqb_refl. reflexivity.
Qed.

Lemma sources_of_one_file_witness :
  dict_values (unique_sources ([Demo.accented_title; Demo.accented_long;
                                Demo.accented_title]
                               ++ [Demo.accented_long]))
  = [mkSourceEntry "documentos/relatório.pdf"
       (preview (page_content Demo.accented_long))].
Proof.
  apply (sources_of_one_file
           [Demo.accented_title; Demo.accented_long; Demo.accented_title]
           Demo.accented_long "documentos/relatório.pdf").
  intros d Hin. simpl in Hin.
  destruct Hin as [<- | [<- | [<- | [<- | []]]]]; reflexivity.
Defined.

(** The single entry of those four chunks, spelled out: the first 250
    letters of the last chunk and the ellipsis. *)
Example sources_of_one_file_accented :
  dict_values (unique_sources [Demo.accented_title; Demo.accented_long;
                               Demo.accented_title; Demo.accented_long])
  = [mkSourceEntry "documentos/relatório.pdf"
       (Demo.times 250 "é" ++ "...")].
Proof. vm_compute. reflexivity. Qed.

(** ** Exit keywords are matched whole *)

Lemma lower_length :
  forall s : string, String.length (lower s) = String.length s.
Proof.
  induction s as [| c r IH]; simpl; [reflexivity | now rewrite IH].
Qed.

Lemma is_exit_keyword_length :
  forall user_input : string,
    is_exit_keyword user_input = true -> String.length user_input = 4.
Proof.
  intros user_input Hkey. rewrite <- lower_length.
  apply is_exit_keyword_spec in Hkey.
  destruct Hkey as [-> | [-> | ->]]; reflexivity.
Qed.

(** X24. An exit keyword is recognised only when it is the whole line:
    every terminating line has exactly four characters, so a keyword with
    anything typed before or after it (a space, for one) is treated as a
    question and the chat goes on. *)
Theorem exit_keyword_is_whole_line :
  forall user_input before after : string,
    is_exit_keyword user_input = true ->
    String.length user_input = 4
    /\ (before <> ""%string \/ after <> ""%string ->
        is_exit_keyword (before ++ user_input ++ after) = false).
Proof.
  intros user_input before after Hkey.
  pose proof (is_exit_keyword_length user_input Hkey) as Hlen.
  split; [exact Hlen |].
  intros Hpad.
  destruct (is_exit_keyword (before ++ user_input ++ after)) eqn:Hk;
    [| reflexivity].
  exfalso. apply is_exit_keyword_length in Hk.
  rewrite !string_length_append, Hlen in Hk.
  destruct Hpad as [Hb | Ha].
  - destruct before; [contradiction | simpl in Hk; lia].
  - destruct after; [contradiction | simpl in Hk; lia].
Qed.

Lemma exit_keyword_is_whole_line_witness :
  String.length "Quit" = 4
  /\ (""%string <> ""%string \/ " "%string <> ""%string ->
      is_exit_keyword ("" ++ "Quit" ++ " ") = false).
Proof.
  apply (exit_keyword_is_whole_line "Quit" "" " "). reflexivity.
Defined.
